(** * The signed GWN API client of [gwn_manager_api.py]

    A shallow embedding of [GWNClient] (authentication, request signing,
    the signed request executor, the three endpoint callers and the snapshot
    builder [get_data]) together with the library functions it relies on.

    Modelling conventions.
    - A Python [str] is a Rocq [string] whose characters are read as the code
      points 0..255; [encode_utf8] is the genuine UTF-8 encoding of such a
      string.
    - A parsed JSON value is a [json]; Python's [None] is [JNull]; a Python
      dict is an association list in insertion order.  The numbers of a JSON
      document are the integers (a document with a floating point number is
      outside the model).
    - A Python [float] is a binary64 number, held as the rational number it
      denotes; arithmetic on floats returns the exact result rounded to the
      nearest binary64 number, ties to even, as IEEE 754 has it.
    - [time.time()] is read from a scripted clock, whose readings are the
      floats that [time.time()] returns: binary64 numbers of seconds, bounded
      by the 64-bit count of nanoseconds they are made from (below [2^34]
      seconds in magnitude).  No sum or product the client computes on such
      readings reaches the infinities.
    - [httpx] is a scripted server: for each call it is handed, the script
      says whether httpx refuses the URL ([httpx.InvalidURL]), fails to
      complete the exchange ([httpx.RequestError]) or returns a response.
      Clock and server live in the [world], which also records every call
      handed to httpx.
    - A Python exception is a [Raise]; state changes made before an exception
      is raised are kept, as in Python.
    - [print] has no effect on any value and is not modelled. *)

From Stdlib Require Import ZArith QArith Qround List String Ascii Bool Lia.
From Stdlib Require Import DecimalString.
Import ListNotations.

Set Warnings "-register-all".

Local Open Scope list_scope.
Local Open Scope string_scope.
Local Open Scope Z_scope.

(** ** [hashlib.sha256]: FIPS 180-4 over 32-bit words held in [Z] *)

Module Sha256.

Definition mask32 : Z := 0xFFFFFFFF.

Definition add32 (x y : Z) : Z := Z.land (x + y) mask32.

Definition rotr (n x : Z) : Z :=
  Z.lor (Z.shiftr x n) (Z.land (Z.shiftl x (32 - n)) mask32).

Definition not32 (x : Z) : Z := Z.lxor x mask32.

Definition Ch (x y z : Z) : Z := Z.lxor (Z.land x y) (Z.land (not32 x) z).

Definition Maj (x y z : Z) : Z :=
  Z.lxor (Z.lxor (Z.land x y) (Z.land x z)) (Z.land y z).

Definition Sigma0 (x : Z) : Z := Z.lxor (Z.lxor (rotr 2 x) (rotr 13 x)) (rotr 22 x).
Definition Sigma1 (x : Z) : Z := Z.lxor (Z.lxor (rotr 6 x) (rotr 11 x)) (rotr 25 x).
Definition sigma0 (x : Z) : Z := Z.lxor (Z.lxor (rotr 7 x) (rotr 18 x)) (Z.shiftr x 3).
Definition sigma1 (x : Z) : Z := Z.lxor (Z.lxor (rotr 17 x) (rotr 19 x)) (Z.shiftr x 10).

(** The constants of the standard are fractional parts of roots of the first
    primes: the first 32 bits of the fractional part of the cube root of each
    of the first 64 primes for [K], and of the square root of each of the
    first 8 primes for [H0]. *)
Definition is_prime (n : Z) : bool :=
  forallb (fun d => negb (n mod d =? 0) || (n <=? d))
          (map Z.of_nat (seq 2 (Z.to_nat (Z.sqrt n)))).

Definition primes : list Z :=
  filter is_prime (map Z.of_nat (seq 2 310)).

(** The integer cube root, one bit at a time from bit [bits - 1] down. *)
Fixpoint cube_root (bits : nat) (n r : Z) : Z :=
  match bits with
  | O => r
  | S b =>
      let r' := r + Z.shiftl 1 (Z.of_nat b) in
      cube_root b n (if r' * r' * r' <=? n then r' else r)
  end.

Definition K : list Z :=
  Eval vm_compute in
    map (fun p => Z.land (cube_root 36 (Z.shiftl p 96) 0) mask32) (firstn 64 primes).

Definition H0 : list Z :=
  Eval vm_compute in
    map (fun p => Z.land (Z.sqrt (Z.shiftl p 64)) mask32) (firstn 8 primes).

(** Big-endian bytes of the [n] low-order bytes of [x]. *)
Fixpoint be_bytes (n : nat) (x : Z) : list Z :=
  match n with
  | O => []
  | S k => Z.land (Z.shiftr x (8 * Z.of_nat k)) 0xFF :: be_bytes k x
  end.

Definition be_word (bs : list Z) : Z :=
  fold_left (fun acc b => Z.lor (Z.shiftl acc 8) b) bs 0.

(** Padding: a one bit, zero bits up to 56 modulo 64 bytes, and the length
    of the message in bits on eight bytes. *)
Definition pad (msg : list Z) : list Z :=
  let l := Z.of_nat (List.length msg) in
  let zeros := Z.to_nat ((55 - l) mod 64) in
  (msg ++ 0x80 :: repeat 0 zeros ++ be_bytes 8 (8 * l))%list.

Fixpoint chunks (fuel n : nat) (l : list Z) : list (list Z) :=
  match fuel with
  | O => []
  | S f =>
      match l with
      | [] => []
      | _ => firstn n l :: chunks f n (skipn n l)
      end
  end.

(** The message schedule: the sixteen words of the block, then 48 words each
    computed from the sliding window of the sixteen before it. *)
Fixpoint extend (n : nat) (window : list Z) : list Z :=
  match n with
  | O => []
  | S k =>
      let w := add32 (add32 (sigma1 (nth 14 window 0)) (nth 9 window 0))
                     (add32 (sigma0 (nth 1 window 0)) (nth 0 window 0)) in
      w :: extend k (tl window ++ [w])%list
  end.

Definition schedule (block : list Z) : list Z :=
  let w16 := map be_word (chunks 16 4 block) in
  (w16 ++ extend 48 w16)%list.

Record regs := Regs { ra : Z; rb : Z; rc : Z; rd : Z; re : Z; rf : Z; rg : Z; rh : Z }.

Definition round (r : regs) (kw : Z * Z) : regs :=
  let t1 := add32 (add32 (add32 (rh r) (Sigma1 (re r))) (Ch (re r) (rf r) (rg r)))
                  (add32 (fst kw) (snd kw)) in
  let t2 := add32 (Sigma0 (ra r)) (Maj (ra r) (rb r) (rc r)) in
  Regs (add32 t1 t2) (ra r) (rb r) (rc r) (add32 (rd r) t1) (re r) (rf r) (rg r).

Definition regs_of (h : list Z) : regs :=
  Regs (nth 0 h 0) (nth 1 h 0) (nth 2 h 0) (nth 3 h 0)
       (nth 4 h 0) (nth 5 h 0) (nth 6 h 0) (nth 7 h 0).

Definition list_of (r : regs) : list Z :=
  [ra r; rb r; rc r; rd r; re r; rf r; rg r; rh r].

Definition compress (h : list Z) (block : list Z) : list Z :=
  let r := fold_left round (combine K (schedule block)) (regs_of h) in
  map (fun p => add32 (fst p) (snd p)) (combine h (list_of r)).

Definition digest (msg : list Z) : list Z :=
  let p := pad msg in
  flat_map (be_bytes 4) (fold_left compress (chunks (List.length p) 64 p) H0).

End Sha256.

(** ** Strings: code points, UTF-8, hexadecimal and decimal rendering *)

Definition code (c : ascii) : Z := Z.of_N (N_of_ascii c).
Definition chr (z : Z) : ascii := ascii_of_N (Z.to_N z).

(** [s.encode('utf-8')] for a string of code points below 256. *)
Fixpoint encode_utf8 (s : string) : list Z :=
  match s with
  | EmptyString => []
  | String c r =>
      let n := code c in
      if n <? 128 then n :: encode_utf8 r
      else Z.lor 0xC0 (Z.shiftr n 6) :: Z.lor 0x80 (Z.land n 0x3F) :: encode_utf8 r
  end.

Definition hex_digit (z : Z) : ascii :=
  if z <? 10 then chr (48 + z) else chr (87 + z).

Definition hex_byte (b : Z) : string :=
  String (hex_digit (Z.shiftr b 4)) (String (hex_digit (Z.land b 0xF)) EmptyString).

Definition hex_of_bytes (bs : list Z) : string :=
  fold_right (fun b acc => hex_byte b ++ acc) EmptyString bs.

(** [hashlib.sha256(data).hexdigest()] *)
Definition sha256_hexdigest (data : list Z) : string :=
  hex_of_bytes (Sha256.digest data).

(** [str(n)] for a Python int. *)
Definition str_of_int (z : Z) : string := NilZero.string_of_int (Z.to_int z).


(** ** Python values *)

(** A value of [json.loads] (and of [response.json()]).  [JNull] is Python's
    [None]; a [JObj] lists the items of the dict in insertion order. *)
Inductive json : Type :=
| JNull
| JBool (b : bool)
| JNum (n : Z)
| JStr (s : string)
| JArr (items : list json)
| JObj (fields : list (string * json)).

(** The truth value Python gives to a value in [if v:] and [not v]. *)
Definition truthy (v : json) : bool :=
  match v with
  | JNull => false
  | JBool b => b
  | JNum n => negb (n =? 0)
  | JStr s => negb (String.eqb s EmptyString)
  | JArr l => match l with [] => false | _ => true end
  | JObj d => match d with [] => false | _ => true end
  end.

(** The exceptions the client can meet.  [ValueError] is the
    [json.JSONDecodeError] of [response.json()]; [CouldNotAuthenticate] is
    [Exception("Could not authenticate")]; [OverflowError] is raised when an
    int too large for a float is converted to one; [HTTPStatusError],
    [RequestError] and [InvalidURL] are raised by httpx, the last one not
    being a [RequestError]. *)
Inductive pyexn : Type :=
| AttributeError
| TypeError
| KeyError
| IndexError
| ValueError
| CouldNotAuthenticate
| HTTPStatusError (status : Z) (text : string)
| RequestError (message : string)
| OverflowError
| InvalidURL (message : string).

Inductive result (A : Type) : Type :=
| Ret (a : A)
| Raise (e : pyexn).
Arguments Ret {A} a.
Arguments Raise {A} e.

Definition rbind {A B} (r : result A) (k : A -> result B) : result B :=
  match r with
  | Ret a => k a
  | Raise e => Raise e
  end.

(** *** Dicts with [str] keys *)

Definition pydict := list (string * json).

Fixpoint dict_get (k : string) (d : pydict) : option json :=
  match d with
  | [] => None
  | (k', v) :: r => if String.eqb k k' then Some v else dict_get k r
  end.

(** [d.get(k, default)] *)
Definition get_default (d : pydict) (k : string) (default : json) : json :=
  match dict_get k d with
  | Some v => v
  | None => default
  end.

(** [d[k] = v]: an existing key keeps its place, a new key goes last. *)
Fixpoint dict_set (k : string) (v : json) (d : pydict) : pydict :=
  match d with
  | [] => [(k, v)]
  | (k', v') :: r =>
      if String.eqb k k' then (k', v) :: r else (k', v') :: dict_set k v r
  end.

(** [d.update(other)] *)
Definition dict_update (d other : pydict) : pydict :=
  fold_left (fun acc kv => dict_set (fst kv) (snd kv) acc) other d.

(** [v.get(k, default)] on an arbitrary value: only a dict has [get]. *)
Definition py_get (v : json) (k : string) (default : json) : result json :=
  match v with
  | JObj d => Ret (get_default d k default)
  | _ => Raise AttributeError
  end.

(** [v[k]] for a [str] subscript. *)
Definition py_item (v : json) (k : string) : result json :=
  match v with
  | JObj d => match dict_get k d with Some x => Ret x | None => Raise KeyError end
  | _ => Raise TypeError
  end.

(** [v[0]] *)
Definition py_first (v : json) : result json :=
  match v with
  | JArr l => match l with x :: _ => Ret x | [] => Raise IndexError end
  | JStr s => match s with String c _ => Ret (JStr (String c EmptyString)) | EmptyString => Raise IndexError end
  | JObj _ => Raise KeyError
  | _ => Raise TypeError
  end.

(** The elements [for x in v] runs through: the items of a list, the
    characters of a string, the keys of a dict. *)
Definition py_iter (v : json) : result (list json) :=
  match v with
  | JArr l => Ret l
  | JStr s => Ret (map (fun c => JStr (String c EmptyString)) (list_ascii_of_string s))
  | JObj d => Ret (map (fun kv => JStr (fst kv)) d)
  | _ => Raise TypeError
  end.

(** *** Dicts keyed by values: the access-point map of [get_data] *)

Definition hashable (v : json) : bool :=
  match v with
  | JArr _ | JObj _ => false
  | _ => true
  end.

(** [a == b] between hashable values: [True] and [False] are the integers 1
    and 0. *)
Definition key_eqb (a b : json) : bool :=
  match a, b with
  | JNull, JNull => true
  | JStr s, JStr t => String.eqb s t
  | JNum n, JNum m => n =? m
  | JBool x, JBool y => Bool.eqb x y
  | JBool x, JNum m => (if x then 1 else 0) =? m
  | JNum n, JBool y => n =? (if y then 1 else 0)
  | _, _ => false
  end.

Definition pymap := list (json * json).

Fixpoint map_lookup (k : json) (m : pymap) : option json :=
  match m with
  | [] => None
  | (k', v) :: r => if key_eqb k' k then Some v else map_lookup k r
  end.

Fixpoint map_store (k v : json) (m : pymap) : pymap :=
  match m with
  | [] => [(k, v)]
  | (k', v') :: r =>
      if key_eqb k' k then (k', v) :: r else (k', v') :: map_store k v r
  end.

(** [m[k] = v] *)
Definition map_set (k v : json) (m : pymap) : result pymap :=
  if hashable k then Ret (map_store k v m) else Raise TypeError.

(** [m.get(k, default)] *)
Definition map_get (m : pymap) (k default : json) : result json :=
  if hashable k then
    Ret (match map_lookup k m with Some v => v | None => default end)
  else Raise TypeError.

(** *** Text of a value: [str], [repr] and [json.dumps] *)

Definition hex2 (n : Z) : string := hex_byte n.

Definition contains (c : ascii) (s : string) : bool :=
  existsb (Ascii.eqb c) (list_ascii_of_string s).

(** [repr(s)] of a [str]: single quotes unless the string has a single and no
    double quote; control and unprintable characters as escapes. *)
Definition repr_char (quote : ascii) (c : ascii) : string :=
  let n := code c in
  if Ascii.eqb c quote || (n =? 92) then String (chr 92) (String c EmptyString)
  else if n =? 9 then String (chr 92) "t"
  else if n =? 10 then String (chr 92) "n"
  else if n =? 13 then String (chr 92) "r"
  else if (n <? 32) || (n =? 127) || ((128 <=? n) && (n <=? 160)) || (n =? 173)
       then String (chr 92) ("x" ++ hex2 n)
  else String c EmptyString.

Definition repr_str (s : string) : string :=
  let quote := if contains (chr 39) s && negb (contains (chr 34) s) then chr 34 else chr 39 in
  String quote
    (String.concat EmptyString (map (repr_char quote) (list_ascii_of_string s)) ++ String quote EmptyString).

Fixpoint py_repr (v : json) : string :=
  match v with
  | JNull => "None"
  | JBool b => if b then "True" else "False"
  | JNum n => str_of_int n
  | JStr s => repr_str s
  | JArr l => "[" ++ String.concat ", " (map py_repr l) ++ "]"
  | JObj d =>
      "{" ++ String.concat ", "
               (map (fun kv => match kv with (k, x) => repr_str k ++ ": " ++ py_repr x end) d)
          ++ "}"
  end.

(** [str(v)], which is what an f-string field [{v}] renders. *)
Definition py_str (v : json) : string :=
  match v with
  | JStr s => s
  | _ => py_repr v
  end.

(** One character of a JSON string under [ensure_ascii=True]. *)
Definition json_escape_char (c : ascii) : string :=
  let n := code c in
  if n =? 34 then String (chr 92) (String (chr 34) EmptyString)
  else if n =? 92 then String (chr 92) (String (chr 92) EmptyString)
  else if n =? 10 then String (chr 92) "n"
  else if n =? 13 then String (chr 92) "r"
  else if n =? 9 then String (chr 92) "t"
  else if n =? 12 then String (chr 92) "f"
  else if n =? 8 then String (chr 92) "b"
  else if (n <? 32) || (126 <? n) then String (chr 92) ("u00" ++ hex2 n)
  else String c EmptyString.

Definition json_string (s : string) : string :=
  String (chr 34)
    (String.concat EmptyString (map json_escape_char (list_ascii_of_string s)) ++ String (chr 34) EmptyString).

(** [json.dumps(v, separators=(',', ':'))] *)
Fixpoint json_dumps (v : json) : string :=
  match v with
  | JNull => "null"
  | JBool b => if b then "true" else "false"
  | JNum n => str_of_int n
  | JStr s => json_string s
  | JArr l => "[" ++ String.concat "," (map json_dumps l) ++ "]"
  | JObj d =>
      "{" ++ String.concat ","
               (map (fun kv => match kv with (k, x) => json_string k ++ ":" ++ json_dumps x end) d)
          ++ "}"
  end.

(** ** The world: clock, server and the exchanges issued so far *)

(** What [httpx] does with a call: it fails to complete the exchange
    ([httpx.RequestError]), it returns a response with its status, its text
    and, when the text is valid JSON, the value [response.json()] parses it
    to, or it refuses the URL before anything is sent ([httpx.InvalidURL],
    as for [http://host:abc]). *)
Record response := Response {
  status_code : Z;
  text : string;
  parsed : option json
}.

Inductive outcome : Type :=
| Transport (message : string)
| Reply (r : response)
| Unparsable (message : string).

(** The two kinds of request the client issues: the form-encoded credential
    exchange of [authenticate] and the signed call of [make_request]. *)
Inductive request : Type :=
| AuthPost (url : string) (data : pydict) (timeout : Z)
| ApiCall (method : string) (url : string) (headers : pydict)
          (params : pydict) (body : json) (timeout : Z).

Record world := World {
  clock : nat -> Q;          (* the successive floats [time.time()] returns *)
  reads : nat;               (* how many of them were consumed *)
  server : nat -> outcome;   (* the outcome of the n-th call *)
  sent : list request        (* the calls handed to httpx, oldest first *)
}.

Record GWNClient := Client {
  app_id : string;
  secret_key : string;
  base_url : string;
  access_token : json;
  token_expiry : Q
}.

(** [GWNClient.__init__] *)
Definition init (app secret url : string) : GWNClient :=
  Client app secret url JNull 0%Q.

(** ** A state and exception monad for the methods of the client *)

Definition M (A : Type) : Type := GWNClient -> world -> result A * GWNClient * world.

Definition ret {A} (a : A) : M A := fun self w => (Ret a, self, w).

Definition raise {A} (e : pyexn) : M A := fun self w => (Raise e, self, w).

Definition bind {A B} (m : M A) (k : A -> M B) : M B :=
  fun self w =>
    match m self w with
    | (Ret a, self', w') => k a self' w'
    | (Raise e, self', w') => (Raise e, self', w')
    end.

Notation "x <- m ;; k" := (bind m (fun x => k))
  (at level 61, m at next level, right associativity).
Notation "m ;;; k" := (bind m (fun _ => k))
  (at level 61, right associativity).

Definition lift {A} (r : result A) : M A := fun self w => (r, self, w).

(** [try: m except ...: h], where [h e] is the handler of the first clause
    that matches [e], if any. *)
Definition try_except {A} (m : M A) (h : pyexn -> option (M A)) : M A :=
  fun self w =>
    match m self w with
    | (Raise e, self', w') =>
        match h e with
        | Some k => k self' w'
        | None => (Raise e, self', w')
        end
    | r => r
    end.

Definition get_self : M GWNClient := fun self w => (Ret self, self, w).

Definition set_access_token (v : json) : M unit :=
  fun self w =>
    (Ret tt, Client (app_id self) (secret_key self) (base_url self) v (token_expiry self), w).

Definition set_token_expiry (t : Q) : M unit :=
  fun self w =>
    (Ret tt, Client (app_id self) (secret_key self) (base_url self) (access_token self) t, w).

(** The world after one more reading of the clock, and after one more
    exchange. *)
Definition tick (w : world) : world :=
  World (clock w) (S (reads w)) (server w) (sent w).

Definition record (rq : request) (w : world) : world :=
  World (clock w) (reads w) (server w) (sent w ++ [rq])%list.

(** The outcome the server has for the next exchange. *)
Definition next_outcome (w : world) : outcome := server w (List.length (sent w)).

(** [time.time()] *)
Definition time_time : M Q :=
  fun self w => (Ret (clock w (reads w)), self, tick w).

(** [httpx.post] and [httpx.get]: the call is recorded, and its outcome is
    a response, a raised [httpx.RequestError] or a raised
    [httpx.InvalidURL]. *)
Definition httpx_send (rq : request) : M response :=
  fun self w =>
    match next_outcome w with
    | Reply r => (Ret r, self, record rq w)
    | Transport msg => (Raise (RequestError msg), self, record rq w)
    | Unparsable msg => (Raise (InvalidURL msg), self, record rq w)
    end.

(** [response.is_success]: the status is a 2xx. *)
Definition is_success (r : response) : bool :=
  (200 <=? status_code r) && (status_code r <? 300).

(** [response.raise_for_status()] *)
Definition raise_for_status (r : response) : M unit :=
  if is_success r then ret tt
  else raise (HTTPStatusError (status_code r) (text r)).

(** [response.json()] *)
Definition response_json (r : response) : M json :=
  match parsed r with
  | Some v => ret v
  | None => raise ValueError
  end.

(** *** Floats *)

(** [2^k <= n/d], for positive [n] and [d]. *)
Definition reaches (n d k : Z) : bool :=
  if 0 <=? k then d * 2 ^ k <=? n else d <=? n * 2 ^ (- k).

(** The integer nearest to [n/d], the even one of the two when [n/d] lies
    half-way. *)
Definition nearest_even (n d : Z) : Z :=
  let q := n / d in
  match 2 * (n mod d) ?= d with
  | Lt => q
  | Gt => q + 1
  | Eq => if Z.even q then q else q + 1
  end.

(** The binary64 number nearest to [x], ties to even: 53 significant bits
    whose last one weighs [2^e], with [e] no less than -1074 (below [2^-1022]
    the numbers are subnormal).  A result of magnitude [2^1024] or more lies
    beyond the largest float. *)
Definition round64 (x : Q) : Q :=
  let n := Z.abs (Qnum x) in
  let d := Zpos (Qden x) in
  if n =? 0 then 0%Q
  else
    let l := Z.log2 n - Z.log2 d in
    let l := if reaches n d l then l else l - 1 in
    let e := Z.max (l - 52) (-1074) in
    let v := if 0 <=? e
             then inject_Z (nearest_even n (d * 2 ^ e) * 2 ^ e)
             else Qred (nearest_even (n * 2 ^ (- e)) d # Z.to_pos (2 ^ (- e))) in
    if Qnum x <? 0 then Qopp v else v.

(** The rounded value is a float, not an infinity. *)
Definition finite64 (x : Q) : bool :=
  Z.abs (Qnum x) <? 2 ^ 1024 * Zpos (Qden x).

(** [a + b] and [a * b] on floats. *)
Definition float_add (a b : Q) : Q := round64 (a + b).
Definition float_mul (a b : Q) : Q := round64 (a * b).

(** The conversion of an int operand to a float, which raises
    [OverflowError] ("int too large to convert to float") beyond the
    largest float. *)
Definition float_of_int (n : Z) : result Q :=
  let x := round64 (inject_Z n) in
  if finite64 x then Ret x else Raise OverflowError.

(** The float that [t + v] adds to the float [t]: defined for the numbers,
    which include the booleans. *)
Definition seconds (v : json) : result Q :=
  match v with
  | JNum n => float_of_int n
  | JBool b => Ret (if b then 1 else 0)%Q
  | _ => Raise TypeError
  end.

(** [t + v] for a float [t]. *)
Definition add_seconds (t : Q) (v : json) : result Q :=
  rbind (seconds v) (fun x => Ret (float_add t x)).

(** [int(t * 1000)]: the float product, truncated towards zero. *)
Definition millis (t : Q) : Z :=
  let x := float_mul t 1000 in Z.quot (Qnum x) (Zpos (Qden x)).

(** [s.upper()] on the ASCII letters; none of the other code points below 256
    has an upper-case form made of the letters of POST. *)
Definition upper_char (c : ascii) : ascii :=
  let n := code c in
  if (97 <=? n) && (n <=? 122) then chr (n - 32) else c.

Fixpoint upper (s : string) : string :=
  match s with
  | EmptyString => EmptyString
  | String c r => String (upper_char c) (upper r)
  end.

(** [sorted] on strings, by insertion; strings compare by code points. *)
Fixpoint insert_sorted (k : string) (l : list string) : list string :=
  match l with
  | [] => [k]
  | x :: r => if String.leb k x then k :: l else x :: insert_sorted k r
  end.

Definition sorted (l : list string) : list string :=
  fold_right insert_sorted [] l.

(** ** [GWNClient] *)

(** The [except httpx.HTTPStatusError] and [except httpx.RequestError]
    clauses, which both end in [return v]. *)
Definition httpx_errors_return {A} (v : A) (e : pyexn) : option (M A) :=
  match e with
  | HTTPStatusError _ _ | RequestError _ => Some (ret v)
  | _ => None
  end.

(** [GWNClient.authenticate] *)
Definition authenticate : M bool :=
  self <- get_self ;;
  let auth_url := base_url self ++ "/oauth/token" in
  let payload :=
    [ ("client_id", JStr (app_id self));
      ("client_secret", JStr (secret_key self));
      ("grant_type", JStr "client_credentials") ] in
  try_except
    (response <- httpx_send (AuthPost auth_url payload 10) ;;
     raise_for_status response ;;;
     data <- response_json response ;;
     token <- lift (py_get data "access_token" JNull) ;;
     set_access_token token ;;;
     expires_in <- lift (py_get data "expires_in" (JNum 3600)) ;;
     now <- time_time ;;
     expiry <- lift (add_seconds now expires_in) ;;
     set_token_expiry expiry ;;;
     ret true)
    (httpx_errors_return false).

(** The condition [not self.access_token or time.time() >= self.token_expiry]
    of [get_headers] and [make_request]; [or] reads the clock only when the
    token is truthy. *)
Definition token_missing_or_expired : M bool :=
  self <- get_self ;;
  if negb (truthy (access_token self)) then ret true
  else now <- time_time ;; ret (Qle_bool (token_expiry self) now).

(** The statement both methods guard with that condition:
    [if not self.authenticate(): raise Exception("Could not authenticate")]. *)
Definition ensure_token : M unit :=
  stale <- token_missing_or_expired ;;
  if stale then
    ok <- authenticate ;;
    if ok then ret tt else raise CouldNotAuthenticate
  else ret tt.

(** [GWNClient.get_headers] *)
Definition get_headers : M pydict :=
  ensure_token ;;;
  ret [("Content-Type", JStr "application/json")].

(** The string [param_str] that [calculate_signature] hashes. *)
Definition param_str (self : GWNClient) (timestamp : Z) (body : json) : string :=
  let params :=
    [ ("access_token", access_token self);
      ("appID", JStr (app_id self));
      ("secretKey", JStr (secret_key self));
      ("timestamp", JStr (str_of_int timestamp)) ] in
  let sorted_keys := sorted (map fst params) in
  let param_str :=
    "&" ++ String.concat "&"
             (map (fun k => k ++ "=" ++ py_str (get_default params k JNull)) sorted_keys) in
  if truthy body then
    let body_str := json_dumps body in
    let body_hash := sha256_hexdigest (encode_utf8 body_str) in
    param_str ++ "&" ++ body_hash ++ "&"
  else
    param_str ++ "&".

(** [GWNClient.calculate_signature]; [body=None] is [JNull]. *)
Definition calculate_signature (self : GWNClient) (timestamp : Z) (body : json) : string :=
  sha256_hexdigest (encode_utf8 (param_str self timestamp body)).

(** The truth value of the optional [params] argument. *)
Definition params_given (params : option pydict) : bool :=
  match params with
  | Some (_ :: _) => true
  | _ => false
  end.

(** The dict [query_params] of [make_request], after the [update]. *)
Definition query_params (self : GWNClient) (timestamp : Z) (signature : string)
    (params : option pydict) : pydict :=
  let query_params :=
    [ ("access_token", access_token self);
      ("appID", JStr (app_id self));
      ("timestamp", JNum timestamp);
      ("signature", JStr signature) ] in
  match params with
  | Some p => if params_given params then dict_update query_params p else query_params
  | None => query_params
  end.

(** [GWNClient.make_request]; [json_data=None] is [JNull], and the value
    returned by the two handlers, [None], is [JNull] too. *)
Definition make_request (method endpoint : string) (json_data : json)
    (params : option pydict) : M json :=
  self0 <- get_self ;;
  let url := base_url self0 ++ endpoint in
  t <- time_time ;;
  let timestamp := millis t in
  ensure_token ;;;
  self <- get_self ;;
  let signature := calculate_signature self timestamp json_data in
  let query := query_params self timestamp signature params in
  try_except
    (headers <- get_headers ;;
     response <-
       (if String.eqb (upper method) "POST"
        then httpx_send (ApiCall "POST" url headers query json_data 15)
        else httpx_send (ApiCall "GET" url headers query JNull 10)) ;;
     raise_for_status response ;;;
     response_json response)
    (httpx_errors_return JNull).

(** [GWNClient.get_networks] *)
Definition get_networks : M json :=
  let params :=
    [ ("type", JStr "asc"); ("order", JStr "id"); ("search", JStr EmptyString);
      ("pageNum", JNum 1); ("pageSize", JNum 5) ] in
  make_request "POST" "/oapi/v1.0.0/network/list" (JObj params) None.

(** [GWNClient.get_access_points] *)
Definition get_access_points (network_id : json) : M json :=
  let params := [ ("pageNum", JNum 1); ("pageSize", JNum 100) ] in
  let params := if truthy network_id then dict_set "networkId" network_id params else params in
  make_request "POST" "/oapi/v1.0.0/ap/list" (JObj params) None.

(** [GWNClient.get_client_List] *)
Definition get_client_List (network_id : json) : M json :=
  let params := [ ("pageNum", JNum 1); ("pageSize", JNum 100); ("untilNow", JNum 1) ] in
  let params := if truthy network_id then dict_set "networkId" network_id params else params in
  make_request "POST" "/oapi/v1.0.0/client/list" (JObj params) None.

(** The loop of [get_data] that fills [aps_map]. *)
Fixpoint build_aps_map (aps : list json) (aps_map : pymap) : result pymap :=
  match aps with
  | [] => Ret aps_map
  | ap :: rest =>
      rbind (py_get ap "mac" (JStr EmptyString)) (fun mac =>
      rbind (map_set mac ap aps_map) (fun aps_map' =>
      build_aps_map rest aps_map'))
  end.

(** The body of the loop of [get_data] over [clients_list]. *)
Definition normalize_client (aps_map : pymap) (client : json) : result json :=
  rbind (py_get client "apId" (JStr EmptyString)) (fun ap_id =>
  rbind (map_get aps_map ap_id (JObj [])) (fun ap_info =>
  rbind (py_get client "clientId" (JStr EmptyString)) (fun mac =>
  rbind (py_get client "name" (JStr "Unknown")) (fun name =>
  rbind (py_get client "ipv4" (JStr EmptyString)) (fun ipv4 =>
  rbind (py_get client "ipv6" (JStr EmptyString)) (fun ipv6 =>
  rbind (py_get client "apName" (JStr "Unknown")) (fun ap_name_default =>
  rbind (py_get ap_info "name" ap_name_default) (fun ap_name =>
  rbind (py_get client "rssi" JNull) (fun rssi =>
  rbind (py_get client "ssid" (JStr EmptyString)) (fun ssid =>
  rbind (py_get client "online" (JNum 0)) (fun online =>
  rbind (py_get client "txBytes" (JNum 0)) (fun tx_bytes =>
  rbind (py_get client "rxBytes" (JNum 0)) (fun rx_bytes =>
  rbind (py_get client "txRate" (JNum 0)) (fun tx_rate =>
  rbind (py_get client "rxRate" (JNum 0)) (fun rx_rate =>
  Ret (JObj
    [ ("mac", mac); ("name", name); ("ipv4", ipv4); ("ipv6", ipv6);
      ("ap_mac", ap_id); ("ap_name", ap_name); ("rssi", rssi); ("ssid", ssid);
      ("online", online); ("tx_bytes", tx_bytes); ("rx_bytes", rx_bytes);
      ("tx_rate", tx_rate); ("rx_rate", rx_rate) ])))))))))))))))).

Fixpoint normalize_clients (aps_map : pymap) (clients_list : list json) : result (list json) :=
  match clients_list with
  | [] => Ret []
  | client :: rest =>
      rbind (normalize_client aps_map client) (fun normalized_client =>
      rbind (normalize_clients aps_map rest) (fun clients =>
      Ret (normalized_client :: clients)))
  end.

(** [v.get("data", {}).get("result", [])] *)
Definition result_list (v : json) : result json :=
  rbind (py_get v "data" (JObj [])) (fun data => py_get data "result" (JArr [])).

(** The part of [get_data] after the two fetches: the join of the client
    list with the access-point list. *)
Definition join_lists (aps_data clients_data : json) : result json :=
  rbind (result_list aps_data) (fun aps_list =>
  rbind (py_iter aps_list) (fun aps =>
  rbind (build_aps_map aps []) (fun aps_map =>
  rbind (result_list clients_data) (fun clients_list =>
  rbind (py_iter clients_list) (fun raw_clients =>
  rbind (normalize_clients aps_map raw_clients) (fun clients =>
  Ret (JObj [ ("aps", aps_list); ("clients", JArr clients) ]))))))).

(** [GWNClient.get_data]; the coroutine awaits nothing, so that awaiting it
    runs its body from end to end; falling off the end of the function
    returns [None]. *)
Definition get_data : M json :=
  authenticate ;;;
  networks <- get_networks ;;
  if truthy networks then
    data <- lift (py_item networks "data") ;;
    found <- lift (py_item data "result") ;;
    network <- lift (py_first found) ;;
    network_id <- lift (py_get network "id" JNull) ;;
    aps <- get_access_points network_id ;;
    clients <- get_client_List network_id ;;
    lift (join_lists aps clients)
  else ret JNull.

(** ** The signature as the specification words it

    The four parameters in the lexicographic order of their names, each
    rendered as [&key=value]; then the digest of the compact JSON of the body
    between two [&] when there is a body, a single [&] when there is none;
    the SHA-256 hex digest of the whole. *)

Definition spec_parameters (token app secret : string) (timestamp : Z)
  : list (string * string) :=
  [ ("access_token", token); ("appID", app); ("secretKey", secret);
    ("timestamp", str_of_int timestamp) ].

Definition spec_signing_string (token app secret : string) (timestamp : Z)
    (body : option json) : string :=
  String.concat EmptyString
    (map (fun kv => "&" ++ fst kv ++ "=" ++ snd kv)
         (spec_parameters token app secret timestamp))
  ++ match body with
     | Some b => "&" ++ sha256_hexdigest (encode_utf8 (json_dumps b)) ++ "&"
     | None => "&"
     end.

Definition spec_signature (token app secret : string) (timestamp : Z)
    (body : option json) : string :=
  sha256_hexdigest (encode_utf8 (spec_signing_string token app secret timestamp body)).

(** The [body] argument of [calculate_signature] for an optional body. *)
Definition body_arg (body : option json) : json :=
  match body with
  | Some b => b
  | None => JNull
  end.

(** The body [calculate_signature] takes into account: a truthy one. *)
Definition signed_body (body : json) : option json :=
  if truthy body then Some body else None.

(** ** Vocabulary of the statements *)

(** The request [authenticate] posts. *)
Definition auth_request (self : GWNClient) : request :=
  AuthPost (base_url self ++ "/oauth/token")
    [ ("client_id", JStr (app_id self));
      ("client_secret", JStr (secret_key self));
      ("grant_type", JStr "client_credentials") ] 10.

Definition is_auth (rq : request) : bool :=
  match rq with
  | AuthPost _ _ _ => true
  | ApiCall _ _ _ _ _ _ => false
  end.

(** The authentication calls and the signed HTTP requests of a trace. *)
Definition auth_calls (l : list request) : nat := List.length (filter is_auth l).
Definition api_calls (l : list request) : nat :=
  List.length (filter (fun rq => negb (is_auth rq)) l).

(** What was issued between the world [w] and a later world [w']. *)
Definition issued (w w' : world) : list request :=
  skipn (List.length (sent w)) (sent w').

(** The client with a new token and expiry. *)
Definition with_token (self : GWNClient) (token : json) (expiry : Q) : GWNClient :=
  Client (app_id self) (secret_key self) (base_url self) token expiry.

(** The result, the client and the world a method ends with. *)
Definition outcome_of {A} (r : result A * GWNClient * world) : result A := fst (fst r).
Definition client_of {A} (r : result A * GWNClient * world) : GWNClient := snd (fst r).
Definition world_of {A} (r : result A * GWNClient * world) : world := snd r.

(** The exceptions that come from using a value of the wrong shape, as
    opposed to the errors of the HTTP exchange. *)
Definition untyped_crash (e : pyexn) : bool :=
  match e with
  | AttributeError | TypeError | KeyError | IndexError => true
  | _ => false
  end.

(** The exceptions a signed call lets through to its caller. *)
Definition escapes (e : pyexn) : bool :=
  match e with
  | CouldNotAuthenticate | ValueError | AttributeError | TypeError | OverflowError
  | InvalidURL _ => true
  | _ => false
  end.

(** The status an exception carries to the caller, if any. *)
Definition carried_status (e : pyexn) : option Z :=
  match e with
  | HTTPStatusError s _ => Some s
  | _ => None
  end.

(** The token is missing, or expired at the reading of the first token check
    of a signed call that starts in [w]: the call reads the clock once, for
    its timestamp, before that check. *)
Definition stale (self : GWNClient) (w : world) : Prop :=
  truthy (access_token self) = false \/ (token_expiry self <= clock w (S (reads w)))%Q.


(** The statement guarded by the token check. *)
Definition refresh : M unit :=
  ok <- authenticate ;;
  if ok then ret tt else raise CouldNotAuthenticate.

(** The request [make_request] hands to httpx. *)
Definition api_request (method url : string) (query : pydict) (json_data : json) : request :=
  let headers := [("Content-Type", JStr "application/json")] in
  if String.eqb (upper method) "POST"
  then ApiCall "POST" url headers query json_data 15
  else ApiCall "GET" url headers query JNull 10.

(** What [make_request] makes of the outcome of its request. *)
Definition api_result (o : outcome) : result json :=
  match o with
  | Transport _ => Ret JNull
  | Reply r =>
      if is_success r then
        match parsed r with
        | Some v => Ret v
        | None => Raise ValueError
        end
      else Ret JNull
  | Unparsable msg => Raise (InvalidURL msg)
  end.

(** The outcome is a non-2xx response or a transport error. *)
Definition http_failure (o : outcome) : bool :=
  match o with
  | Transport _ => true
  | Reply r => negb (is_success r)
  | Unparsable _ => false
  end.

(** The query parameters of a request ([make_request] is the only one to
    send any). *)
Definition query_of (rq : request) : pydict :=
  match rq with
  | ApiCall _ _ _ query _ _ => query
  | AuthPost _ _ _ => []
  end.

(** The four signed fields as [make_request] computes them. *)
Definition signed_fields (self : GWNClient) (timestamp : Z) (signature : string) : pydict :=
  [ ("access_token", access_token self);
    ("appID", JStr (app_id self));
    ("timestamp", JNum timestamp);
    ("signature", JStr signature) ].

(** The four signed fields with the values the executor computes for them
    from the token it holds, the credentials, the timestamp and the body. *)
Definition executor_fields (token : json) (app secret : string) (timestamp : Z)
    (json_data : json) : pydict :=
  [ ("access_token", token);
    ("appID", JStr app);
    ("timestamp", JNum timestamp);
    ("signature",
     JStr (spec_signature (py_str token) app secret timestamp (signed_body json_data))) ].

(** The value a query field is sent with: the caller's when the caller's
    parameters have the field, the computed one otherwise. *)
Definition sent_value (computed : pydict) (params : option pydict) (k : string)
  : option json :=
  match params with
  | Some p =>
      match dict_get k (rev p) with
      | Some v => Some v
      | None => dict_get k computed
      end
  | None => dict_get k computed
  end.

(** The last exchange a run issued. *)
Definition last_issued {A} (w : world) (run : result A * GWNClient * world) : request :=
  last (issued w (world_of run)) (AuthPost EmptyString [] 0).

(** [networks['data']['result'][0].get('id')] *)
Definition first_network_id (networks : json) : result json :=
  rbind (py_item networks "data") (fun data =>
  rbind (py_item data "result") (fun found =>
  rbind (py_first found) (fun network =>
  py_get network "id" JNull))).

(** The lifetime a token response grants, as the float that is added to the
    time: [expires_in] when it is a number that a float can hold, 3600 when
    the field is absent, none when it is anything else. *)
Definition lifetime (d : pydict) : option Q :=
  match seconds (get_default d "expires_in" (JNum 3600)) with
  | Ret x => Some x
  | Raise _ => None
  end.

(** The outcome is not a successful token response whose [expires_in] is
    something else than a number that a float can hold. *)
Definition well_typed_lifetime (o : outcome) : bool :=
  match o with
  | Transport _ => true
  | Reply r =>
      if is_success r then
        match parsed r with
        | Some (JObj d) => match lifetime d with Some _ => true | None => false end
        | _ => true
        end
      else true
  | Unparsable _ => true
  end.

(** The fields of a normalized client that are copied from the vendor's
    record: the field, the vendor's name for it, and the default. *)
Definition copied_fields : list (string * string * json) :=
  [ ("mac", "clientId", JStr EmptyString);
    ("name", "name", JStr "Unknown");
    ("ipv4", "ipv4", JStr EmptyString);
    ("ipv6", "ipv6", JStr EmptyString);
    ("ap_mac", "apId", JStr EmptyString);
    ("rssi", "rssi", JNull);
    ("ssid", "ssid", JStr EmptyString);
    ("online", "online", JNum 0);
    ("tx_bytes", "txBytes", JNum 0);
    ("rx_bytes", "rxBytes", JNum 0);
    ("tx_rate", "txRate", JNum 0);
    ("rx_rate", "rxRate", JNum 0) ].

(** The fields of the Client shape of the data model, under the names the
    sensors read them by. *)
Definition client_shape : list string :=
  [ "mac"; "name"; "ipv4"; "ipv6"; "ap_mac"; "ap_name"; "rssi"; "ssid"; "online";
    "tx_bytes"; "rx_bytes"; "tx_rate"; "rx_rate"; "channelClassStr"; "vid"; "lastactive" ].

(** The client records of a snapshot, and its access points. *)
Definition snapshot_clients (snapshot : json) : list json :=
  match snapshot with
  | JObj d => match dict_get "clients" d with Some (JArr l) => l | _ => [] end
  | _ => []
  end.

Definition snapshot_aps (snapshot : json) : list json :=
  match snapshot with
  | JObj d =>
      match dict_get "aps" d with
      | Some v => match py_iter v with Ret l => l | Raise _ => [] end
      | None => []
      end
  | _ => []
  end.

(** The [mac] an access point is filed under: its [mac] field, the empty
    string when it has none. *)
Definition mac_of (ap : json) : json :=
  match ap with
  | JObj a => get_default a "mac" (JStr EmptyString)
  | _ => JNull
  end.

(** The access point of a list whose mac equals [ap_id]; the last one when
    several have that mac. *)
Definition ap_with_mac (aps : list json) (ap_id : json) : option json :=
  find (fun ap => key_eqb (mac_of ap) ap_id) (rev aps).

(** The access-point name the specification gives a client: the name of the
    access point whose mac is the client's [apId] (the empty string for a
    client without [apId]); failing that, or when that access point has no
    name, the client's own [apName]; failing that, "Unknown". *)
Definition resolved_name (aps : list json) (c : pydict) : json :=
  let fallback := get_default c "apName" (JStr "Unknown") in
  match ap_with_mac aps (get_default c "apId" (JStr EmptyString)) with
  | Some (JObj a) => get_default a "name" fallback
  | _ => fallback
  end.

(** The record [normalize_client] builds from the vendor's record [c] and the
    access point [a] it looked up. *)
Definition normalized (c a : pydict) : pydict :=
  [ ("mac", get_default c "clientId" (JStr EmptyString));
    ("name", get_default c "name" (JStr "Unknown"));
    ("ipv4", get_default c "ipv4" (JStr EmptyString));
    ("ipv6", get_default c "ipv6" (JStr EmptyString));
    ("ap_mac", get_default c "apId" (JStr EmptyString));
    ("ap_name", get_default a "name" (get_default c "apName" (JStr "Unknown")));
    ("rssi", get_default c "rssi" JNull);
    ("ssid", get_default c "ssid" (JStr EmptyString));
    ("online", get_default c "online" (JNum 0));
    ("tx_bytes", get_default c "txBytes" (JNum 0));
    ("rx_bytes", get_default c "rxBytes" (JNum 0));
    ("tx_rate", get_default c "txRate" (JNum 0));
    ("rx_rate", get_default c "rxRate" (JNum 0)) ].

(** The value a run returned, [None] when it raised. *)
Definition value_of (r : result json) : json :=
  match r with
  | Ret v => v
  | Raise _ => JNull
  end.

Definition snapshot_of (run : result json * GWNClient * world) : json :=
  value_of (outcome_of run).

Definition has_field (field : string) (rec : json) : bool :=
  match rec with
  | JObj r => match dict_get field r with Some _ => true | None => false end
  | _ => false
  end.

(** The fields of the Client shape a record does not have. *)
Definition missing_fields (rec : json) : list string :=
  filter (fun field => negb (has_field field rec)) client_shape.

(** The records of an envelope: [v.get("data", {}).get("result", [])], as the
    loop over it sees them. *)
Definition fetched_list (v : json) : result (list json) :=
  rbind (result_list v) py_iter.

(** ** Scripted worlds and records for the examples *)

Definition ok (v : json) : outcome := Reply (Response 200 "OK" (Some v)).

Definition failure (status : Z) : outcome := Reply (Response status "error" None).

Definition script (l : list outcome) : nat -> outcome :=
  fun n => nth n l (Transport "unreachable").

(** A clock that starts at [start] seconds and advances a second a reading. *)
Definition ticking (start : Z) : nat -> Q := fun n => inject_Z (start + Z.of_nat n).

Definition scripted (start : Z) (l : list outcome) : world :=
  World (ticking start) 0 (script l) [].

Definition token_reply (token : string) (lifetime : Z) : outcome :=
  ok (JObj [ ("access_token", JStr token); ("expires_in", JNum lifetime) ]).

Definition envelope (items : list json) : outcome :=
  ok (JObj [ ("data", JObj [ ("result", JArr items) ]) ]).

Definition demo : GWNClient := init "APP" "SECRET" "https://eu.gwn.cloud".


(** A clock on which a token that expires at second 1002 is still valid at
    the first two readings of a call and expired at the third. *)
Definition expiring : world :=
  scripted 1000 [ token_reply "NEW" 3600; envelope [] ].

Definition network_list_body : json :=
  JObj [ ("type", JStr "asc"); ("order", JStr "id"); ("search", JStr EmptyString);
         ("pageNum", JNum 1); ("pageSize", JNum 5) ].

(** A clock that advances a second a reading for a minute, then stands. *)
Definition minute (start : Z) : nat -> Q :=
  fun n => inject_Z (start + Z.min (Z.of_nat n) 60).

Definition within_a_minute (start : Z) (l : list outcome) : world :=
  World (minute start) 0 (script l) [].

(** A client that holds a token valid until second 4600. *)
Definition signed_in : GWNClient :=
  Client "APP" "SECRET" "https://eu.gwn.cloud" (JStr "TOK") 4600.

(** A server that answers the next request with a 401. *)
Definition unauthorized : world := within_a_minute 1000 [failure 401].

(** Caller parameters that name a signed field. *)
Definition forged : option pydict := Some [("signature", JStr "forged")].

(** A poll cycle whose network list comes back empty. *)
Definition no_network : world :=
  within_a_minute 1000 [ token_reply "TOK" 3600; envelope [] ].

(** A poll cycle whose network list is refused. *)
Definition networks_refused : world :=
  within_a_minute 1000 [ token_reply "TOK" 3600; failure 500 ].

(** A poll cycle whose access-point list is refused. *)
Definition aps_refused : world :=
  within_a_minute 1000
    [ token_reply "TOK" 3600;
      envelope [ JObj [("id", JNum 7)] ];
      failure 500;
      envelope [ JObj [("clientId", JStr "C1"); ("apId", JStr "A1"); ("name", JStr "Phone")] ] ].

(** The poll cycle of the specification's join example. *)
Definition lobby : world :=
  within_a_minute 1000
    [ token_reply "TOK" 3600;
      envelope [ JObj [("id", JNum 7)] ];
      envelope [ JObj [("mac", JStr "A1"); ("name", JStr "Lobby")] ];
      envelope [ JObj [("clientId", JStr "C1"); ("apId", JStr "A1"); ("name", JStr "Phone")] ] ].

(** A token response whose lifetime is a number no float can hold. *)
Definition huge_lifetime : world :=
  within_a_minute 1000
    [ ok (JObj [ ("access_token", JStr "NEW"); ("expires_in", JNum (10 ^ 400)) ]) ].

(** A token response whose lifetime is a string. *)
Definition quoted_lifetime : world :=
  within_a_minute 1000
    [ ok (JObj [ ("access_token", JStr "NEW"); ("expires_in", JStr "3600") ]) ].

(** A poll cycle whose client record carries every vendor field but the
    signal strength. *)
Definition detailed : world :=
  within_a_minute 1000
    [ token_reply "TOK" 3600;
      envelope [ JObj [("id", JNum 7)] ];
      envelope [ JObj [("mac", JStr "A1"); ("name", JStr "Lobby")] ];
      envelope [ JObj [ ("clientId", JStr "C1"); ("apId", JStr "A1"); ("name", JStr "Phone");
                        ("channelClassStr", JStr "5G"); ("vid", JNum 10);
                        ("lastactive", JStr "2024-01-01T00:00:00Z") ] ] ].

(** A poll cycle whose client record has a list for [apId]. *)
Definition listed_ap_id : world :=
  within_a_minute 1000
    [ token_reply "TOK" 3600;
      envelope [ JObj [("id", JNum 7)] ];
      envelope [ JObj [("mac", JStr "A1"); ("name", JStr "Lobby")] ];
      envelope [ JObj [("clientId", JStr "C1"); ("apId", JArr [JStr "A1"])] ] ].

(** The two envelopes of the specification's join example, with a second
    client whose access point is not in the list, and a third with neither an
    access point in the list nor an [apName]. *)
Definition lobby_aps : json :=
  JObj [("data", JObj [("result",
    JArr [ JObj [("mac", JStr "A1"); ("name", JStr "Lobby")] ])])].

Definition lobby_clients : json :=
  JObj [("data", JObj [("result",
    JArr [ JObj [("clientId", JStr "C1"); ("apId", JStr "A1"); ("name", JStr "Phone")];
           JObj [("clientId", JStr "C2"); ("apId", JStr "B7"); ("apName", JStr "Legacy")];
           JObj [("clientId", JStr "C3"); ("apId", JStr "B7")] ])])].

(** * The callers of the client *)

(** ** [==] between values *)

(** [a == b] for two values of [json.loads]: numbers and booleans compare as
    numbers, lists item by item, dicts key by key whatever their order. *)
Fixpoint py_eq (a b : json) : bool :=
  match a, b with
  | JNull, JNull => true
  | JStr s, JStr t => String.eqb s t
  | JNum n, JNum m => n =? m
  | JBool x, JBool y => Bool.eqb x y
  | JBool x, JNum m => (if x then 1 else 0) =? m
  | JNum n, JBool y => n =? (if y then 1 else 0)
  | JArr l, JArr l' =>
      (fix all2 (l l' : list json) : bool :=
         match l, l' with
         | [], [] => true
         | x :: r, y :: r' => py_eq x y && all2 r r'
         | _, _ => false
         end) l l'
  | JObj d, JObj d' =>
      Nat.eqb (List.length d) (List.length d')
      && forallb (fun kv => match kv with
                            | (k, v) => match dict_get k d' with
                                        | Some v' => py_eq v v'
                                        | None => false
                                        end
                            end) d
  | _, _ => false
  end.

(** ** [__init__.py]: the update method of the coordinator *)

(** What [async_update_data] hands to the coordinator: the value of
    [get_data], or [UpdateFailed], whose message is made from the exception
    that is kept here as its cause. *)
Inductive update : Type :=
| Updated (data : json)
| UpdateFailed (cause : pyexn).

(** [async_update_data], the closure of [async_setup_entry]:
    [try: return await client.get_data()] and, for any exception,
    [raise UpdateFailed]. *)
Definition async_update_data (self : GWNClient) (w : world) : update * GWNClient * world :=
  match get_data self w with
  | (Ret data, self', w') => (Updated data, self', w')
  | (Raise err, self', w') => (UpdateFailed err, self', w')
  end.

(** ** [config_flow.py] *)

(** The input of the user step once the flow manager has checked it against
    [STEP_USER_DATA_SCHEMA]: three strings. *)
Record user_input := UserInput {
  CONF_SERVER_URL : string;
  CONF_APP_ID : string;
  CONF_APP_SECRET : string
}.

(** The exceptions of the flow: the two declared in [config_flow.py], and
    whatever else [validate_input] lets through. *)
Inductive flow_exn : Type :=
| CannotConnect
| InvalidAuth
| Other (e : pyexn).

(** [validate_input]: a fresh client, one [authenticate], the title. *)
Definition validate_input (data : user_input) (w : world)
  : (string + flow_exn) * world :=
  let client := init (CONF_APP_ID data) (CONF_APP_SECRET data) (CONF_SERVER_URL data) in
  match authenticate client w with
  | (Ret true, _, w') => (inl "Grandstream GWN", w')
  | (Ret false, _, w') => (inr InvalidAuth, w')
  | (Raise e, _, w') => (inr (Other e), w')
  end.

(** What a step of the flow returns: the form again, with its [errors], or
    the entry to create. *)
Inductive flow_result : Type :=
| async_show_form (step_id : string) (errors : list (string * string))
| async_create_entry (title : string) (data : user_input).

(** [ConfigFlow.async_step_user] *)
Definition async_step_user (input : option user_input) (w : world) : flow_result * world :=
  match input with
  | Some data =>
      match validate_input data w with
      | (inl title, w') => (async_create_entry title data, w')
      | (inr CannotConnect, w') => (async_show_form "user" [("base", "cannot_connect")], w')
      | (inr InvalidAuth, w') => (async_show_form "user" [("base", "invalid_auth")], w')
      | (inr (Other _), w') => (async_show_form "user" [("base", "unknown")], w')
      end
  | None => (async_show_form "user" [], w)
  end.

(** ** [sensor.py] *)

(** The first item of [items] whose [mac] is [mac], [None] when there is
    none: the loop of [_ap_data] and of [_client_data]. *)
Fixpoint find_by_mac (mac : json) (items : list json) : result json :=
  match items with
  | [] => Ret JNull
  | item :: rest =>
      rbind (py_item item "mac") (fun m =>
      if py_eq m mac then Ret item else find_by_mac mac rest)
  end.

(** *** Access-point sensors *)

(** The state of a [GWNAPBaseSensor]. *)
Record GWNAPBaseSensor := APSensor {
  _ap_mac : json;
  _ap_name : json
}.

(** [GWNAPBaseSensor.__init__] *)
Definition GWNAPBaseSensor_init (ap_data : json) : result GWNAPBaseSensor :=
  rbind (py_item ap_data "mac") (fun mac =>
  rbind (py_item ap_data "name") (fun name =>
  Ret (APSensor mac name))).

(** [GWNAPBaseSensor._ap_data], from the [data] of the coordinator. *)
Definition _ap_data (self : GWNAPBaseSensor) (coordinator_data : json) : result json :=
  rbind (py_get coordinator_data "aps" (JArr [])) (fun aps =>
  rbind (py_iter aps) (find_by_mac (_ap_mac self))).

(** [GWNAPBaseSensor.available]; [super_available] is what
    [super().available] returns. *)
Definition ap_available (self : GWNAPBaseSensor) (super_available : bool)
    (coordinator_data : json) : result bool :=
  if super_available then
    rbind (_ap_data self coordinator_data) (fun data =>
    Ret (match data with JNull => false | _ => true end))
  else Ret false.

(** The [model] of [GWNAPBaseSensor.device_info]. *)
Definition ap_device_model (self : GWNAPBaseSensor) (coordinator_data : json) : result json :=
  rbind (_ap_data self coordinator_data) (fun data =>
  py_get data "apType" (JStr "GWN AP")).

(** The nine subclasses of [GWNAPBaseSensor], in the order [async_setup_entry]
    creates them. *)
Inductive ap_sensor : Type :=
| GWNAPStatusSensor
| GWNAPUpTimeSensor
| GWNAPClientsCountSensor
| GWNAPUsageSensor
| GWNAPUploadSensor
| GWNAPDownloadSensor
| GWNAPFirmwareSensor
| GWNAPIPv4Sensor
| GWNAPIPv6Sensor.

Definition ap_sensors : list ap_sensor :=
  [ GWNAPStatusSensor; GWNAPUpTimeSensor; GWNAPClientsCountSensor; GWNAPUsageSensor;
    GWNAPUploadSensor; GWNAPDownloadSensor; GWNAPFirmwareSensor; GWNAPIPv4Sensor;
    GWNAPIPv6Sensor ].

(** The suffix of [_attr_unique_id] in each subclass. *)
Definition ap_suffix (kind : ap_sensor) : string :=
  match kind with
  | GWNAPStatusSensor => "_status"
  | GWNAPUpTimeSensor => "_uptime"
  | GWNAPClientsCountSensor => "_clients_count"
  | GWNAPUsageSensor => "_usage"
  | GWNAPUploadSensor => "_upload"
  | GWNAPDownloadSensor => "_download"
  | GWNAPFirmwareSensor => "_firmware"
  | GWNAPIPv4Sensor => "_ipv4"
  | GWNAPIPv6Sensor => "_ipv6"
  end.

(** [_attr_unique_id], as the [__init__] of the subclass sets it. *)
Definition ap_unique_id (kind : ap_sensor) (self : GWNAPBaseSensor) : string :=
  py_str (_ap_mac self) ++ ap_suffix kind.

(** [native_value] of each subclass. *)
Definition ap_native_value (kind : ap_sensor) (self : GWNAPBaseSensor)
    (coordinator_data : json) : result json :=
  rbind (_ap_data self coordinator_data) (fun data =>
  if truthy data then
    match kind with
    | GWNAPStatusSensor =>
        rbind (py_get data "status" (JNum 0)) (fun status =>
        Ret (JStr (if truthy status then "Online" else "Offline")))
    | GWNAPUpTimeSensor => py_get data "upTime" (JNum 0)
    | GWNAPClientsCountSensor => py_get data "clients" (JNum 0)
    | GWNAPUsageSensor => py_get data "usage" (JNum 0)
    | GWNAPUploadSensor => py_get data "upload" (JNum 0)
    | GWNAPDownloadSensor => py_get data "download" (JNum 0)
    | GWNAPFirmwareSensor => py_get data "versionFirmware" (JStr "Unknown")
    | GWNAPIPv4Sensor => py_get data "ipv4" (JStr EmptyString)
    | GWNAPIPv6Sensor => py_get data "ipv6" (JStr EmptyString)
    end
  else Ret JNull).

(** *** Client sensors *)

(** The state of a [GWNClientBaseSensor]. *)
Record GWNClientBaseSensor := ClientSensor {
  _client_mac : json;
  _client_name : json;
  _ap_name_of_client : json;   (* [self._ap_name] *)
  _ap_mac_of_client : json     (* [self._ap_mac] *)
}.

(** [GWNClientBaseSensor.__init__] *)
Definition GWNClientBaseSensor_init (client_data : json) : result GWNClientBaseSensor :=
  rbind (py_item client_data "mac") (fun mac =>
  rbind (py_item client_data "name") (fun name =>
  rbind (py_get client_data "ap_name" (JStr "Unknown AP")) (fun ap_name =>
  rbind (py_get client_data "ap_mac" (JStr EmptyString)) (fun ap_mac =>
  Ret (ClientSensor mac name ap_name ap_mac))))).

(** [GWNClientBaseSensor._client_data], from the [data] of the coordinator. *)
Definition _client_data (self : GWNClientBaseSensor) (coordinator_data : json) : result json :=
  rbind (py_get coordinator_data "clients" (JArr [])) (fun clients =>
  rbind (py_iter clients) (find_by_mac (_client_mac self))).

(** [GWNClientBaseSensor.available] *)
Definition client_available (self : GWNClientBaseSensor) (super_available : bool)
    (coordinator_data : json) : result bool :=
  if super_available then
    rbind (_client_data self coordinator_data) (fun data =>
    Ret (match data with JNull => false | _ => true end))
  else Ret false.

(** The thirteen subclasses of [GWNClientBaseSensor], in the order
    [async_setup_entry] creates them. *)
Inductive client_sensor : Type :=
| GWNClientRSSISensor
| GWNClientAPSensor
| GWNClientStatusSensor
| GWNClientSSIDSensor
| GWNClientTxBytesSensor
| GWNClientRxBytesSensor
| GWNClientTxRateSensor
| GWNClientRxRateSensor
| GWNClientLastSeenSensor
| GWNClientIPv4Sensor
| GWNClientIPv6Sensor
| GWNClientChannelClassSensor
| GWNClientVlanIdSensor.

Definition client_sensors : list client_sensor :=
  [ GWNClientRSSISensor; GWNClientAPSensor; GWNClientStatusSensor; GWNClientSSIDSensor;
    GWNClientTxBytesSensor; GWNClientRxBytesSensor; GWNClientTxRateSensor;
    GWNClientRxRateSensor; GWNClientLastSeenSensor; GWNClientIPv4Sensor;
    GWNClientIPv6Sensor; GWNClientChannelClassSensor; GWNClientVlanIdSensor ].

(** The suffix of [_attr_unique_id] in each subclass.  The body of
    [GWNClientVlanIdSensor] defines [__init__] and [native_value] twice; the
    class keeps the second definition of each, which is the one given here. *)
Definition client_suffix (kind : client_sensor) : string :=
  match kind with
  | GWNClientRSSISensor => "_rssi"
  | GWNClientAPSensor => "_ap"
  | GWNClientStatusSensor => "_status"
  | GWNClientSSIDSensor => "_ssid"
  | GWNClientTxBytesSensor => "_tx_bytes"
  | GWNClientRxBytesSensor => "_rx_bytes"
  | GWNClientTxRateSensor => "_tx_rate"
  | GWNClientRxRateSensor => "_rx_rate"
  | GWNClientLastSeenSensor => "_last_seen_seconds"
  | GWNClientIPv4Sensor => "_ipv4"
  | GWNClientIPv6Sensor => "_ipv6"
  | GWNClientChannelClassSensor => "_channel_class"
  | GWNClientVlanIdSensor => "_ap"
  end.

Definition client_unique_id (kind : client_sensor) (self : GWNClientBaseSensor) : string :=
  py_str (_client_mac self) ++ client_suffix kind.

(** [_attr_name] of each subclass. *)
Definition client_attr_name (kind : client_sensor) : string :=
  match kind with
  | GWNClientRSSISensor => "RSSI"
  | GWNClientAPSensor => "Connected AP"
  | GWNClientStatusSensor => "Status"
  | GWNClientSSIDSensor => "SSID"
  | GWNClientTxBytesSensor => "TX Bytes"
  | GWNClientRxBytesSensor => "RX Bytes"
  | GWNClientTxRateSensor => "TX Rate"
  | GWNClientRxRateSensor => "RX Rate"
  | GWNClientLastSeenSensor => "Last Seen"
  | GWNClientIPv4Sensor => "IPv4 Address"
  | GWNClientIPv6Sensor => "IPv6 Address"
  | GWNClientChannelClassSensor => "Channel Class"
  | GWNClientVlanIdSensor => "Connected AP"
  end.

(** [native_value] of each subclass.  [elapsed s] stands for what the [try]
    block of the last-seen sensor returns for the timestamp [s]: the seconds
    from [s] to [datetime.now], or [None] when [s] does not parse; a truthy
    timestamp that is not a string has no [replace]. *)
Definition client_native_value (elapsed : string -> json) (kind : client_sensor)
    (self : GWNClientBaseSensor) (coordinator_data : json) : result json :=
  rbind (_client_data self coordinator_data) (fun data =>
  if truthy data then
    match kind with
    | GWNClientRSSISensor => py_get data "rssi" JNull
    | GWNClientAPSensor => py_get data "ap_name" (JStr "Unknown")
    | GWNClientStatusSensor =>
        rbind (py_get data "online" (JNum 0)) (fun online =>
        Ret (JStr (if truthy online then "Online" else "Offline")))
    | GWNClientSSIDSensor => py_get data "ssid" (JStr "Unknown")
    | GWNClientTxBytesSensor => py_get data "tx_bytes" (JNum 0)
    | GWNClientRxBytesSensor => py_get data "rx_bytes" (JNum 0)
    | GWNClientTxRateSensor => py_get data "tx_rate" (JNum 0)
    | GWNClientRxRateSensor => py_get data "rx_rate" (JNum 0)
    | GWNClientLastSeenSensor =>
        rbind (py_get data "lastactive" JNull) (fun lastactive =>
        if truthy lastactive then
          match lastactive with
          | JStr s => Ret (elapsed s)
          | _ => Raise AttributeError
          end
        else Ret JNull)
    | GWNClientIPv4Sensor => py_get data "ipv4" (JStr EmptyString)
    | GWNClientIPv6Sensor => py_get data "ipv6" (JStr EmptyString)
    | GWNClientChannelClassSensor => py_get data "channelClassStr" (JStr "Unknown")
    | GWNClientVlanIdSensor => py_get data "ap" JNull
    end
  else Ret JNull).

(** *** The platform setup *)

Inductive entity : Type :=
| APEntity (kind : ap_sensor) (sensor : GWNAPBaseSensor)
| ClientEntity (kind : client_sensor) (sensor : GWNClientBaseSensor).

Definition unique_id (e : entity) : string :=
  match e with
  | APEntity kind sensor => ap_unique_id kind sensor
  | ClientEntity kind sensor => client_unique_id kind sensor
  end.

(** The nine appends of the first loop of [async_setup_entry] for one item,
    each of which builds a sensor from it. *)
Definition ap_entities (ap : json) : result (list entity) :=
  rbind (GWNAPBaseSensor_init ap) (fun sensor =>
  Ret (map (fun kind => APEntity kind sensor) ap_sensors)).

(** The thirteen appends of its second loop. *)
Definition client_entities (client : json) : result (list entity) :=
  rbind (GWNClientBaseSensor_init client) (fun sensor =>
  Ret (map (fun kind => ClientEntity kind sensor) client_sensors)).

Fixpoint collect (build : json -> result (list entity)) (items : list json)
  : result (list entity) :=
  match items with
  | [] => Ret []
  | item :: rest =>
      rbind (build item) (fun es =>
      rbind (collect build rest) (fun more =>
      Ret (es ++ more)%list))
  end.

(** [sensor.async_setup_entry]: the entities handed to [async_add_entities],
    from the [data] of the coordinator. *)
Definition async_setup_entry (coordinator_data : json) : result (list entity) :=
  rbind (py_get coordinator_data "aps" (JArr [])) (fun aps =>
  rbind (py_iter aps) (fun ap_items =>
  rbind (collect ap_entities ap_items) (fun ap_es =>
  rbind (py_get coordinator_data "clients" (JArr [])) (fun clients =>
  rbind (py_iter clients) (fun client_items =>
  rbind (collect client_entities client_items) (fun client_es =>
  Ret (ap_es ++ client_es)%list)))))).

(** ** Vocabulary of the further properties *)

(** The envelope is a dict without [data], or whose [data] is a dict without
    [result]. *)
Definition lacks_result (v : json) : bool :=
  match v with
  | JObj d =>
      match dict_get "data" d with
      | None => true
      | Some (JObj d') => match dict_get "result" d' with None => true | Some _ => false end
      | Some _ => false
      end
  | _ => false
  end.

(** The keys of a normalized client, in the order of the dict literal. *)
Definition normalized_keys : list string :=
  [ "mac"; "name"; "ipv4"; "ipv6"; "ap_mac"; "ap_name"; "rssi"; "ssid"; "online";
    "tx_bytes"; "rx_bytes"; "tx_rate"; "rx_rate" ].

Definition is_dict (v : json) : bool :=
  match v with
  | JObj _ => true
  | _ => false
  end.

(** The item is a dict that has both a [mac] and a [name]. *)
Definition has_mac_and_name (v : json) : bool :=
  match v with
  | JObj d =>
      match dict_get "mac" d, dict_get "name" d with
      | Some _, Some _ => true
      | _, _ => false
      end
  | _ => false
  end.

(** The item has a [mac], which is not [mac]. *)
Definition other_mac (mac item : json) : Prop :=
  exists m, py_item item "mac" = Ret m /\ py_eq m mac = false.

(** * Properties *)

(** ** Library functions on known inputs *)

Example sha256_constants :
  List.length Sha256.K = 64%nat /\ hd 0 Sha256.K = 0x428a2f98 /\ last Sha256.K 0 = 0xc67178f2
  /\ List.length Sha256.H0 = 8%nat /\ hd 0 Sha256.H0 = 0x6a09e667
  /\ last Sha256.H0 0 = 0x5be0cd19.
Proof. repeat split. Qed.

Example sha256_empty :
  sha256_hexdigest [] = "e3b0c44298fc1c149afbf4c8996fb92427ae41e4649b934ca495991b7852b855".
Proof. vm_compute. reflexivity. Qed.

Example sha256_abc :
  sha256_hexdigest (encode_utf8 "abc")
  = "ba7816bf8f01cfea414140de5dae2223b00361a396177a9cb410ff61f20015ad".
Proof. vm_compute. reflexivity. Qed.

Example sha256_two_blocks :
  sha256_hexdigest (encode_utf8 "abcdbcdecdefdefgefghfghighijhijkijkljklmklmnlmnomnopnopq")
  = "248d6a61d20638b8e5c026930c3e6039a33ce45964ff2167f6ecedd419db06c1".
Proof. vm_compute. reflexivity. Qed.

Example str_of_int_examples :
  str_of_int 0 = "0" /\ str_of_int 1700000000123 = "1700000000123" /\ str_of_int (-5) = "-5".
Proof. repeat split. Qed.

Example json_dumps_network_body :
  json_dumps (JObj [ ("type", JStr "asc"); ("order", JStr "id"); ("search", JStr EmptyString);
                     ("pageNum", JNum 1); ("pageSize", JNum 5) ])
  = String.concat (String (chr 34) EmptyString)
      [ "{"; "type"; ":"; "asc"; ","; "order"; ":"; "id"; ","; "search"; ":"; EmptyString;
        ","; "pageNum"; ":1,"; "pageSize"; ":5}" ].
Proof. vm_compute. reflexivity. Qed.

(** ** Strings and dicts *)

Lemma append_assoc (a b c : string) : (a ++ b) ++ c = a ++ (b ++ c).
Proof. induction a as [|x a IH]; simpl; [reflexivity | now rewrite IH]. Qed.

Lemma sorted_signature_keys :
  sorted ["access_token"; "appID"; "secretKey"; "timestamp"]
  = ["access_token"; "appID"; "secretKey"; "timestamp"].
Proof. reflexivity. Qed.

(** The rendering of the four parameters, whatever their values. *)
Lemma param_str_eq (self : GWNClient) (timestamp : Z) (body : json) :
  param_str self timestamp body
  = spec_signing_string (py_str (access_token self)) (app_id self) (secret_key self)
      timestamp (signed_body body).
Proof.
  unfold param_str, spec_signing_string, signed_body, spec_parameters.
  cbn [map fst snd].
  rewrite sorted_signature_keys.
  cbn [map get_default dict_get String.eqb Ascii.eqb Bool.eqb py_str String.concat].
  destruct (truthy body); cbn [append]; repeat rewrite append_assoc; cbn [append];
    reflexivity.
Qed.

(** ** C1: the signature *)

(** C1, as stated, fails on a body that is present but empty: for the body
    [{}] the code appends the single [&] of a call without body, where the
    claim has the digest of the serialized body between two [&]. *)
Lemma calculate_signature_empty_body :
  calculate_signature (Client "APP" "SECRET" "https://eu.gwn.cloud" (JStr "TOK") 0)
    1700000000123 (body_arg (Some (JObj [])))
  <> spec_signature "TOK" "APP" "SECRET" 1700000000123 (Some (JObj [])).
Proof. apply String.eqb_neq. vm_compute. reflexivity. Qed.

(** C1, amended: for every client state, timestamp and body, the signature
    is the SHA-256 hex digest of the four parameters access_token, appID,
    secretKey, timestamp, which is their lexicographic order, rendered as
    [&key=value], followed by the digest of the compact JSON of the body
    between two [&] when the body is truthy, and by a single [&] when the
    body is absent or falsy. *)
Theorem calculate_signature_spec (self : GWNClient) (timestamp : Z) (body : json) :
  calculate_signature self timestamp body
  = spec_signature (py_str (access_token self)) (app_id self) (secret_key self)
      timestamp (signed_body body)
  /\ sorted (map fst (spec_parameters (py_str (access_token self)) (app_id self)
                        (secret_key self) timestamp))
     = map fst (spec_parameters (py_str (access_token self)) (app_id self)
                  (secret_key self) timestamp).
Proof.
  split.
  - unfold calculate_signature, spec_signature. now rewrite param_str_eq.
  - reflexivity.
Qed.

Example signature_without_body :
  calculate_signature (Client "APP" "SECRET" "https://eu.gwn.cloud" (JStr "TOK") 0)
    1700000000123 JNull
  = "d805b9a668a1dd89a919db1e47b03547872da2f9aafcfcaa765ddc68df5a0602".
Proof. vm_compute. reflexivity. Qed.

Example signature_with_body :
  calculate_signature (Client "APP" "SECRET" "https://eu.gwn.cloud" (JStr "TOK") 0)
    1700000000123 (JObj [ ("pageNum", JNum 1); ("pageSize", JNum 100) ])
  = "de87dd25d13b70b37878dd9bc9dbc4cf64d91f30d6513694ed1f7aa599980880".
Proof. vm_compute. reflexivity. Qed.

(** ** The steps of [authenticate] and of the token check *)

Lemma Qle_bool_false (x y : Q) : (y < x)%Q -> Qle_bool x y = false.
Proof.
  intros H. destruct (Qle_bool x y) eqn:E; [|reflexivity].
  apply Qle_bool_iff in E. exfalso. exact (Qlt_not_le _ _ H E).
Qed.

Lemma Qle_bool_true (x y : Q) : (x <= y)%Q -> Qle_bool x y = true.
Proof. intros H. now apply Qle_bool_iff. Qed.

(** The addition of [expires_in] to the time raises for a value that is not
    a number and for an int beyond the floats. *)
Lemma seconds_raises (v : json) (e : pyexn) :
  seconds v = Raise e -> e = TypeError \/ e = OverflowError.
Proof.
  destruct v as [|b|n| | |]; cbn [seconds]; try (intros [= <-]; now left); try discriminate.
  unfold float_of_int. destruct (finite64 _); [discriminate|]. intros [= <-]. now right.
Qed.

Lemma add_seconds_raises (t : Q) (v : json) (e : pyexn) :
  add_seconds t v = Raise e -> e = TypeError \/ e = OverflowError.
Proof.
  unfold add_seconds. destruct (seconds v) as [x|e'] eqn:E; cbn [rbind]; [discriminate|].
  intros [= <-]. exact (seconds_raises v e' E).
Qed.

(** [authenticate], one case for each way the exchange can go. *)
Lemma authenticate_cases (self : GWNClient) (w : world) :
  authenticate self w =
  let w1 := record (auth_request self) w in
  match next_outcome w with
  | Transport _ => (Ret false, self, w1)
  | Reply r =>
      if is_success r then
        match parsed r with
        | None => (Raise ValueError, self, w1)
        | Some (JObj d) =>
            let token := get_default d "access_token" JNull in
            match add_seconds (clock w (reads w)) (get_default d "expires_in" (JNum 3600)) with
            | Ret expiry => (Ret true, with_token self token expiry, tick w1)
            | Raise e => (Raise e, with_token self token (token_expiry self), tick w1)
            end
        | Some _ => (Raise AttributeError, self, w1)
        end
      else (Ret false, self, w1)
  | Unparsable msg => (Raise (InvalidURL msg), self, w1)
  end.
Proof.
  unfold authenticate, bind, try_except, get_self, httpx_send, auth_request.
  destruct (next_outcome w) as [msg|r|msg]; [reflexivity| |reflexivity].
  unfold raise_for_status. destruct (is_success r); [|reflexivity].
  unfold ret, response_json. destruct (parsed r) as [v|]; [|reflexivity].
  destruct v; try reflexivity.
  unfold ret, lift, py_get, set_access_token, time_time, set_token_expiry, with_token.
  cbn [app_id secret_key base_url access_token token_expiry clock reads record tick].
  destruct (add_seconds _ _) as [x|e] eqn:E; [reflexivity|].
  destruct (add_seconds_raises _ _ _ E) as [-> | ->]; reflexivity.
Qed.

(** Whatever happens, [authenticate] issues exactly one request, the
    credential exchange, and leaves the credentials, the clock and the server
    as they are. *)
Lemma authenticate_frame (self : GWNClient) (w : world) :
  let r := authenticate self w in
  sent (world_of r) = (sent w ++ [auth_request self])%list
  /\ clock (world_of r) = clock w /\ server (world_of r) = server w
  /\ app_id (client_of r) = app_id self
  /\ secret_key (client_of r) = secret_key self
  /\ base_url (client_of r) = base_url self.
Proof.
  cbv zeta. rewrite authenticate_cases. cbv zeta.
  destruct (next_outcome w) as [msg|r|msg]; [now cbn| |now cbn].
  destruct (is_success r); [|now cbn].
  destruct (parsed r) as [v|]; [|now cbn].
  destruct v; try (now cbn).
  destruct (add_seconds _ _); now cbn.
Qed.

(** The exceptions [authenticate] raises: of the errors of httpx, only
    [InvalidURL] escapes its two handlers. *)
Lemma authenticate_raises (self : GWNClient) (w : world) (e : pyexn) :
  outcome_of (authenticate self w) = Raise e ->
  e = ValueError \/ e = AttributeError \/ e = TypeError \/ e = OverflowError
  \/ exists msg, e = InvalidURL msg /\ next_outcome w = Unparsable msg.
Proof.
  rewrite authenticate_cases. cbv zeta.
  destruct (next_outcome w) as [msg|r|msg];
    [discriminate| |cbn; intros [= <-]; do 4 right; now exists msg].
  destruct (is_success r); [|discriminate].
  destruct (parsed r) as [v|]; [|cbn; intros [= <-]; auto].
  destruct v; try (cbn; intros [= <-]; now auto).
  destruct (add_seconds _ _) as [x|e'] eqn:E; cbn; [discriminate|].
  intros [= <-]. destruct (add_seconds_raises _ _ _ E) as [-> | ->]; auto.
Qed.

Lemma ensure_token_cases (self : GWNClient) (w : world) :
  ensure_token self w =
  if truthy (access_token self) then
    if Qle_bool (token_expiry self) (clock w (reads w))
    then refresh self (tick w)
    else (Ret tt, self, tick w)
  else refresh self w.
Proof.
  unfold ensure_token, token_missing_or_expired, refresh, bind, get_self, time_time, ret.
  destruct (truthy (access_token self)); cbn [negb]; [|reflexivity].
  destruct (Qle_bool (token_expiry self) (clock w (reads w))); reflexivity.
Qed.

Lemma refresh_cases (self : GWNClient) (w : world) :
  refresh self w =
  match authenticate self w with
  | (Ret true, s, w') => (Ret tt, s, w')
  | (Ret false, s, w') => (Raise CouldNotAuthenticate, s, w')
  | (Raise e, s, w') => (Raise e, s, w')
  end.
Proof.
  unfold refresh, bind. destruct (authenticate self w) as [[[[|]|e] s] w']; reflexivity.
Qed.

(** A refresh issues the credential exchange and nothing else, and the only
    exceptions it raises are none of those the two handlers catch. *)
Lemma refresh_frame (self : GWNClient) (w : world) :
  let r := refresh self w in
  sent (world_of r) = (sent w ++ [auth_request self])%list
  /\ clock (world_of r) = clock w /\ server (world_of r) = server w
  /\ app_id (client_of r) = app_id self
  /\ secret_key (client_of r) = secret_key self
  /\ base_url (client_of r) = base_url self
  /\ (forall e, outcome_of r = Raise e ->
        httpx_errors_return JNull e = None).
Proof.
  cbv zeta. rewrite refresh_cases.
  pose proof (authenticate_frame self w) as F. cbv zeta in F.
  pose proof (authenticate_raises self w) as R.
  destruct (authenticate self w) as [[[[|]|e] s] w']; cbn in *;
    destruct F as (F1 & F2 & F3 & F4 & F5 & F6); repeat split; auto;
    intros e' [= <-]; try reflexivity.
  destruct (R e eq_refl) as [-> | [-> | [-> | [-> | (msg & -> & _)]]]]; reflexivity.
Qed.

(** The token check issues no request or one credential exchange. *)
Lemma ensure_token_frame (self : GWNClient) (w : world) :
  let r := ensure_token self w in
  (sent (world_of r) = sent w \/ sent (world_of r) = (sent w ++ [auth_request self])%list)
  /\ clock (world_of r) = clock w /\ server (world_of r) = server w
  /\ app_id (client_of r) = app_id self
  /\ secret_key (client_of r) = secret_key self
  /\ base_url (client_of r) = base_url self
  /\ (forall e, outcome_of r = Raise e -> httpx_errors_return JNull e = None).
Proof.
  cbv zeta. rewrite ensure_token_cases.
  destruct (truthy (access_token self)).
  - destruct (Qle_bool _ _).
    + destruct (refresh_frame self (tick w)) as (F1 & F2 & F3 & F4 & F5 & F6 & F7).
      repeat split; auto.
    + cbn. repeat split; auto. discriminate.
  - destruct (refresh_frame self w) as (F1 & F2 & F3 & F4 & F5 & F6 & F7).
    repeat split; auto.
Qed.

(** [make_request], step by step: the timestamp, the token check, the
    signature and the query, the token check of [get_headers], the request. *)
Lemma make_request_cases (method endpoint : string) (json_data : json)
    (params : option pydict) (self : GWNClient) (w : world) :
  make_request method endpoint json_data params self w =
  let timestamp := millis (clock w (reads w)) in
  match ensure_token self (tick w) with
  | (Raise e, s1, w1) => (Raise e, s1, w1)
  | (Ret _, s1, w1) =>
      let query := query_params s1 timestamp (calculate_signature s1 timestamp json_data) params in
      match ensure_token s1 w1 with
      | (Raise e, s2, w2) => (Raise e, s2, w2)
      | (Ret _, s2, w2) =>
          (api_result (next_outcome w2), s2,
           record (api_request method (base_url self ++ endpoint) query json_data) w2)
      end
  end.
Proof.
  unfold make_request. unfold bind at 1. unfold get_self at 1.
  unfold bind at 1. unfold time_time at 1.
  unfold bind at 1.
  destruct (ensure_token self (tick w)) as [[[[]|e] s1] w1]; [|reflexivity].
  unfold bind at 1. unfold get_self at 1.
  unfold try_except, get_headers. unfold bind at 1. unfold bind at 1.
  pose proof (ensure_token_frame s1 w1) as F. cbv zeta in F.
  destruct (ensure_token s1 w1) as [[[[]|e] s2] w2]; cbn in F.
  - unfold ret at 1. unfold bind at 1. unfold api_request, api_result.
    destruct (upper method =? "POST")%string; unfold httpx_send;
      destruct (next_outcome w2) as [msg|r|msg]; try reflexivity;
      unfold bind, raise_for_status; destruct (is_success r); try reflexivity;
      unfold ret, response_json; destruct (parsed r); reflexivity.
  - destruct F as (_ & _ & _ & _ & _ & _ & F). now rewrite (F e eq_refl).
Qed.


Lemma refresh_failed (self : GWNClient) (w : world) :
  http_failure (next_outcome w) = true ->
  refresh self w = (Raise CouldNotAuthenticate, self, record (auth_request self) w).
Proof.
  intros H. rewrite refresh_cases, authenticate_cases. cbv zeta.
  destruct (next_outcome w) as [msg|r|msg]; [reflexivity| |discriminate].
  cbn in H. destruct (is_success r); [discriminate|reflexivity].
Qed.

Lemma issued_app (w w' : world) (l : list request) :
  sent w' = (sent w ++ l)%list -> issued w w' = l.
Proof.
  intros H. unfold issued. rewrite H. clear H.
  induction (sent w) as [|x s IH]; [reflexivity | exact IH].
Qed.

(** ** C2: authentication calls of a signed call *)


(** The other half of C2 fails too: a token that is valid when the call
    starts and at the check of [make_request] but expired at the check of
    [get_headers] costs one authentication call. *)
Example make_request_expiry_between_checks :
  let self := Client "APP" "SECRET" "https://eu.gwn.cloud" (JStr "OLD") 1002 in
  truthy (access_token self) = true
  /\ (clock expiring (reads expiring) < token_expiry self)%Q
  /\ auth_calls (issued expiring (world_of (make_request "GET" "/x" JNull None self expiring)))
     = 1%nat.
Proof. repeat split. Qed.



(** ** The trace of a signed call *)

Lemma auth_request_stable (s self : GWNClient) :
  app_id s = app_id self -> secret_key s = secret_key self -> base_url s = base_url self ->
  auth_request s = auth_request self.
Proof. intros H1 H2 H3. unfold auth_request. now rewrite H1, H2, H3. Qed.

(** The exchanges of two token checks in a row. *)
Lemma two_checks_sent (self : GWNClient) (w w1 w2 : world) :
  sent w1 = sent w \/ sent w1 = (sent w ++ [auth_request self])%list ->
  sent w2 = sent w1 \/ sent w2 = (sent w1 ++ [auth_request self])%list ->
  exists auths,
    Forall (fun rq => rq = auth_request self) auths
    /\ (List.length auths <= 2)%nat
    /\ sent w2 = (sent w ++ auths)%list.
Proof.
  intros [S1|S1] [S2|S2]; rewrite S2, S1.
  - exists []. rewrite app_nil_r. repeat split; auto.
  - exists [auth_request self]. repeat split; auto.
  - exists [auth_request self]. repeat split; auto.
  - exists [auth_request self; auth_request self]. rewrite <- app_assoc.
    repeat split; auto.
Qed.

(** A signed call issues at most two credential exchanges, then either stops
    on an exception or issues its HTTP request, once, and returns what
    [api_result] makes of the outcome of that request. *)
Lemma make_request_trace (method endpoint : string) (json_data : json)
    (params : option pydict) (self : GWNClient) (w : world) :
  let run := make_request method endpoint json_data params self w in
  let timestamp := millis (clock w (reads w)) in
  exists auths,
    Forall (fun rq => rq = auth_request self) auths
    /\ (List.length auths <= 2)%nat
    /\ ((issued w (world_of run) = auths /\ exists e, outcome_of run = Raise e)
        \/ exists s1,
             fst (ensure_token self (tick w)) = (Ret tt, s1)
             /\ app_id s1 = app_id self /\ secret_key s1 = secret_key self
             /\ issued w (world_of run)
                = (auths ++ [api_request method (base_url self ++ endpoint)
                               (query_params s1 timestamp
                                  (calculate_signature s1 timestamp json_data) params)
                               json_data])%list
             /\ outcome_of run
                = api_result (server w (List.length (sent w ++ auths)%list))).
Proof.
  cbv zeta. rewrite make_request_cases. cbv zeta.
  pose proof (ensure_token_frame self (tick w)) as F1. cbv zeta in F1.
  destruct (ensure_token self (tick w)) as [[[[]|e] s1] w1];
    cbn [world_of client_of outcome_of fst snd] in F1;
    destruct F1 as (S1 & C1 & V1 & A1 & K1 & B1 & _); cbn [sent tick] in S1.
  - pose proof (ensure_token_frame s1 w1) as F2. cbv zeta in F2.
    destruct (ensure_token s1 w1) as [[[[]|e] s2] w2];
      cbn [world_of client_of outcome_of fst snd] in F2 |- *;
      destruct F2 as (S2 & C2 & V2 & A2 & K2 & B2 & _);
      rewrite (auth_request_stable s1 self A1 K1 B1) in S2.
    + destruct (two_checks_sent self w w1 w2 S1 S2) as (auths & Fa & La & Sa).
      exists auths. split; [exact Fa|]. split; [exact La|]. right. exists s1.
      split; [reflexivity|]. split; [exact A1|]. split; [exact K1|]. split.
      * apply issued_app. cbn [sent record]. rewrite Sa. now rewrite <- app_assoc.
      * unfold next_outcome. rewrite V2, V1. cbn [server tick]. now rewrite Sa.
    + destruct (two_checks_sent self w w1 w2 S1 S2) as (auths & Fa & La & Sa).
      exists auths. split; [exact Fa|]. split; [exact La|]. left.
      split; [now apply issued_app | now exists e].
  - cbn [world_of client_of outcome_of fst snd].
    destruct S1 as [S1|S1].
    + exists []. repeat split; auto. left. split; [|now exists e].
      apply issued_app. now rewrite app_nil_r.
    + exists [auth_request self]. repeat split; auto. left. split; [|now exists e].
      now apply issued_app.
Qed.

(** ** C3: the query parameters *)

Lemma dict_get_set (k k' : string) (v : json) (d : pydict) :
  dict_get k (dict_set k' v d) = if String.eqb k k' then Some v else dict_get k d.
Proof.
  induction d as [|[k0 v0] d IH]; cbn [dict_set dict_get].
  - reflexivity.
  - destruct (String.eqb_spec k' k0) as [->|N]; cbn [dict_get].
    + destruct (String.eqb k k0); reflexivity.
    + rewrite IH. destruct (String.eqb_spec k k0) as [->|N']; [|reflexivity].
      destruct (String.eqb_spec k0 k') as [E|_]; [now subst|reflexivity].
Qed.

Lemma dict_get_app (k : string) (d1 d2 : pydict) :
  dict_get k (d1 ++ d2)%list
  = match dict_get k d1 with Some v => Some v | None => dict_get k d2 end.
Proof.
  induction d1 as [|[k0 v0] d1 IH]; cbn [dict_get app]; [reflexivity|].
  destruct (String.eqb k k0); [reflexivity | exact IH].
Qed.

(** After [d.update(other)] a key of [other] has the value [other] gives it
    last, and any other key keeps its value. *)
Lemma dict_get_update (k : string) (other d : pydict) :
  dict_get k (dict_update d other)
  = match dict_get k (rev other) with Some v => Some v | None => dict_get k d end.
Proof.
  unfold dict_update. revert d.
  induction other as [|[k0 v0] other IH]; intros d; cbn [fold_left rev fst snd].
  - reflexivity.
  - rewrite IH, dict_get_app, dict_get_set. cbn [dict_get].
    destruct (dict_get k (rev other)); [reflexivity|].
    destruct (String.eqb k k0); reflexivity.
Qed.

Lemma query_params_get (self : GWNClient) (timestamp : Z) (signature : string)
    (params : option pydict) (k : string) :
  dict_get k (query_params self timestamp signature params)
  = sent_value (signed_fields self timestamp signature) params k.
Proof.
  unfold query_params, sent_value. destruct params as [p|]; [|reflexivity].
  destruct p as [|kv p]; [reflexivity|]. cbn [params_given]. apply dict_get_update.
Qed.

Lemma query_of_api_request (method url : string) (query : pydict) (json_data : json) :
  query_of (api_request method url query json_data) = query
  /\ is_auth (api_request method url query json_data) = false.
Proof. unfold api_request. now destruct (upper method =? "POST")%string. Qed.

(** C3, as stated, fails: a caller that passes a [signature] parameter has
    its value sent in place of the computed signature. *)
Lemma make_request_caller_overrides_signature :
  dict_get "signature"
    (query_of (last_issued (within_a_minute 1000 [envelope []])
                 (make_request "POST" "/oapi/v1.0.0/network/list" network_list_body forged
                    signed_in (within_a_minute 1000 [envelope []]))))
  = Some (JStr "forged")
  /\ calculate_signature signed_in 1000000 network_list_body <> "forged".
Proof. split; [vm_compute; reflexivity | apply String.eqb_neq; vm_compute; reflexivity]. Qed.

(** The token the client holds after a token check that went through: the
    stored one when it is truthy and unexpired, the one of the token response
    otherwise. *)
Lemma ensure_token_token (self : GWNClient) (w : world) (s1 : GWNClient) :
  fst (ensure_token self w) = (Ret tt, s1) ->
  (truthy (access_token self) = true -> (clock w (reads w) < token_expiry self)%Q ->
   s1 = self)
  /\ (forall r d,
        truthy (access_token self) = false \/ (token_expiry self <= clock w (reads w))%Q ->
        next_outcome w = Reply r -> parsed r = Some (JObj d) ->
        access_token s1 = get_default d "access_token" JNull).
Proof.
  rewrite ensure_token_cases. intros E. split.
  - intros Ht Hf. rewrite Ht, (Qle_bool_false _ _ Hf) in E. now injection E.
  - intros r d Hstale Ho Hp.
    assert (forall w', next_outcome w' = Reply r -> fst (refresh self w') = (Ret tt, s1) ->
                       access_token s1 = get_default d "access_token" JNull) as R.
    { intros w' Ho' E'. rewrite refresh_cases, authenticate_cases in E'. cbv zeta in E'.
      rewrite Ho', Hp in E'. destruct (is_success r); [|discriminate].
      destruct (add_seconds _ _); cbn [fst] in E'; [|discriminate]. now injection E' as <-. }
    destruct (truthy (access_token self)) eqn:T.
    + destruct Hstale as [Hf | Hexp]; [discriminate|].
      rewrite (Qle_bool_true _ _ Hexp) in E. exact (R (tick w) Ho E).
    + exact (R w Ho E).
Qed.

Lemma signed_fields_eq (s1 : GWNClient) (timestamp : Z) (json_data : json) :
  signed_fields s1 timestamp (calculate_signature s1 timestamp json_data)
  = executor_fields (access_token s1) (app_id s1) (secret_key s1) timestamp json_data.
Proof.
  unfold signed_fields, executor_fields, calculate_signature, spec_signature.
  now rewrite param_str_eq.
Qed.

(** C3, amended: in the HTTP request of a signed call every query field,
    and so each of access_token, appID, timestamp and signature, is sent with
    the value the caller's extra parameters give it when they name that field,
    and with the value the executor computed otherwise: caller-supplied values
    do override the signed fields.  The computed values are the token the
    client holds after the token check of [make_request] (the stored token
    when it is truthy and unexpired at that check, the token of the token
    response otherwise), the app id, the first clock reading of the call in
    milliseconds, and the signature of that token, the app id, the secret,
    that timestamp and [json_data]. *)
Theorem make_request_query_fields (method endpoint : string) (json_data : json)
    (params : option pydict) (self : GWNClient) (w : world) (rq : request) (k : string) :
  In rq (issued w (world_of (make_request method endpoint json_data params self w))) ->
  is_auth rq = false ->
  let timestamp := millis (clock w (reads w)) in
  let token := access_token (client_of (ensure_token self (tick w))) in
  dict_get k (query_of rq)
  = sent_value (executor_fields token (app_id self) (secret_key self) timestamp json_data)
      params k
  /\ (truthy (access_token self) = true ->
      (clock w (S (reads w)) < token_expiry self)%Q ->
      token = access_token self)
  /\ (forall r d,
        stale self w -> next_outcome w = Reply r -> parsed r = Some (JObj d) ->
        token = get_default d "access_token" JNull).
Proof.
  intros Hin Hrq. cbv zeta.
  destruct (make_request_trace method endpoint json_data params self w)
    as (auths & Fa & _ & [[E _] | (s1 & E1 & A1 & K1 & E & _)]); cbv zeta in *.
  - rewrite E in Hin. rewrite Forall_forall in Fa. rewrite (Fa rq Hin) in Hrq. discriminate.
  - assert (client_of (ensure_token self (tick w)) = s1) as ->
      by (unfold client_of; now rewrite E1).
    destruct (ensure_token_token self (tick w) s1 E1) as [T1 T2].
    split; [|split].
    + rewrite E in Hin. apply in_app_or in Hin. destruct Hin as [Hin | [<- | []]].
      * rewrite Forall_forall in Fa. rewrite (Fa rq Hin) in Hrq. discriminate.
      * rewrite (proj1 (query_of_api_request _ _ _ _)), query_params_get.
        now rewrite signed_fields_eq, A1, K1.
    + intros Ht Hf. now rewrite (T1 Ht Hf).
    + intros r d Hst Ho Hp. exact (T2 r d Hst Ho Hp).
Qed.

Lemma make_request_query_fields_witness :
  dict_get "signature"
    (query_of (last_issued (scripted 1000 [token_reply "NEW" 3600; envelope []])
                 (make_request "POST" "/oapi/v1.0.0/network/list" network_list_body
                    forged demo (scripted 1000 [token_reply "NEW" 3600; envelope []]))))
  = sent_value
      (executor_fields
         (access_token
            (client_of (ensure_token demo
                          (tick (scripted 1000 [token_reply "NEW" 3600; envelope []])))))
         (app_id demo) (secret_key demo)
         (millis (clock (scripted 1000 [token_reply "NEW" 3600; envelope []]) 0))
         network_list_body)
      forged "signature"
  /\ (truthy (access_token demo) = true ->
      (clock (scripted 1000 [token_reply "NEW" 3600; envelope []]) 1 < token_expiry demo)%Q ->
      access_token
        (client_of (ensure_token demo
                      (tick (scripted 1000 [token_reply "NEW" 3600; envelope []]))))
      = access_token demo)
  /\ (forall r d,
        stale demo (scripted 1000 [token_reply "NEW" 3600; envelope []]) ->
        next_outcome (scripted 1000 [token_reply "NEW" 3600; envelope []]) = Reply r ->
        parsed r = Some (JObj d) ->
        access_token
          (client_of (ensure_token demo
                        (tick (scripted 1000 [token_reply "NEW" 3600; envelope []]))))
        = get_default d "access_token" JNull).
Proof.
  apply (make_request_query_fields "POST" "/oapi/v1.0.0/network/list" network_list_body
           forged demo (scripted 1000 [token_reply "NEW" 3600; envelope []])).
  - vm_compute. right. left. reflexivity.
  - vm_compute. reflexivity.
Defined.

(** ** C4: failures of the HTTP exchange *)

Lemma api_calls_auths (auths : list request) (self : GWNClient) (rq : request) :
  Forall (fun x => x = auth_request self) auths -> is_auth rq = false ->
  api_calls (auths ++ [rq]) = 1%nat /\ api_calls auths = 0%nat.
Proof.
  intros Fa Hrq. unfold api_calls.
  induction Fa as [|x l -> _ IH]; cbn [app filter is_auth auth_request negb].
  - rewrite Hrq. now cbn.
  - exact IH.
Qed.

(** C4, as stated, fails: on a 401 the call does not fail at all, it returns
    [None], and no value that reaches the caller carries the status. *)
Lemma make_request_401_returns_none :
  outcome_of (make_request "POST" "/oapi/v1.0.0/network/list" network_list_body None
                signed_in unauthorized)
  = Ret JNull
  /\ ~ (exists e,
          outcome_of (make_request "POST" "/oapi/v1.0.0/network/list" network_list_body None
                        signed_in unauthorized)
          = Raise e
          /\ carried_status e = Some 401).
Proof.
  assert (outcome_of (make_request "POST" "/oapi/v1.0.0/network/list" network_list_body None
                        signed_in unauthorized) = Ret JNull) as E
    by (vm_compute; reflexivity).
  split; [exact E|]. intros (e & He & _). rewrite E in He. discriminate.
Qed.

(** C4, amended: whenever the HTTP request of a signed call receives a
    non-2xx response or meets a transport error, [make_request] returns
    [None]: no exception is raised, and neither the status nor the body of the
    response reaches the caller.  In each of these cases the HTTP request was
    issued exactly once: there is no retry. *)
Theorem make_request_http_failure (method endpoint : string) (json_data : json)
    (params : option pydict) (self : GWNClient) (w : world)
    (before : list request) (rq : request) :
  let run := make_request method endpoint json_data params self w in
  issued w (world_of run) = (before ++ [rq])%list ->
  is_auth rq = false ->
  http_failure (server w (List.length (sent w ++ before)%list)) = true ->
  outcome_of run = Ret JNull
  /\ api_calls (issued w (world_of run)) = 1%nat.
Proof.
  cbv zeta. intros Hi Hrq Hf.
  destruct (make_request_trace method endpoint json_data params self w)
    as (auths & Fa & _ & [[E _] | (s1 & _ & A1 & _ & E & R)]); cbv zeta in *.
  - exfalso. rewrite E in Hi. rewrite Forall_forall in Fa.
    assert (In rq auths) as Hin by (rewrite Hi; apply in_or_app; right; now left).
    rewrite (Fa rq Hin) in Hrq. discriminate.
  - rewrite E in Hi. apply app_inj_tail in Hi. destruct Hi as [-> <-].
    split.
    + rewrite R. unfold api_result.
      destruct (server w _) as [msg|r|msg]; [reflexivity| |discriminate].
      cbn in Hf. now destruct (is_success r).
    + rewrite E. now apply (api_calls_auths before self).
Qed.

Lemma make_request_http_failure_witness :
  outcome_of (make_request "POST" "/oapi/v1.0.0/network/list" network_list_body None
                signed_in unauthorized)
  = Ret JNull
  /\ api_calls (issued unauthorized
                  (world_of (make_request "POST" "/oapi/v1.0.0/network/list"
                               network_list_body None signed_in unauthorized)))
     = 1%nat.
Proof.
  apply (make_request_http_failure "POST" "/oapi/v1.0.0/network/list" network_list_body None
           signed_in unauthorized []
           (last_issued unauthorized
              (make_request "POST" "/oapi/v1.0.0/network/list" network_list_body None
                 signed_in unauthorized))).
  - vm_compute. reflexivity.
  - vm_compute. reflexivity.
  - vm_compute. reflexivity.
Defined.

(** No signed call issues its HTTP request twice. *)
Lemma make_request_single_attempt (method endpoint : string) (json_data : json)
    (params : option pydict) (self : GWNClient) (w : world) :
  (api_calls (issued w (world_of (make_request method endpoint json_data params self w)))
   <= 1)%nat.
Proof.
  destruct (make_request_trace method endpoint json_data params self w)
    as (auths & Fa & _ & [[E _] | (s1 & _ & A1 & _ & E & R)]); cbv zeta in *; rewrite E.
  - rewrite (proj2 (api_calls_auths auths self (api_request method EmptyString [] JNull)
                      Fa (proj2 (query_of_api_request _ _ _ _)))). lia.
  - rewrite (proj1 (api_calls_auths auths self _ Fa (proj2 (query_of_api_request _ _ _ _)))).
    lia.
Qed.

(** ** The steps of [get_data] *)

Lemma get_data_cases (self : GWNClient) (w : world) :
  get_data self w =
  match authenticate self w with
  | (Raise e, s0, w0) => (Raise e, s0, w0)
  | (Ret _, s0, w0) =>
      match get_networks s0 w0 with
      | (Raise e, s1, w1) => (Raise e, s1, w1)
      | (Ret networks, s1, w1) =>
          if truthy networks then
            match first_network_id networks with
            | Raise e => (Raise e, s1, w1)
            | Ret network_id =>
                match get_access_points network_id s1 w1 with
                | (Raise e, s2, w2) => (Raise e, s2, w2)
                | (Ret aps, s2, w2) =>
                    match get_client_List network_id s2 w2 with
                    | (Raise e, s3, w3) => (Raise e, s3, w3)
                    | (Ret clients, s3, w3) => (join_lists aps clients, s3, w3)
                    end
                end
            end
          else (Ret JNull, s1, w1)
      end
  end.
Proof.
  unfold get_data. unfold bind at 1.
  destruct (authenticate self w) as [[[b|e] s0] w0]; [|reflexivity].
  unfold bind at 1.
  destruct (get_networks s0 w0) as [[[networks|e] s1] w1]; [|reflexivity].
  destruct (truthy networks); [|reflexivity].
  unfold first_network_id, bind, lift, rbind.
  destruct (py_item networks "data") as [data|e]; [|reflexivity].
  destruct (py_item data "result") as [found|e]; [|reflexivity].
  destruct (py_first found) as [network|e]; [|reflexivity].
  destruct (py_get network "id" JNull) as [network_id|e]; [|reflexivity].
  destruct (get_access_points network_id s1 w1) as [[[aps|e] s2] w2]; [|reflexivity].
  destruct (get_client_List network_id s2 w2) as [[[clients|e] s3] w3]; reflexivity.
Qed.

(** ** C10: the snapshot entry point can return [None] *)

(** C10: whenever the network-list call returns a falsy value, which is what
    it does when its HTTP request fails ([make_request] returns [None]) and
    when the server sends a falsy envelope, [get_data] falls through and
    returns [None] without raising, which is neither a snapshot nor a typed
    failure. *)
Theorem get_data_returns_none (self s0 s1 : GWNClient) (w w0 w1 : world) (ok : bool)
    (networks : json) :
  authenticate self w = (Ret ok, s0, w0) ->
  get_networks s0 w0 = (Ret networks, s1, w1) ->
  truthy networks = false ->
  get_data self w = (Ret JNull, s1, w1).
Proof.
  intros Ha Hn Ht. rewrite get_data_cases, Ha, Hn, Ht. reflexivity.
Qed.

Lemma get_data_returns_none_witness :
  outcome_of (get_data demo networks_refused) = Ret JNull.
Proof.
  erewrite (get_data_returns_none demo _ _ networks_refused _ _ true JNull).
  - reflexivity.
  - vm_compute. reflexivity.
  - vm_compute. reflexivity.
  - reflexivity.
Defined.

(** ** C5: an empty network list *)

(** C5, as stated, fails: on an empty network list the snapshot build
    crashes with the [IndexError] of [result[0]], an untyped exception. *)
Lemma get_data_empty_network_list_crashes :
  outcome_of (get_data demo no_network) = Raise IndexError
  /\ ~ (exists e, outcome_of (get_data demo no_network) = Raise e
                  /\ untyped_crash e = false).
Proof.
  assert (outcome_of (get_data demo no_network) = Raise IndexError) as E
    by (vm_compute; reflexivity).
  split; [exact E|]. intros (e & He & Hc). rewrite E in He.
  injection He as <-. discriminate.
Qed.

(** C5, amended: if the network-list call returns an envelope whose result
    list is empty, the snapshot build fails: [get_data] raises an exception
    to its caller, which is the [IndexError] of indexing that list and not a
    [SnapshotError] (the client defines no error type); nothing further is
    fetched and no snapshot is returned. *)
Theorem get_data_empty_network_list (self s0 s1 : GWNClient) (w w0 w1 : world) (ok : bool)
    (networks data : json) :
  authenticate self w = (Ret ok, s0, w0) ->
  get_networks s0 w0 = (Ret networks, s1, w1) ->
  py_item networks "data" = Ret data ->
  py_item data "result" = Ret (JArr []) ->
  get_data self w = (Raise IndexError, s1, w1).
Proof.
  intros Ha Hn Hd Hr. rewrite get_data_cases, Ha, Hn.
  assert (truthy networks = true) as ->.
  { destruct networks; try discriminate. now destruct fields. }
  unfold first_network_id. rewrite Hd. cbn [rbind]. rewrite Hr. reflexivity.
Qed.

Lemma get_data_empty_network_list_witness :
  outcome_of (get_data demo no_network) = Raise IndexError.
Proof.
  erewrite (get_data_empty_network_list demo _ _ no_network _ _ true
              (JObj [("data", JObj [("result", JArr [])])])
              (JObj [("result", JArr [])])).
  - reflexivity.
  - vm_compute. reflexivity.
  - vm_compute. reflexivity.
  - reflexivity.
  - reflexivity.
Defined.

(** ** C6: a failed fetch of the access points or of the clients *)

Lemma result_list_raises (v : json) (e : pyexn) :
  result_list v = Raise e -> e = AttributeError.
Proof.
  unfold result_list, py_get, rbind. destruct v; try (now intros [= <-]).
  destruct (get_default fields "data" (JObj [])); now intros [= <-].
Qed.

Lemma build_aps_map_raises (aps : list json) (m : pymap) (e : pyexn) :
  build_aps_map aps m = Raise e -> untyped_crash e = true.
Proof.
  revert m. induction aps as [|ap aps IH]; intros m; cbn [build_aps_map]; [discriminate|].
  unfold py_get. destruct ap; cbn [rbind]; try (now intros [= <-]).
  unfold map_set. destruct (hashable _); cbn [rbind]; [apply IH | now intros [= <-]].
Qed.

Lemma normalize_client_raises (m : pymap) (client : json) (e : pyexn) :
  normalize_client m client = Raise e -> untyped_crash e = true.
Proof.
  unfold normalize_client, py_get. destruct client; cbn [rbind]; try (now intros [= <-]).
  unfold map_get. destruct (hashable _); cbn [rbind]; [|now intros [= <-]].
  destruct (match map_lookup _ m with Some v => v | None => JObj [] end);
    cbn [rbind]; try discriminate; now intros [= <-].
Qed.

Lemma normalize_clients_raises (m : pymap) (l : list json) (e : pyexn) :
  normalize_clients m l = Raise e -> untyped_crash e = true.
Proof.
  induction l as [|c l IH]; cbn [normalize_clients]; [discriminate|].
  destruct (normalize_client m c) eqn:E; cbn [rbind].
  - destruct (normalize_clients m l); cbn [rbind]; [discriminate|].
    intros [= <-]. now apply IH.
  - intros [= <-]. now apply (normalize_client_raises m c).
Qed.

Lemma py_iter_raises (v : json) (e : pyexn) : py_iter v = Raise e -> e = TypeError.
Proof. destruct v; cbn; try discriminate; now intros [= <-]. Qed.

(** The join either yields a snapshot that holds both lists or raises one of
    the untyped exceptions. *)
Lemma join_lists_cases (aps_data clients_data : json) :
  (exists aps_list clients,
     join_lists aps_data clients_data
     = Ret (JObj [("aps", aps_list); ("clients", JArr clients)]))
  \/ (exists e, join_lists aps_data clients_data = Raise e /\ untyped_crash e = true).
Proof.
  unfold join_lists.
  destruct (result_list aps_data) as [aps_list|e] eqn:E1; cbn [rbind];
    [|right; exists e; split; [reflexivity | now rewrite (result_list_raises _ _ E1)]].
  destruct (py_iter aps_list) as [aps|e] eqn:E2; cbn [rbind];
    [|right; exists e; split; [reflexivity | now rewrite (py_iter_raises _ _ E2)]].
  destruct (build_aps_map aps []) as [m|e] eqn:E3; cbn [rbind];
    [|right; exists e; split; [reflexivity | now apply (build_aps_map_raises aps [])]].
  destruct (result_list clients_data) as [clients_list|e] eqn:E4; cbn [rbind];
    [|right; exists e; split; [reflexivity | now rewrite (result_list_raises _ _ E4)]].
  destruct (py_iter clients_list) as [raw|e] eqn:E5; cbn [rbind];
    [|right; exists e; split; [reflexivity | now rewrite (py_iter_raises _ _ E5)]].
  destruct (normalize_clients m raw) as [clients|e] eqn:E6; cbn [rbind];
    [|right; exists e; split; [reflexivity | now apply (normalize_clients_raises m raw)]].
  left. now exists aps_list, clients.
Qed.

Lemma join_lists_none (aps_data clients_data : json) :
  aps_data = JNull \/ clients_data = JNull ->
  exists e, join_lists aps_data clients_data = Raise e /\ untyped_crash e = true.
Proof.
  intros H. destruct (join_lists_cases aps_data clients_data) as [(a & c & E)|R];
    [exfalso | exact R].
  unfold join_lists in E. destruct H as [-> | ->]; [discriminate|].
  destruct (result_list aps_data) as [aps_list|]; cbn [rbind] in E; [|discriminate].
  destruct (py_iter aps_list) as [aps|]; cbn [rbind] in E; [|discriminate].
  destruct (build_aps_map aps []); cbn [rbind] in E; discriminate.
Qed.

(** C6, as stated, fails: when the access-point fetch is refused with a 500
    the cycle does abort, but on the [AttributeError] of using the [None]
    that [make_request] returned; the underlying HTTP error is not
    surfaced. *)
Lemma get_data_fetch_failure_loses_status :
  http_failure (server aps_refused 2) = true
  /\ outcome_of (get_data demo aps_refused) = Raise AttributeError
  /\ ~ (exists e, outcome_of (get_data demo aps_refused) = Raise e
                  /\ carried_status e = Some 500).
Proof.
  assert (outcome_of (get_data demo aps_refused) = Raise AttributeError) as E
    by (vm_compute; reflexivity).
  split; [reflexivity|]. split; [exact E|].
  intros (e & He & Hc). rewrite E in He. injection He as <-. discriminate.
Qed.

(** C6, amended: if fetching the access-point list or the client list fails
    after a network identifier was obtained, that is, if [make_request]
    returned [None] for either, the snapshot cycle aborts by raising an
    untyped exception that carries no HTTP status (the underlying error is not
    surfaced); and no partial snapshot is ever produced: whatever [get_data]
    returns is [None] or a snapshot that holds both lists. *)
Theorem get_data_no_partial_snapshot (self : GWNClient) (w : world) :
  (forall s0 s1 s2 s3 w0 w1 w2 w3 ok networks network_id aps clients,
     authenticate self w = (Ret ok, s0, w0) ->
     get_networks s0 w0 = (Ret networks, s1, w1) ->
     truthy networks = true ->
     first_network_id networks = Ret network_id ->
     get_access_points network_id s1 w1 = (Ret aps, s2, w2) ->
     get_client_List network_id s2 w2 = (Ret clients, s3, w3) ->
     aps = JNull \/ clients = JNull ->
     exists e, get_data self w = (Raise e, s3, w3)
               /\ untyped_crash e = true /\ carried_status e = None)
  /\ (forall v, outcome_of (get_data self w) = Ret v ->
        v = JNull
        \/ exists aps_list clients, v = JObj [("aps", aps_list); ("clients", JArr clients)]).
Proof.
  split.
  - intros s0 s1 s2 s3 w0 w1 w2 w3 ok networks network_id aps clients
      Ha Hn Ht Hi Hp Hc Hnone.
    rewrite get_data_cases, Ha, Hn, Ht, Hi, Hp, Hc.
    destruct (join_lists_none aps clients Hnone) as (e & -> & Hu).
    exists e. repeat split; [exact Hu|]. now destruct e.
  - intros v. rewrite get_data_cases.
    destruct (authenticate self w) as [[[b|e] s0] w0]; [|discriminate].
    destruct (get_networks s0 w0) as [[[networks|e] s1] w1]; [|discriminate].
    destruct (truthy networks); [|cbn; intros [= <-]; now left].
    destruct (first_network_id networks) as [network_id|e]; [|discriminate].
    destruct (get_access_points network_id s1 w1) as [[[aps|e] s2] w2]; [|discriminate].
    destruct (get_client_List network_id s2 w2) as [[[clients|e] s3] w3]; [|discriminate].
    cbn [outcome_of fst].
    destruct (join_lists_cases aps clients) as [(a & c & ->) | (e & -> & _)];
      [|discriminate].
    intros [= <-]. right. now exists a, c.
Qed.

Lemma get_data_no_partial_snapshot_witness :
  (exists e, outcome_of (get_data demo aps_refused) = Raise e
             /\ untyped_crash e = true /\ carried_status e = None)
  /\ (outcome_of (get_data demo lobby) = Ret JNull
      \/ exists aps_list clients,
           outcome_of (get_data demo lobby)
           = Ret (JObj [("aps", aps_list); ("clients", JArr clients)])).
Proof.
  split.
  - destruct (proj1 (get_data_no_partial_snapshot demo aps_refused)
                (client_of (authenticate demo aps_refused))
                (client_of (get_data demo aps_refused))
                (client_of (get_data demo aps_refused))
                (client_of (get_data demo aps_refused))
                (world_of (authenticate demo aps_refused))
                (world_of (get_networks (client_of (authenticate demo aps_refused))
                             (world_of (authenticate demo aps_refused))))
                (world_of (get_access_points (JNum 7)
                             (client_of (get_data demo aps_refused))
                             (world_of (get_networks (client_of (authenticate demo aps_refused))
                                          (world_of (authenticate demo aps_refused))))))
                (world_of (get_data demo aps_refused))
                true
                (JObj [("data", JObj [("result", JArr [JObj [("id", JNum 7)]])])])
                (JNum 7)
                JNull
                (JObj [("data", JObj [("result",
                   JArr [JObj [("clientId", JStr "C1"); ("apId", JStr "A1");
                               ("name", JStr "Phone")]])])]))
      as (e & He & Hu & Hs).
    + vm_compute. reflexivity.
    + vm_compute. reflexivity.
    + reflexivity.
    + reflexivity.
    + vm_compute. reflexivity.
    + vm_compute. reflexivity.
    + left. reflexivity.
    + exists e. rewrite He. repeat split; assumption.
  - destruct (proj2 (get_data_no_partial_snapshot demo lobby)
                (JObj [("aps", JArr [JObj [("mac", JStr "A1"); ("name", JStr "Lobby")]]);
                       ("clients",
                        JArr [JObj [("mac", JStr "C1"); ("name", JStr "Phone");
                                    ("ipv4", JStr EmptyString); ("ipv6", JStr EmptyString);
                                    ("ap_mac", JStr "A1"); ("ap_name", JStr "Lobby");
                                    ("rssi", JNull); ("ssid", JStr EmptyString);
                                    ("online", JNum 0); ("tx_bytes", JNum 0);
                                    ("rx_bytes", JNum 0); ("tx_rate", JNum 0);
                                    ("rx_rate", JNum 0)]])]))
      as [E | (a & c & E)].
    + vm_compute. reflexivity.
    + discriminate.
    + right. exists a, c. rewrite <- E. vm_compute. reflexivity.
Defined.

(** ** C9: the token and its expiry *)

(** C9, as stated, fails: a token response whose [expires_in] is a string
    makes [authenticate] raise after it has stored the new token and before
    it has stored an expiry, so the pair is left half updated. *)
Lemma authenticate_partial_update :
  outcome_of (authenticate signed_in quoted_lifetime) = Raise TypeError
  /\ access_token signed_in = JStr "TOK"
  /\ access_token (client_of (authenticate signed_in quoted_lifetime)) = JStr "NEW"
  /\ token_expiry (client_of (authenticate signed_in quoted_lifetime))
     = token_expiry signed_in.
Proof. repeat split. Qed.

(** An [expires_in] that is a number, but one too large for a float, has the
    same effect: the addition raises [OverflowError] after the new token was
    stored. *)
Example authenticate_overflow :
  outcome_of (authenticate signed_in huge_lifetime) = Raise OverflowError
  /\ access_token (client_of (authenticate signed_in huge_lifetime)) = JStr "NEW"
  /\ token_expiry (client_of (authenticate signed_in huge_lifetime))
     = token_expiry signed_in.
Proof. repeat split; vm_compute; reflexivity. Qed.

(** C9, amended: unless the server answers with a successful token response
    whose [expires_in] is not a number that a float can hold, every call to
    [authenticate] either succeeds and updates [access_token] and
    [token_expiry] together, with [token_expiry] equal to the float sum of
    the time read after the response and of the server-supplied [expires_in]
    converted to a float (3600 seconds when the field is absent), or does not
    succeed and leaves both fields exactly as they were. *)
Theorem authenticate_updates_pair (self : GWNClient) (w : world) :
  well_typed_lifetime (next_outcome w) = true ->
  let run := authenticate self w in
  (outcome_of run = Ret true
   /\ exists r d x,
        next_outcome w = Reply r /\ parsed r = Some (JObj d) /\ lifetime d = Some x
        /\ (dict_get "expires_in" d = None -> x = 3600%Q)
        /\ (forall n, dict_get "expires_in" d = Some (JNum n) -> x = round64 (inject_Z n))
        /\ client_of run
           = with_token self (get_default d "access_token" JNull)
               (float_add (clock w (reads w)) x))
  \/ (outcome_of run <> Ret true /\ client_of run = self).
Proof.
  intros H. cbv zeta. rewrite authenticate_cases. cbv zeta.
  unfold well_typed_lifetime in H.
  destruct (next_outcome w) as [msg|r|msg];
    [right; split; [discriminate|reflexivity]| |right; split; [discriminate|reflexivity]].
  destruct (is_success r); [|right; split; [discriminate|reflexivity]].
  destruct (parsed r) as [v|] eqn:P; [|right; split; [discriminate|reflexivity]].
  destruct v; try (right; split; [discriminate|reflexivity]).
  unfold lifetime in H. unfold add_seconds.
  destruct (seconds (get_default fields "expires_in" (JNum 3600))) as [x|e] eqn:E;
    [|discriminate].
  cbn [rbind]. left. split; [reflexivity|]. exists r, fields, x.
  split; [reflexivity|]. split; [exact P|]. split; [unfold lifetime; now rewrite E|].
  split; [|split; [|reflexivity]].
  - intros N. unfold get_default in E. rewrite N in E. vm_compute in E. now injection E as <-.
  - intros n N. unfold get_default in E. rewrite N in E. cbn [seconds] in E.
    unfold float_of_int in E. destruct (finite64 _); [now injection E | discriminate].
Qed.

Lemma authenticate_updates_pair_witness :
  (outcome_of (authenticate demo no_network) = Ret true
   /\ exists r d x,
        next_outcome no_network = Reply r /\ parsed r = Some (JObj d) /\ lifetime d = Some x
        /\ (dict_get "expires_in" d = None -> x = 3600%Q)
        /\ (forall n, dict_get "expires_in" d = Some (JNum n) -> x = round64 (inject_Z n))
        /\ client_of (authenticate demo no_network)
           = with_token demo (get_default d "access_token" JNull)
               (float_add (clock no_network (reads no_network)) x))
  \/ (outcome_of (authenticate demo no_network) <> Ret true
      /\ client_of (authenticate demo no_network) = demo).
Proof.
  apply (authenticate_updates_pair demo no_network). reflexivity.
Defined.

Example authenticate_success :
  authenticate demo no_network
  = (Ret true, with_token demo (JStr "TOK") 4600%Q,
     tick (record (auth_request demo) no_network)).
Proof. vm_compute. reflexivity. Qed.

Example authenticate_refused :
  authenticate signed_in unauthorized
  = (Ret false, signed_in, record (auth_request signed_in) unauthorized).
Proof. reflexivity. Qed.

(** ** The join of the clients with the access points *)

(** A record comes out of [normalize_client] only for a dict with a hashable
    [apId], and has the thirteen fields of [normalized]. *)
Lemma normalize_client_inv (m : pymap) (client rec : json) :
  normalize_client m client = Ret rec ->
  exists c a,
    client = JObj c
    /\ hashable (get_default c "apId" (JStr EmptyString)) = true
    /\ match map_lookup (get_default c "apId" (JStr EmptyString)) m with
       | Some v => v
       | None => JObj []
       end = JObj a
    /\ rec = JObj (normalized c a).
Proof.
  unfold normalize_client, py_get. destruct client as [| | | | |c]; try discriminate.
  cbn [rbind]. unfold map_get.
  destruct (hashable (get_default c "apId" (JStr EmptyString))) eqn:Hh; [|discriminate].
  cbn [rbind].
  destruct (match map_lookup _ m with Some v => v | None => JObj [] end) as [| | | | |a] eqn:Hl;
    try discriminate.
  cbn [rbind]. intros [= <-]. exists c, a. now repeat split.
Qed.

Lemma normalize_clients_inv (m : pymap) (raw clients : list json) :
  normalize_clients m raw = Ret clients ->
  Forall2 (fun client rec => normalize_client m client = Ret rec) raw clients.
Proof.
  revert clients. induction raw as [|client raw IH]; intros clients; cbn [normalize_clients].
  - intros [= <-]. constructor.
  - destruct (normalize_client m client) as [rec|] eqn:E; [|discriminate]. cbn [rbind].
    destruct (normalize_clients m raw) as [rest|]; [|discriminate]. cbn [rbind].
    intros [= <-]. constructor; [exact E | now apply IH].
Qed.

(** A snapshot holds the access-point list as fetched, and one record per
    fetched client, normalized against the map built from that same list. *)
Lemma join_lists_inv (aps_data clients_data snapshot : json) :
  join_lists aps_data clients_data = Ret snapshot ->
  exists aps_list aps m raw clients,
    snapshot = JObj [("aps", aps_list); ("clients", JArr clients)]
    /\ py_iter aps_list = Ret aps
    /\ build_aps_map aps [] = Ret m
    /\ fetched_list clients_data = Ret raw
    /\ Forall2 (fun client rec => normalize_client m client = Ret rec) raw clients.
Proof.
  unfold join_lists, fetched_list.
  destruct (result_list aps_data) as [aps_list|]; [|discriminate]. cbn [rbind].
  destruct (py_iter aps_list) as [aps|] eqn:Ei; [|discriminate]. cbn [rbind].
  destruct (build_aps_map aps []) as [m|] eqn:Eb; [|discriminate]. cbn [rbind].
  destruct (result_list clients_data) as [clients_list|]; [|discriminate]. cbn [rbind].
  destruct (py_iter clients_list) as [raw|] eqn:Er; [|discriminate]. cbn [rbind].
  destruct (normalize_clients m raw) as [clients|] eqn:En; [|discriminate]. cbn [rbind].
  intros [= <-]. exists aps_list, aps, m, raw, clients.
  repeat split; auto. now apply normalize_clients_inv.
Qed.

(** What [get_data] returns is [None] or the join of two fetched lists. *)
Lemma get_data_inv (self : GWNClient) (w : world) (v : json) :
  outcome_of (get_data self w) = Ret v ->
  v = JNull \/ exists aps_data clients_data, join_lists aps_data clients_data = Ret v.
Proof.
  rewrite get_data_cases.
  destruct (authenticate self w) as [[[b|e] s0] w0]; [|discriminate].
  destruct (get_networks s0 w0) as [[[networks|e] s1] w1]; [|discriminate].
  destruct (truthy networks); [|cbn; intros [= <-]; now left].
  destruct (first_network_id networks) as [network_id|e]; [|discriminate].
  destruct (get_access_points network_id s1 w1) as [[[aps|e] s2] w2]; [|discriminate].
  destruct (get_client_List network_id s2 w2) as [[[clients|e] s3] w3]; [|discriminate].
  cbn [outcome_of fst]. intros E. right. now exists aps, clients.
Qed.

(** ** C8: the shape of a normalized client *)

(** C8, as stated, fails: the record of a client has thirteen fields, none of
    them the channel class, the vlan id or the last-active timestamp, even
    when the vendor sent them, and a missing signal strength is [None], not
    0. *)
Lemma normalized_client_lacks_fields :
  snapshot_clients (snapshot_of (get_data demo detailed))
  = [ JObj [ ("mac", JStr "C1"); ("name", JStr "Phone"); ("ipv4", JStr EmptyString);
             ("ipv6", JStr EmptyString); ("ap_mac", JStr "A1"); ("ap_name", JStr "Lobby");
             ("rssi", JNull); ("ssid", JStr EmptyString); ("online", JNum 0);
             ("tx_bytes", JNum 0); ("rx_bytes", JNum 0); ("tx_rate", JNum 0);
             ("rx_rate", JNum 0) ] ]
  /\ map missing_fields (snapshot_clients (snapshot_of (get_data demo detailed)))
     = [ ["channelClassStr"; "vid"; "lastactive"] ]
  /\ map (fun rec => py_get rec "rssi" (JNum 0))
         (snapshot_clients (snapshot_of (get_data demo detailed)))
     = [ Ret JNull ].
Proof. repeat split; vm_compute; reflexivity. Qed.

(** C8, amended: every normalized client record in a snapshot has the fields
    mac (the vendor's clientId), name, ipv4, ipv6, ap_mac (the vendor's apId),
    ap_name, rssi, ssid, online, tx_bytes, rx_bytes, tx_rate and rx_rate; all
    but ap_name are copied from the vendor's record of that client, where a
    missing online flag, byte counter or rate defaults to 0, a missing name to
    "Unknown", a missing clientId, ipv4, ipv6, apId or ssid to the empty
    string, and a missing rssi to [None]. *)
Theorem snapshot_client_fields (aps_data clients_data snapshot : json) :
  join_lists aps_data clients_data = Ret snapshot ->
  exists raw,
    fetched_list clients_data = Ret raw
    /\ Forall2
         (fun client rec =>
            exists c r,
              client = JObj c /\ rec = JObj r
              /\ Forall (fun f => dict_get (fst (fst f)) r
                                  = Some (get_default c (snd (fst f)) (snd f)))
                   copied_fields
              /\ has_field "ap_name" rec = true)
         raw (snapshot_clients snapshot).
Proof.
  intros Hj.
  destruct (join_lists_inv _ _ _ Hj) as (aps_list & aps & m & raw & clients & -> & _ & _ & Hr & F).
  exists raw. split; [exact Hr|]. cbn [snapshot_clients dict_get String.eqb Ascii.eqb Bool.eqb].
  refine (Forall2_impl _ _ F). intros client rec Hn.
  destruct (normalize_client_inv m client rec Hn) as (c & a & -> & _ & _ & ->).
  exists c, (normalized c a). do 2 (split; [reflexivity|]). split; [|reflexivity].
  unfold copied_fields. repeat constructor.
Qed.

Lemma snapshot_client_fields_witness :
  exists raw,
    fetched_list
      (JObj [("data", JObj [("result", JArr [JObj [("clientId", JStr "C1")]])])])
    = Ret raw
    /\ Forall2
         (fun client rec =>
            exists c r,
              client = JObj c /\ rec = JObj r
              /\ Forall (fun f => dict_get (fst (fst f)) r
                                  = Some (get_default c (snd (fst f)) (snd f)))
                   copied_fields
              /\ has_field "ap_name" rec = true)
         raw
         (snapshot_clients
            (value_of
               (join_lists
                  (JObj [("data", JObj [("result", JArr [])])])
                  (JObj [("data", JObj [("result", JArr [JObj [("clientId", JStr "C1")]])])])))).
Proof.
  apply (snapshot_client_fields (JObj [("data", JObj [("result", JArr [])])])).
  vm_compute. reflexivity.
Defined.

(** ** C7: the access-point name of a client *)

Lemma key_eqb_sym (a b : json) : key_eqb a b = key_eqb b a.
Proof.
  destruct a as [|x|n|s| |], b as [|y|m|t| |]; cbn; try reflexivity.
  - now destruct x, y.
  - apply Z.eqb_sym.
  - apply Z.eqb_sym.
  - apply Z.eqb_sym.
  - apply String.eqb_sym.
Qed.

Lemma key_eqb_trans (a b c : json) :
  key_eqb a b = true -> key_eqb b c = key_eqb a c.
Proof.
  destruct a as [|x|n|s| |], b as [|y|m|t| |]; cbn; try discriminate; intros H.
  - reflexivity.
  - apply Bool.eqb_prop in H. now subst.
  - apply Z.eqb_eq in H. subst m. destruct c as [|z|k| | |]; cbn; try reflexivity.
    destruct x, z; reflexivity.
  - apply Z.eqb_eq in H. subst n. destruct c as [|z|k| | |]; cbn; try reflexivity.
    destruct y, z; reflexivity.
  - apply Z.eqb_eq in H. now subst.
  - apply String.eqb_eq in H. now subst.
Qed.

Lemma map_lookup_store (k k' v : json) (m : pymap) :
  map_lookup k (map_store k' v m) = if key_eqb k' k then Some v else map_lookup k m.
Proof.
  induction m as [|[k0 v0] m IH]; cbn [map_store map_lookup]; [reflexivity|].
  destruct (key_eqb k0 k') eqn:E0; cbn [map_lookup].
  - rewrite <- (key_eqb_trans k0 k' k E0). now destruct (key_eqb k' k).
  - rewrite IH. destruct (key_eqb k0 k) eqn:E1; [|reflexivity].
    destruct (key_eqb k' k) eqn:E2; [|reflexivity].
    rewrite key_eqb_sym in E2. rewrite (key_eqb_trans k0 k k' E1) in E2.
    rewrite E0 in E2. discriminate.
Qed.

Lemma find_app {A} (f : A -> bool) (l1 l2 : list A) :
  find f (l1 ++ l2)%list = match find f l1 with Some x => Some x | None => find f l2 end.
Proof.
  induction l1 as [|x l1 IH]; cbn [find app]; [reflexivity|]. now destruct (f x).
Qed.

(** The map the loop builds files every access point under its mac, a later
    one replacing an earlier one of the same mac. *)
Lemma build_aps_map_lookup (aps : list json) (m0 m : pymap) (k : json) :
  build_aps_map aps m0 = Ret m ->
  map_lookup k m = match ap_with_mac aps k with
                   | Some ap => Some ap
                   | None => map_lookup k m0
                   end.
Proof.
  unfold ap_with_mac. revert m0.
  induction aps as [|ap aps IH]; intros m0; cbn [build_aps_map rev].
  - now intros [= <-].
  - unfold py_get. destruct ap as [| | | | |a]; try discriminate. cbn [rbind].
    unfold map_set. destruct (hashable _); [|discriminate]. cbn [rbind].
    intros Hb. rewrite (IH _ Hb), find_app. cbn [find mac_of].
    destruct (find _ (rev aps)); [reflexivity|]. rewrite map_lookup_store.
    now destruct (key_eqb _ k).
Qed.

Lemma build_aps_map_dicts (aps : list json) (m0 m : pymap) :
  build_aps_map aps m0 = Ret m -> Forall (fun ap => exists a, ap = JObj a) aps.
Proof.
  revert m0. induction aps as [|ap aps IH]; intros m0; cbn [build_aps_map]; [constructor|].
  unfold py_get. destruct ap as [| | | | |a]; try discriminate. cbn [rbind].
  unfold map_set. destruct (hashable _); [|discriminate]. cbn [rbind].
  intros Hb. constructor; [now exists a | exact (IH _ Hb)].
Qed.

(** What a lookup in the built map yields, [{}] included, is a dict, and the
    name taken from it is the resolved name of the specification. *)
Lemma lookup_resolves (aps : list json) (m : pymap) (c : pydict) :
  build_aps_map aps [] = Ret m ->
  exists a,
    match map_lookup (get_default c "apId" (JStr EmptyString)) m with
    | Some v => v
    | None => JObj []
    end = JObj a
    /\ get_default a "name" (get_default c "apName" (JStr "Unknown")) = resolved_name aps c.
Proof.
  intros Hb. rewrite (build_aps_map_lookup aps [] m _ Hb). unfold resolved_name.
  destruct (ap_with_mac aps _) as [ap|] eqn:Ef; cbn [map_lookup].
  - apply find_some in Ef. destruct Ef as [Hin _]. apply in_rev in Hin.
    pose proof (build_aps_map_dicts aps [] m Hb) as Fd. rewrite Forall_forall in Fd.
    destruct (Fd ap Hin) as (a & ->). now exists a.
  - now exists [].
Qed.

Lemma normalize_client_total (m : pymap) (c a : pydict) :
  hashable (get_default c "apId" (JStr EmptyString)) = true ->
  match map_lookup (get_default c "apId" (JStr EmptyString)) m with
  | Some v => v
  | None => JObj []
  end = JObj a ->
  normalize_client m (JObj c) = Ret (JObj (normalized c a)).
Proof.
  intros Hh Hl. unfold normalize_client, py_get. cbn [rbind]. unfold map_get.
  rewrite Hh. cbn [rbind]. rewrite Hl. reflexivity.
Qed.

Lemma snapshot_aps_eq (aps_list : json) (aps clients : list json) :
  py_iter aps_list = Ret aps ->
  snapshot_aps (JObj [("aps", aps_list); ("clients", JArr clients)]) = aps.
Proof. intros H. cbn. now rewrite H. Qed.

(** The loop that fills the map goes through when every access point is a
    dict with a hashable [mac]. *)
Lemma build_aps_map_total (aps : list json) (m0 : pymap) :
  Forall (fun ap => is_dict ap = true /\ hashable (mac_of ap) = true) aps ->
  exists m, build_aps_map aps m0 = Ret m.
Proof.
  intros F. revert m0.
  induction F as [|ap aps [Hd Hh] _ IH]; intros m0; cbn [build_aps_map]; [now exists m0|].
  destruct ap as [| | | | |a]; try discriminate. cbn [py_get rbind].
  unfold map_set. cbn [mac_of] in Hh. rewrite Hh. cbn [rbind]. apply IH.
Qed.

(** The loop over the clients goes through when every client is a dict with
    a hashable [apId]. *)
Lemma normalize_clients_total (aps : list json) (m : pymap) (raw : list json) :
  build_aps_map aps [] = Ret m ->
  Forall (fun client => exists c, client = JObj c
            /\ hashable (get_default c "apId" (JStr EmptyString)) = true) raw ->
  exists clients, normalize_clients m raw = Ret clients.
Proof.
  intros Hb F.
  induction F as [|client raw (c & -> & Hh) _ (clients & IH)]; cbn [normalize_clients];
    [now exists []|].
  destruct (lookup_resolves aps m c Hb) as (a & Hl & _).
  rewrite (normalize_client_total m c a Hh Hl). cbn [rbind]. rewrite IH. cbn [rbind].
  now eexists.
Qed.

(** The access-point list of a snapshot is the fetched one, as fetched. *)
Lemma join_lists_aps (aps_data clients_data aps_list clients : json) :
  join_lists aps_data clients_data = Ret (JObj [("aps", aps_list); ("clients", clients)]) ->
  result_list aps_data = Ret aps_list.
Proof.
  unfold join_lists.
  destruct (result_list aps_data) as [al|]; [|discriminate]. cbn [rbind].
  destruct (py_iter al) as [aps|]; [|discriminate]. cbn [rbind].
  destruct (build_aps_map aps []) as [m|]; [|discriminate]. cbn [rbind].
  destruct (result_list clients_data) as [clients_list|]; [|discriminate]. cbn [rbind].
  destruct (py_iter clients_list) as [raw|]; [|discriminate]. cbn [rbind].
  destruct (normalize_clients m raw) as [cl|]; [|discriminate]. cbn [rbind].
  now intros [= <- _].
Qed.

(** C7, as stated, fails: the resolution throws on a client whose [apId] is
    a list, which cannot be looked up in a dict; the [TypeError] of the lookup
    aborts the join, and with it the poll cycle. *)
Lemma snapshot_ap_name_throws :
  join_lists lobby_aps
    (JObj [("data", JObj [("result",
       JArr [ JObj [("clientId", JStr "C1"); ("apId", JArr [JStr "A1"])] ])])])
  = Raise TypeError
  /\ outcome_of (get_data demo listed_ap_id) = Raise TypeError.
Proof. split; vm_compute; reflexivity. Qed.

(** C7, amended: a snapshot holds the access-point list as fetched and one
    record for each fetched client, in their order; the record has, as
    [ap_name], the name of the access point of that list whose mac equals the
    client's [apId] when there is one (the last one of that mac, provided it
    has a name); when the lookup misses, [ap_name] is the client's own
    [apName] if present, else "Unknown".  The resolution does not throw when
    every fetched access point is a dict with a hashable [mac] and every
    fetched client is a dict with a hashable [apId]: the join then returns a
    snapshot. *)
Theorem snapshot_ap_name (aps_data clients_data : json) :
  (forall snapshot,
     join_lists aps_data clients_data = Ret snapshot ->
     exists aps_list aps raw clients,
       result_list aps_data = Ret aps_list
       /\ py_iter aps_list = Ret aps
       /\ fetched_list clients_data = Ret raw
       /\ snapshot = JObj [("aps", aps_list); ("clients", JArr clients)]
       /\ snapshot_aps snapshot = aps
       /\ Forall2
            (fun client rec =>
               exists c r,
                 client = JObj c /\ rec = JObj r
                 /\ dict_get "ap_name" r = Some (resolved_name aps c))
            raw clients)
  /\ (forall aps raw,
        fetched_list aps_data = Ret aps ->
        fetched_list clients_data = Ret raw ->
        Forall (fun ap => is_dict ap = true /\ hashable (mac_of ap) = true) aps ->
        Forall (fun client =>
                  exists c, client = JObj c
                            /\ hashable (get_default c "apId" (JStr EmptyString)) = true)
               raw ->
        exists snapshot, join_lists aps_data clients_data = Ret snapshot).
Proof.
  split.
  - intros snapshot Hj.
    destruct (join_lists_inv _ _ _ Hj)
      as (aps_list & aps & m & raw & clients & -> & Hi & Hb & Hr & F).
    pose proof (join_lists_aps _ _ _ _ Hj) as Ha.
    rewrite (snapshot_aps_eq _ _ _ Hi) in *.
    exists aps_list, aps, raw, clients. split; [exact Ha|]. split; [exact Hi|].
    split; [exact Hr|]. split; [reflexivity|]. split; [reflexivity|].
    refine (Forall2_impl _ _ F). intros client rec Hn.
    destruct (normalize_client_inv m client rec Hn) as (c & a & -> & _ & Hl & ->).
    exists c, (normalized c a). do 2 (split; [reflexivity|]).
    destruct (lookup_resolves aps m c Hb) as (a' & Hl' & <-).
    rewrite Hl in Hl'. now injection Hl' as ->.
  - intros aps raw Ha Hr Fa Fc. unfold fetched_list in Ha, Hr. unfold join_lists.
    destruct (result_list aps_data) as [aps_list|]; [|discriminate]. cbn [rbind] in Ha |- *.
    rewrite Ha. cbn [rbind].
    destruct (build_aps_map_total aps [] Fa) as (m & Hb). rewrite Hb. cbn [rbind].
    destruct (result_list clients_data) as [clients_list|]; [|discriminate].
    cbn [rbind] in Hr |- *. rewrite Hr. cbn [rbind].
    destruct (normalize_clients_total aps m raw Hb Fc) as (clients & ->). cbn [rbind].
    now eexists.
Qed.

Lemma snapshot_ap_name_witness :
  (exists aps_list aps raw clients,
     result_list lobby_aps = Ret aps_list
     /\ py_iter aps_list = Ret aps
     /\ fetched_list lobby_clients = Ret raw
     /\ value_of (join_lists lobby_aps lobby_clients)
        = JObj [("aps", aps_list); ("clients", JArr clients)]
     /\ snapshot_aps (value_of (join_lists lobby_aps lobby_clients)) = aps
     /\ Forall2
          (fun client rec =>
             exists c r,
               client = JObj c /\ rec = JObj r
               /\ dict_get "ap_name" r = Some (resolved_name aps c))
          raw clients)
  /\ (exists snapshot, join_lists lobby_aps lobby_clients = Ret snapshot).
Proof.
  split.
  - apply (proj1 (snapshot_ap_name lobby_aps lobby_clients)). vm_compute. reflexivity.
  - apply (proj2 (snapshot_ap_name lobby_aps lobby_clients)
             [ JObj [("mac", JStr "A1"); ("name", JStr "Lobby")] ]
             [ JObj [("clientId", JStr "C1"); ("apId", JStr "A1"); ("name", JStr "Phone")];
               JObj [("clientId", JStr "C2"); ("apId", JStr "B7"); ("apName", JStr "Legacy")];
               JObj [("clientId", JStr "C3"); ("apId", JStr "B7")] ]).
    + reflexivity.
    + reflexivity.
    + repeat constructor.
    + repeat (constructor; [eexists; split; reflexivity|]). constructor.
Defined.

(** The join example of the specification, and its two fallbacks. *)
Example lobby_ap_names :
  map (fun rec => py_get rec "ap_name" JNull)
      (snapshot_clients (value_of (join_lists lobby_aps lobby_clients)))
  = [ Ret (JStr "Lobby"); Ret (JStr "Legacy"); Ret (JStr "Unknown") ].
Proof. vm_compute. reflexivity. Qed.

Example lobby_poll_cycle :
  map (fun rec => py_get rec "ap_name" JNull)
      (snapshot_clients (snapshot_of (get_data demo lobby)))
  = [ Ret (JStr "Lobby") ].
Proof. vm_compute. reflexivity. Qed.

(** * Further properties of the client *)

(** ** [authenticate] *)

(** X1: [authenticate] returns [False] exactly when the credential exchange
    fails at the HTTP level, on a transport error or a non-2xx response, and
    then it leaves the client as it was. *)
Theorem authenticate_false_iff (self : GWNClient) (w : world) :
  (outcome_of (authenticate self w) = Ret false <-> http_failure (next_outcome w) = true)
  /\ (outcome_of (authenticate self w) = Ret false -> client_of (authenticate self w) = self).
Proof.
  rewrite authenticate_cases. cbv zeta. unfold http_failure.
  destruct (next_outcome w) as [msg|r|msg];
    [now cbn| |cbn; split; [split|]; discriminate].
  destruct (is_success r); [|now cbn].
  destruct (parsed r) as [v|]; [|cbn; split; [split|]; discriminate].
  destruct v; try (cbn; split; [split|]; discriminate).
  destruct (add_seconds _ _); cbn; split; try split; discriminate.
Qed.

(** X2: whatever httpx does with it, a call to [authenticate] hands httpx
    exactly one call, the POST of [client_id], [client_secret] and
    [grant_type=client_credentials] to [base_url + "/oauth/token"] with a
    timeout of 10 seconds, and never changes [app_id], [secret_key] or
    [base_url].  Of the errors of httpx, [HTTPStatusError] and [RequestError]
    never escape it, and [InvalidURL] always does: it is raised to the caller
    exactly when httpx refuses the URL. *)
Theorem authenticate_one_exchange (self : GWNClient) (w : world) :
  let run := authenticate self w in
  issued w (world_of run)
  = [ AuthPost (base_url self ++ "/oauth/token")
        [ ("client_id", JStr (app_id self)); ("client_secret", JStr (secret_key self));
          ("grant_type", JStr "client_credentials") ] 10 ]
  /\ app_id (client_of run) = app_id self
  /\ secret_key (client_of run) = secret_key self
  /\ base_url (client_of run) = base_url self
  /\ (forall e, outcome_of run = Raise e ->
        carried_status e = None /\ forall msg, e <> RequestError msg)
  /\ (forall msg, outcome_of run = Raise (InvalidURL msg) <-> next_outcome w = Unparsable msg).
Proof.
  cbv zeta. destruct (authenticate_frame self w) as (S & _ & _ & A & K & B).
  split; [now apply issued_app|]. do 3 (split; [assumption|]). split.
  - intros e He.
    destruct (authenticate_raises self w e He) as [-> | [-> | [-> | [-> | (msg & -> & _)]]]];
      split; try reflexivity; discriminate.
  - intros msg. split.
    + intros He.
      destruct (authenticate_raises self w _ He) as [E | [E | [E | [E | (m & [= ->] & ->)]]]];
        try discriminate; reflexivity.
    + intros Ho. rewrite authenticate_cases, Ho. reflexivity.
Qed.

(** X3: a successful token response that carries no [access_token], and
    whose [expires_in] is absent or a number that a float can hold, is
    accepted: [authenticate] returns [True] and stores [None] as the token, so
    that the very next token check finds the token missing, without even
    reading the clock. *)
Theorem authenticate_accepts_missing_token (self : GWNClient) (w : world) (r : response)
    (d : pydict) (x : Q) :
  next_outcome w = Reply r -> is_success r = true -> parsed r = Some (JObj d) ->
  dict_get "access_token" d = None -> lifetime d = Some x ->
  let run := authenticate self w in
  outcome_of run = Ret true
  /\ access_token (client_of run) = JNull
  /\ token_missing_or_expired (client_of run) (world_of run)
     = (Ret true, client_of run, world_of run).
Proof.
  intros Ho Hs Hp Ht Hl. cbv zeta. rewrite authenticate_cases. cbv zeta.
  assert (get_default d "access_token" JNull = JNull) as Hn
    by (unfold get_default; now rewrite Ht).
  rewrite Ho, Hs, Hp, Hn. unfold lifetime in Hl. unfold add_seconds.
  destruct (seconds (get_default d "expires_in" (JNum 3600))); [|discriminate].
  now cbn.
Qed.

Lemma authenticate_accepts_missing_token_witness :
  outcome_of (authenticate demo (within_a_minute 1000 [ok (JObj [("expires_in", JNum 60)])]))
  = Ret true
  /\ access_token
       (client_of (authenticate demo (within_a_minute 1000 [ok (JObj [("expires_in", JNum 60)])])))
     = JNull
  /\ token_missing_or_expired
       (client_of (authenticate demo (within_a_minute 1000 [ok (JObj [("expires_in", JNum 60)])])))
       (world_of (authenticate demo (within_a_minute 1000 [ok (JObj [("expires_in", JNum 60)])])))
     = (Ret true,
        client_of (authenticate demo (within_a_minute 1000 [ok (JObj [("expires_in", JNum 60)])])),
        world_of (authenticate demo (within_a_minute 1000 [ok (JObj [("expires_in", JNum 60)])]))).
Proof.
  apply (authenticate_accepts_missing_token demo
           (within_a_minute 1000 [ok (JObj [("expires_in", JNum 60)])])
           (Response 200 "OK" (Some (JObj [("expires_in", JNum 60)])))
           [("expires_in", JNum 60)] 60%Q); reflexivity.
Defined.

(** ** [calculate_signature] *)

Lemma length_append (a b : string) :
  String.length (a ++ b) = (String.length a + String.length b)%nat.
Proof. induction a as [|c a IH]; cbn; [reflexivity | now rewrite IH]. Qed.

(** X4: the signature does not depend on [base_url] or [token_expiry], and
    the values are signed as they are, without escaping: an [&secretKey=]
    inside the app id cannot be told from the separator, so that two clients
    with different credentials sign every request alike. *)
Theorem calculate_signature_unescaped (x y z : string) (token : json) (url url' : string)
    (expiry expiry' : Q) (timestamp : Z) (body : json) :
  calculate_signature (Client (x ++ "&secretKey=" ++ y) z url token expiry) timestamp body
  = calculate_signature (Client x (y ++ "&secretKey=" ++ z) url' token expiry') timestamp body
  /\ x ++ "&secretKey=" ++ y <> x.
Proof.
  split.
  - unfold calculate_signature. rewrite !param_str_eq.
    unfold spec_signing_string, spec_parameters.
    cbn [map fst snd String.concat app_id secret_key access_token].
    do 2 f_equal. cbn [append]. rewrite !append_assoc. cbn [append].
    rewrite !append_assoc. reflexivity.
  - intros E. apply (f_equal String.length) in E.
    rewrite !length_append in E. cbn in E. lia.
Qed.

(** ** [make_request] *)

Lemma refresh_raises (self : GWNClient) (w : world) (e : pyexn) :
  outcome_of (refresh self w) = Raise e -> escapes e = true.
Proof.
  rewrite refresh_cases. pose proof (authenticate_raises self w) as R.
  destruct (authenticate self w) as [[[[|]|e'] s] w']; cbn in *; try discriminate.
  - now intros [= <-].
  - intros [= <-].
    destruct (R e' eq_refl) as [-> | [-> | [-> | [-> | (msg & -> & _)]]]]; reflexivity.
Qed.

Lemma ensure_token_raises (self : GWNClient) (w : world) (e : pyexn) :
  outcome_of (ensure_token self w) = Raise e -> escapes e = true.
Proof.
  rewrite ensure_token_cases. destruct (truthy (access_token self)).
  - destruct (Qle_bool _ _); [apply refresh_raises | discriminate].
  - apply refresh_raises.
Qed.

(** The whole of a signed call: the token checks keep the credentials, the
    clock and the server; the exchanges are appended to those sent before. *)
Lemma make_request_sent (method endpoint : string) (json_data : json)
    (params : option pydict) (self : GWNClient) (w : world) :
  let run := make_request method endpoint json_data params self w in
  let timestamp := millis (clock w (reads w)) in
  exists auths,
    Forall (fun rq => rq = auth_request self) auths
    /\ (List.length auths <= 2)%nat
    /\ clock (world_of run) = clock w /\ server (world_of run) = server w
    /\ app_id (client_of run) = app_id self
    /\ secret_key (client_of run) = secret_key self
    /\ base_url (client_of run) = base_url self
    /\ ((sent (world_of run) = (sent w ++ auths)%list
         /\ exists e, outcome_of run = Raise e /\ escapes e = true)
        \/ exists s1,
             fst (ensure_token self (tick w)) = (Ret tt, s1)
             /\ app_id s1 = app_id self /\ secret_key s1 = secret_key self
             /\ sent (world_of run)
                = (sent w ++ auths
                     ++ [api_request method (base_url self ++ endpoint)
                           (query_params s1 timestamp
                              (calculate_signature s1 timestamp json_data) params)
                           json_data])%list
             /\ outcome_of run
                = api_result (server w (List.length (sent w ++ auths)%list))).
Proof.
  cbv zeta. rewrite make_request_cases. cbv zeta.
  pose proof (ensure_token_frame self (tick w)) as F1. cbv zeta in F1.
  pose proof (ensure_token_raises self (tick w)) as R1.
  destruct (ensure_token self (tick w)) as [[[[]|e] s1] w1];
    cbn [world_of client_of outcome_of fst snd] in F1, R1;
    destruct F1 as (S1 & C1 & V1 & A1 & K1 & B1 & _); cbn [sent tick clock server] in S1, C1, V1.
  - pose proof (ensure_token_frame s1 w1) as F2. cbv zeta in F2.
    pose proof (ensure_token_raises s1 w1) as R2.
    destruct (ensure_token s1 w1) as [[[[]|e] s2] w2];
      cbn [world_of client_of outcome_of fst snd] in F2, R2 |- *;
      destruct F2 as (S2 & C2 & V2 & A2 & K2 & B2 & _);
      rewrite (auth_request_stable s1 self A1 K1 B1) in S2;
      destruct (two_checks_sent self w w1 w2 S1 S2) as (auths & Fa & La & Sa);
      exists auths; (split; [exact Fa|]); (split; [exact La|]);
      cbn [clock server record];
      (split; [congruence|]); (split; [congruence|]); (split; [congruence|]);
      (split; [congruence|]); (split; [congruence|]).
    + right. exists s1. split; [reflexivity|]. split; [exact A1|]. split; [exact K1|]. split.
      * cbn [sent record]. rewrite Sa. now rewrite <- app_assoc.
      * unfold next_outcome. rewrite V2, V1. now rewrite Sa.
    + left. split; [exact Sa|]. exists e. split; [reflexivity | now apply R2].
  - cbn [world_of client_of outcome_of fst snd].
    assert (exists auths, Forall (fun rq => rq = auth_request self) auths
                          /\ (List.length auths <= 2)%nat
                          /\ sent w1 = (sent w ++ auths)%list) as (auths & Fa & La & Sa).
    { destruct S1 as [S1|S1]; rewrite S1.
      - exists []. rewrite app_nil_r. repeat split; auto.
      - exists [auth_request self]. repeat split; auto. }
    exists auths. do 2 (split; [assumption|]).
    do 5 (split; [congruence|]). left. split; [exact Sa|].
    exists e. split; [reflexivity | now apply R1].
Qed.

(** The signed request of a call, when the call got as far as issuing it. *)
Lemma make_request_api_call (method endpoint : string) (json_data : json)
    (params : option pydict) (self : GWNClient) (w : world)
    (before : list request) (rq : request) :
  let run := make_request method endpoint json_data params self w in
  let timestamp := millis (clock w (reads w)) in
  issued w (world_of run) = (before ++ [rq])%list ->
  is_auth rq = false ->
  exists s1,
    app_id s1 = app_id self /\ secret_key s1 = secret_key self
    /\ rq = api_request method (base_url self ++ endpoint)
              (query_params s1 timestamp (calculate_signature s1 timestamp json_data) params)
              json_data
    /\ Forall (fun x => x = auth_request self) before
    /\ outcome_of run = api_result (server w (List.length (sent w ++ before)%list))
    /\ fst (ensure_token self (tick w)) = (Ret tt, s1).
Proof.
  cbv zeta. intros Hi Hrq.
  destruct (make_request_sent method endpoint json_data params self w)
    as (auths & Fa & _ & _ & _ & _ & _ & _ & [[E _] | (s1 & E1 & A1 & K1 & E & R)]);
    cbv zeta in *; rewrite (issued_app _ _ _ E) in Hi.
  - exfalso. rewrite Forall_forall in Fa.
    assert (In rq auths) as Hin by (rewrite Hi; apply in_or_app; right; now left).
    rewrite (Fa rq Hin) in Hrq. discriminate.
  - apply app_inj_tail in Hi. destruct Hi as [-> <-].
    exists s1. now repeat split.
Qed.

(** X5: [make_request] signs what it sends.  Without extra parameters, the
    query of the HTTP request is access_token, appID, timestamp and signature,
    in that order: the token is the one the client holds after the token check
    of [make_request], the timestamp is the first clock reading of the call,
    multiplied by 1000 as a float and truncated, and the signature is the one
    of the specification for that very token and timestamp, the credentials
    of the client and [json_data]. *)
Theorem make_request_signed_query (method endpoint : string) (json_data : json)
    (self : GWNClient) (w : world) (before : list request) (rq : request) :
  let run := make_request method endpoint json_data None self w in
  let timestamp := millis (clock w (reads w)) in
  let token := access_token (client_of (ensure_token self (tick w))) in
  issued w (world_of run) = (before ++ [rq])%list ->
  is_auth rq = false ->
  query_of rq
  = [ ("access_token", token);
      ("appID", JStr (app_id self));
      ("timestamp", JNum timestamp);
      ("signature",
       JStr (spec_signature (py_str token) (app_id self) (secret_key self) timestamp
               (signed_body json_data))) ].
Proof.
  cbv zeta. intros Hi Hrq.
  destruct (make_request_api_call method endpoint json_data None self w before rq Hi Hrq)
    as (s1 & A1 & K1 & -> & _ & _ & E1).
  assert (client_of (ensure_token self (tick w)) = s1) as ->
    by (unfold client_of; now rewrite E1).
  rewrite (proj1 (query_of_api_request _ _ _ _)).
  unfold query_params, calculate_signature, spec_signature.
  now rewrite param_str_eq, A1, K1.
Qed.

Lemma make_request_signed_query_witness :
  query_of (last_issued (scripted 1000 [envelope []])
              (make_request "POST" "/oapi/v1.0.0/network/list" network_list_body None
                 signed_in (scripted 1000 [envelope []])))
  = [ ("access_token",
       access_token (client_of (ensure_token signed_in (tick (scripted 1000 [envelope []])))));
      ("appID", JStr (app_id signed_in));
      ("timestamp", JNum (millis (clock (scripted 1000 [envelope []]) 0)));
      ("signature",
       JStr (spec_signature
               (py_str (access_token
                          (client_of (ensure_token signed_in
                                        (tick (scripted 1000 [envelope []]))))))
               (app_id signed_in) (secret_key signed_in)
               (millis (clock (scripted 1000 [envelope []]) 0))
               (signed_body network_list_body))) ].
Proof.
  apply (make_request_signed_query "POST" "/oapi/v1.0.0/network/list" network_list_body
           signed_in (scripted 1000 [envelope []]) []).
  - vm_compute. reflexivity.
  - vm_compute. reflexivity.
Defined.

(** Floats on known inputs: the float nearest to 0.1, the sum 0.1 + 0.2, a
    time plus a lifetime, the conversion of ints (exact up to [2^53], rounded
    to even beyond, refused beyond the largest float, which is
    [2^1024 - 2^971]). *)
Example float_examples :
  round64 (1 # 10) = (3602879701896397 # 36028797018963968)%Q
  /\ float_add (3602879701896397 # 36028797018963968) (round64 (2 # 10))
     = (1351079888211149 # 4503599627370496)%Q
  /\ add_seconds (7130316800517815 # 4194304) (JNum 3600)
     = Ret (7130331900012215 # 4194304)%Q
  /\ float_of_int (2 ^ 53) = Ret (inject_Z (2 ^ 53))
  /\ float_of_int (2 ^ 53 + 1) = Ret (inject_Z (2 ^ 53))
  /\ float_of_int (2 ^ 53 + 3) = Ret (inject_Z (2 ^ 53 + 4))
  /\ float_of_int (2 ^ 1024 - 2 ^ 970 - 1) = Ret (inject_Z (2 ^ 1024 - 2 ^ 971))
  /\ float_of_int (2 ^ 1024 - 2 ^ 970) = Raise OverflowError
  /\ float_of_int (- 10 ^ 400) = Raise OverflowError.
Proof. repeat split; vm_compute; reflexivity. Qed.

(** The timestamp is the truncated float product: for the float nearest to
    1000.001 the product with 1000 rounds up to 1000001, where the exact
    product lies below it. *)
Example millis_rounds :
  millis (4398050909150511 # 4398046511104) = 1000001
  /\ ((4398050909150511 # 4398046511104) * 1000 < 1000001)%Q
  /\ millis 1700000000 = 1700000000000.
Proof. repeat split. Qed.

(** X6: the only exceptions a signed call raises are the "Could not
    authenticate" of a failed token refresh, the [ValueError],
    [AttributeError] and [TypeError] of a malformed response, the
    [OverflowError] of a token lifetime too large for a float, and the
    [InvalidURL] of httpx; an [httpx.HTTPStatusError] or
    [httpx.RequestError] never escapes it. *)
Theorem make_request_raises (method endpoint : string) (json_data : json)
    (params : option pydict) (self : GWNClient) (w : world) (e : pyexn) :
  outcome_of (make_request method endpoint json_data params self w) = Raise e ->
  e = CouldNotAuthenticate \/ e = ValueError \/ e = AttributeError \/ e = TypeError
  \/ e = OverflowError \/ exists msg, e = InvalidURL msg.
Proof.
  intros He.
  assert (escapes e = true) as Hk.
  { destruct (make_request_sent method endpoint json_data params self w)
      as (auths & _ & _ & _ & _ & _ & _ & _ & [[_ (e' & E & Hk)] | (s1 & _ & _ & _ & _ & R)]);
      cbv zeta in *.
    - rewrite E in He. now injection He as <-.
    - rewrite R in He. unfold api_result in He.
      destruct (server w _) as [msg|r|msg]; [discriminate| |now injection He as <-].
      destruct (is_success r); [|discriminate].
      destruct (parsed r); [discriminate|]. now injection He as <-. }
  destruct e; try discriminate; auto 6. do 5 right. now exists message.
Qed.

Lemma make_request_raises_witness :
  outcome_of (make_request "GET" "/x" JNull None signed_in
                (scripted 1000 [Unparsable "Invalid port"]))
  = Raise (InvalidURL "Invalid port")
  /\ (InvalidURL "Invalid port" = CouldNotAuthenticate
      \/ InvalidURL "Invalid port" = ValueError
      \/ InvalidURL "Invalid port" = AttributeError
      \/ InvalidURL "Invalid port" = TypeError
      \/ InvalidURL "Invalid port" = OverflowError
      \/ exists msg, InvalidURL "Invalid port" = InvalidURL msg).
Proof.
  split; [vm_compute; reflexivity|].
  apply (make_request_raises "GET" "/x" JNull None signed_in
           (scripted 1000 [Unparsable "Invalid port"])).
  vm_compute. reflexivity.
Defined.

(** X7: when the HTTP request of a signed call gets a 2xx response, the call
    returns the parsed JSON body, and raises [ValueError] when the body is not
    JSON: that exception is not among those [make_request] catches. *)
Theorem make_request_success (method endpoint : string) (json_data : json)
    (params : option pydict) (self : GWNClient) (w : world)
    (before : list request) (rq : request) (r : response) :
  let run := make_request method endpoint json_data params self w in
  issued w (world_of run) = (before ++ [rq])%list ->
  is_auth rq = false ->
  server w (List.length (sent w ++ before)%list) = Reply r ->
  is_success r = true ->
  outcome_of run = match parsed r with
                   | Some v => Ret v
                   | None => Raise ValueError
                   end.
Proof.
  cbv zeta. intros Hi Hrq Hs Hok.
  destruct (make_request_api_call method endpoint json_data params self w before rq Hi Hrq)
    as (s1 & _ & _ & _ & _ & -> & _).
  unfold api_result. now rewrite Hs, Hok.
Qed.

Lemma make_request_success_witness :
  outcome_of (make_request "POST" "/oapi/v1.0.0/network/list" network_list_body None
                signed_in (within_a_minute 1000 [Reply (Response 200 "<html>" None)]))
  = Raise ValueError.
Proof.
  apply (make_request_success "POST" "/oapi/v1.0.0/network/list" network_list_body None
           signed_in (within_a_minute 1000 [Reply (Response 200 "<html>" None)]) []
           (last_issued (within_a_minute 1000 [Reply (Response 200 "<html>" None)])
              (make_request "POST" "/oapi/v1.0.0/network/list" network_list_body None
                 signed_in (within_a_minute 1000 [Reply (Response 200 "<html>" None)])))
           (Response 200 "<html>" None)).
  - vm_compute. reflexivity.
  - vm_compute. reflexivity.
  - reflexivity.
  - reflexivity.
Defined.

(** X8: the HTTP request of a signed call goes to [base_url + endpoint] with
    the JSON content type.  A method that reads POST once upper-cased is sent
    as a POST with [json_data] as its body and a timeout of 15 seconds; any
    other method, PUT and DELETE included, is sent as a GET without body and
    with a timeout of 10 seconds. *)
Theorem make_request_method (method endpoint : string) (json_data : json)
    (params : option pydict) (self : GWNClient) (w : world)
    (before : list request) (rq : request) :
  let run := make_request method endpoint json_data params self w in
  issued w (world_of run) = (before ++ [rq])%list ->
  is_auth rq = false ->
  (upper method = "POST" ->
   rq = ApiCall "POST" (base_url self ++ endpoint)
          [("Content-Type", JStr "application/json")] (query_of rq) json_data 15)
  /\ (upper method <> "POST" ->
      rq = ApiCall "GET" (base_url self ++ endpoint)
             [("Content-Type", JStr "application/json")] (query_of rq) JNull 10).
Proof.
  cbv zeta. intros Hi Hrq.
  destruct (make_request_api_call method endpoint json_data params self w before rq Hi Hrq)
    as (s1 & _ & _ & -> & _ & _).
  rewrite (proj1 (query_of_api_request _ _ _ _)).
  unfold api_request. destruct (String.eqb_spec (upper method) "POST") as [E|N]; split;
    intros H; try reflexivity; contradiction.
Qed.

Lemma make_request_method_witness :
  (upper "delete" = "POST" ->
   last_issued (within_a_minute 1000 [envelope []])
     (make_request "delete" "/x" network_list_body None signed_in
        (within_a_minute 1000 [envelope []]))
   = ApiCall "POST" (base_url signed_in ++ "/x")
       [("Content-Type", JStr "application/json")]
       (query_of (last_issued (within_a_minute 1000 [envelope []])
                    (make_request "delete" "/x" network_list_body None signed_in
                       (within_a_minute 1000 [envelope []]))))
       network_list_body 15)
  /\ (upper "delete" <> "POST" ->
      last_issued (within_a_minute 1000 [envelope []])
        (make_request "delete" "/x" network_list_body None signed_in
           (within_a_minute 1000 [envelope []]))
      = ApiCall "GET" (base_url signed_in ++ "/x")
          [("Content-Type", JStr "application/json")]
          (query_of (last_issued (within_a_minute 1000 [envelope []])
                       (make_request "delete" "/x" network_list_body None signed_in
                          (within_a_minute 1000 [envelope []]))))
          JNull 10).
Proof.
  apply (make_request_method "delete" "/x" network_list_body None signed_in
           (within_a_minute 1000 [envelope []]) []).
  - vm_compute. reflexivity.
  - vm_compute. reflexivity.
Defined.

(** ** The endpoint callers *)

(** X9: each of the three endpoint callers sends a POST to its own path with
    a fixed body: sort order, empty search and five networks a page for
    [get_networks]; a hundred a page for [get_access_points] and, with
    [untilNow=1], for [get_client_List].  The last two name the network in
    [networkId] only when the identifier is truthy, so that a network whose
    identifier is 0 (or missing) is not named and the list is fetched
    unscoped. *)
Theorem endpoint_requests (network_id : json) (self : GWNClient) (w : world)
    (before : list request) (rq : request) :
  is_auth rq = false ->
  (issued w (world_of (get_networks self w)) = (before ++ [rq])%list ->
   rq = ApiCall "POST" (base_url self ++ "/oapi/v1.0.0/network/list")
          [("Content-Type", JStr "application/json")] (query_of rq)
          (JObj [ ("type", JStr "asc"); ("order", JStr "id"); ("search", JStr EmptyString);
                  ("pageNum", JNum 1); ("pageSize", JNum 5) ]) 15)
  /\ (issued w (world_of (get_access_points network_id self w)) = (before ++ [rq])%list ->
      rq = ApiCall "POST" (base_url self ++ "/oapi/v1.0.0/ap/list")
             [("Content-Type", JStr "application/json")] (query_of rq)
             (JObj ([ ("pageNum", JNum 1); ("pageSize", JNum 100) ]
                    ++ if truthy network_id then [("networkId", network_id)] else [])%list) 15)
  /\ (issued w (world_of (get_client_List network_id self w)) = (before ++ [rq])%list ->
      rq = ApiCall "POST" (base_url self ++ "/oapi/v1.0.0/client/list")
             [("Content-Type", JStr "application/json")] (query_of rq)
             (JObj ([ ("pageNum", JNum 1); ("pageSize", JNum 100); ("untilNow", JNum 1) ]
                    ++ if truthy network_id then [("networkId", network_id)] else [])%list) 15).
Proof.
  intros Hrq. split; [|split]; intros Hi.
  - destruct (make_request_api_call "POST" "/oapi/v1.0.0/network/list" _ None self w
                before rq Hi Hrq) as (s1 & _ & _ & -> & _).
    now rewrite (proj1 (query_of_api_request _ _ _ _)).
  - destruct (make_request_api_call "POST" "/oapi/v1.0.0/ap/list" _ None self w
                before rq Hi Hrq) as (s1 & _ & _ & -> & _).
    rewrite (proj1 (query_of_api_request _ _ _ _)).
    destruct (truthy network_id); reflexivity.
  - destruct (make_request_api_call "POST" "/oapi/v1.0.0/client/list" _ None self w
                before rq Hi Hrq) as (s1 & _ & _ & -> & _).
    rewrite (proj1 (query_of_api_request _ _ _ _)).
    destruct (truthy network_id); reflexivity.
Qed.

Lemma endpoint_requests_witness :
  last_issued (within_a_minute 1000 [envelope []])
    (get_access_points (JNum 0) signed_in (within_a_minute 1000 [envelope []]))
  = ApiCall "POST" (base_url signed_in ++ "/oapi/v1.0.0/ap/list")
      [("Content-Type", JStr "application/json")]
      (query_of (last_issued (within_a_minute 1000 [envelope []])
                   (get_access_points (JNum 0) signed_in
                      (within_a_minute 1000 [envelope []]))))
      (JObj ([ ("pageNum", JNum 1); ("pageSize", JNum 100) ]
             ++ if truthy (JNum 0) then [("networkId", JNum 0)] else [])%list) 15.
Proof.
  apply (proj1 (proj2 (endpoint_requests (JNum 0) signed_in
                         (within_a_minute 1000 [envelope []]) []
                         (last_issued (within_a_minute 1000 [envelope []])
                            (get_access_points (JNum 0) signed_in
                               (within_a_minute 1000 [envelope []])))
                         ltac:(vm_compute; reflexivity)))).
  vm_compute. reflexivity.
Defined.

(** ** [get_data] and the update method *)

Lemma auth_calls_app (l1 l2 : list request) :
  auth_calls (l1 ++ l2) = (auth_calls l1 + auth_calls l2)%nat.
Proof. unfold auth_calls. now rewrite filter_app, length_app. Qed.

Lemma api_calls_app (l1 l2 : list request) :
  api_calls (l1 ++ l2) = (api_calls l1 + api_calls l2)%nat.
Proof. unfold api_calls. now rewrite filter_app, length_app. Qed.

Lemma auth_calls_auths (auths : list request) (self : GWNClient) :
  Forall (fun x => x = auth_request self) auths ->
  auth_calls auths = List.length auths /\ api_calls auths = 0%nat.
Proof.
  unfold auth_calls, api_calls. induction 1 as [|x l -> _ [IH1 IH2]]; [now cbn|].
  cbn [filter is_auth auth_request negb List.length]. now rewrite IH1, IH2.
Qed.

(** A signed call appends at most two credential exchanges and at most one
    signed request to the exchanges sent before it. *)
Lemma make_request_extends (method endpoint : string) (json_data : json)
    (params : option pydict) (self : GWNClient) (w : world) :
  let run := make_request method endpoint json_data params self w in
  exists l,
    sent (world_of run) = (sent w ++ l)%list
    /\ (auth_calls l <= 2)%nat /\ (api_calls l <= 1)%nat.
Proof.
  cbv zeta.
  destruct (make_request_sent method endpoint json_data params self w)
    as (auths & Fa & La & _ & _ & _ & _ & _ & [[E _] | (s1 & _ & _ & _ & E & _)]);
    cbv zeta in *; destruct (auth_calls_auths auths self Fa) as [Ha Hp].
  - exists auths. split; [exact E|]. lia.
  - eexists. split; [exact E|].
    rewrite auth_calls_app, api_calls_app, Ha, Hp.
    unfold api_request. destruct (upper method =? "POST")%string; cbn; lia.
Qed.

(** X10: every poll cycle opens with a credential exchange, whatever the
    state of the token, because [get_data] calls [authenticate]
    unconditionally; after it come at most three signed requests and at most
    six further credential exchanges. *)
Theorem get_data_exchanges (self : GWNClient) (w : world) :
  exists l,
    issued w (world_of (get_data self w)) = auth_request self :: l
    /\ (api_calls l <= 3)%nat /\ (auth_calls l <= 6)%nat.
Proof.
  rewrite get_data_cases.
  destruct (authenticate_frame self w) as (S0 & _).
  destruct (authenticate self w) as [[[b|e] s0] w0]; cbn [world_of snd] in S0;
    [|exists []; split; [now apply issued_app | cbn; lia]].
  destruct (make_request_extends "POST" "/oapi/v1.0.0/network/list" network_list_body None s0 w0)
    as (l1 & S1 & A1 & P1).
  change (make_request "POST" "/oapi/v1.0.0/network/list" _ None s0 w0)
    with (get_networks s0 w0) in S1.
  destruct (get_networks s0 w0) as [[[networks|e] s1] w1]; cbn [world_of snd] in S1;
    [|exists l1; split; [apply issued_app; cbn [world_of snd];
                         rewrite S1, S0, <- app_assoc; reflexivity | lia]].
  destruct (truthy networks);
    [|exists l1; split; [apply issued_app; cbn [world_of snd];
                         rewrite S1, S0, <- app_assoc; reflexivity | lia]].
  destruct (first_network_id networks) as [network_id|e];
    [|exists l1; split; [apply issued_app; cbn [world_of snd];
                         rewrite S1, S0, <- app_assoc; reflexivity | lia]].
  destruct (make_request_extends "POST" "/oapi/v1.0.0/ap/list"
              (JObj (if truthy network_id
                     then dict_set "networkId" network_id
                            [("pageNum", JNum 1); ("pageSize", JNum 100)]
                     else [("pageNum", JNum 1); ("pageSize", JNum 100)])) None s1 w1)
    as (l2 & S2 & A2 & P2).
  change (make_request "POST" "/oapi/v1.0.0/ap/list" _ None s1 w1)
    with (get_access_points network_id s1 w1) in S2.
  destruct (get_access_points network_id s1 w1) as [[[aps|e] s2] w2];
    cbn [world_of snd] in S2;
    [|exists (l1 ++ l2)%list; split;
      [apply issued_app; cbn [world_of snd];
       rewrite S2, S1, S0, <- !app_assoc; reflexivity
      | rewrite auth_calls_app, api_calls_app; lia]].
  destruct (make_request_extends "POST" "/oapi/v1.0.0/client/list"
              (JObj (if truthy network_id
                     then dict_set "networkId" network_id
                            [("pageNum", JNum 1); ("pageSize", JNum 100); ("untilNow", JNum 1)]
                     else [("pageNum", JNum 1); ("pageSize", JNum 100); ("untilNow", JNum 1)]))
              None s2 w2)
    as (l3 & S3 & A3 & P3).
  change (make_request "POST" "/oapi/v1.0.0/client/list" _ None s2 w2)
    with (get_client_List network_id s2 w2) in S3.
  destruct (get_client_List network_id s2 w2) as [[[clients|e] s3] w3];
    cbn [world_of snd] in S3;
    exists (l1 ++ l2 ++ l3)%list; (split;
      [apply issued_app; cbn [world_of snd];
       rewrite S3, S2, S1, S0, <- !app_assoc; reflexivity
      | rewrite !auth_calls_app, !api_calls_app; lia]).
Qed.

Lemma authenticate_unreachable (self : GWNClient) (w : world) :
  http_failure (next_outcome w) = true ->
  authenticate self w = (Ret false, self, record (auth_request self) w).
Proof.
  intros H. rewrite authenticate_cases. cbv zeta.
  destruct (next_outcome w) as [msg|r|msg]; [reflexivity| |discriminate].
  cbn in H. now destruct (is_success r).
Qed.

(** A signed call with a token that is valid at both token checks goes
    straight to its HTTP request. *)
Lemma make_request_fresh (method endpoint : string) (json_data : json)
    (params : option pydict) (self : GWNClient) (w : world) :
  truthy (access_token self) = true ->
  (clock w (S (reads w)) < token_expiry self)%Q ->
  (clock w (S (S (reads w))) < token_expiry self)%Q ->
  make_request method endpoint json_data params self w
  = (api_result (next_outcome w), self,
     record (api_request method (base_url self ++ endpoint)
               (query_params self (millis (clock w (reads w)))
                  (calculate_signature self (millis (clock w (reads w))) json_data) params)
               json_data)
       (tick (tick (tick w)))).
Proof.
  intros Ht Hf1 Hf2. rewrite make_request_cases. cbv zeta.
  rewrite ensure_token_cases, Ht. cbn [clock reads tick].
  rewrite (Qle_bool_false _ _ Hf1).
  rewrite ensure_token_cases, Ht. cbn [clock reads tick].
  rewrite (Qle_bool_false _ _ Hf2). reflexivity.
Qed.

(** X11: when both exchanges of a poll cycle fail, with a transport error or
    a non-2xx response, and the stored token is truthy and unexpired at the
    two token checks of the cycle, the cycle does not fail: the unconditional
    authentication fails and is ignored, the network-list request fails and
    yields [None], and [async_update_data] hands [None] to the coordinator as
    if it were data, after two exchanges and with the client unchanged. *)
Theorem async_update_data_unreachable_fresh (self : GWNClient) (w : world) :
  http_failure (next_outcome w) = true ->
  http_failure (server w (S (List.length (sent w)))) = true ->
  truthy (access_token self) = true ->
  (clock w (S (reads w)) < token_expiry self)%Q ->
  (clock w (S (S (reads w))) < token_expiry self)%Q ->
  fst (async_update_data self w) = (Updated JNull, self)
  /\ exists rq, is_auth rq = false
                /\ issued w (snd (async_update_data self w)) = [auth_request self; rq].
Proof.
  intros Hu1 Hu2 Ht Hf1 Hf2. unfold async_update_data. rewrite get_data_cases.
  rewrite (authenticate_unreachable self w Hu1).
  unfold get_networks. rewrite make_request_fresh by assumption.
  assert (api_result (next_outcome (record (auth_request self) w)) = Ret JNull) as ->.
  { unfold api_result, next_outcome. cbn [server record sent].
    rewrite length_app, Nat.add_1_r.
    destruct (server w _) as [msg|r|msg]; [reflexivity| |discriminate]. cbn in Hu2.
    now destruct (is_success r). }
  cbn [truthy fst snd]. split; [reflexivity|].
  eexists. split; [|apply issued_app; cbn [sent record tick]; rewrite <- app_assoc; reflexivity].
  reflexivity.
Qed.

Lemma async_update_data_unreachable_fresh_witness :
  fst (async_update_data signed_in (scripted 1000 [])) = (Updated JNull, signed_in)
  /\ exists rq, is_auth rq = false
                /\ issued (scripted 1000 [])
                     (snd (async_update_data signed_in (scripted 1000 [])))
                   = [auth_request signed_in; rq].
Proof.
  apply (async_update_data_unreachable_fresh signed_in (scripted 1000 []));
    vm_compute; reflexivity.
Defined.

(** X12: when the server cannot be reached and the token is missing or
    expired, the poll cycle fails with [UpdateFailed], caused by "Could not
    authenticate": the credential exchange is tried twice, by [get_data] and
    by the token check of the network-list call, and no signed request is
    issued. *)
Theorem async_update_data_unreachable_stale (self : GWNClient) (w : world) :
  (forall n, http_failure (server w n) = true) ->
  truthy (access_token self) = false \/ (forall n, (token_expiry self <= clock w n)%Q) ->
  fst (async_update_data self w) = (UpdateFailed CouldNotAuthenticate, self)
  /\ issued w (snd (async_update_data self w)) = [auth_request self; auth_request self].
Proof.
  intros Hu Hs. unfold async_update_data. rewrite get_data_cases.
  rewrite (authenticate_unreachable self w (Hu _)).
  unfold get_networks. rewrite make_request_cases. cbv zeta.
  assert (exists w0,
    ensure_token self (tick (record (auth_request self) w))
    = (Raise CouldNotAuthenticate, self, record (auth_request self) w0)
    /\ sent w0 = (sent w ++ [auth_request self])%list) as (w0 & -> & Hst).
  { rewrite ensure_token_cases.
    destruct (truthy (access_token self)) eqn:T.
    - destruct Hs as [Hf | Hexp]; [discriminate|].
      cbn [clock reads tick record]. rewrite (Qle_bool_true _ _ (Hexp _)).
      eexists. split; [apply refresh_failed; apply Hu | reflexivity].
    - eexists. split; [apply refresh_failed; apply Hu | reflexivity]. }
  cbn [fst snd]. split; [reflexivity|].
  apply issued_app. cbn [sent record]. rewrite Hst. now rewrite <- app_assoc.
Qed.

Lemma async_update_data_unreachable_stale_witness :
  fst (async_update_data demo (within_a_minute 1000 []))
  = (UpdateFailed CouldNotAuthenticate, demo)
  /\ issued (within_a_minute 1000 []) (snd (async_update_data demo (within_a_minute 1000 [])))
     = [auth_request demo; auth_request demo].
Proof.
  apply (async_update_data_unreachable_stale demo (within_a_minute 1000 [])).
  - intros n. unfold within_a_minute, script. cbn [server].
    destruct n; reflexivity.
  - left. reflexivity.
Defined.

(** ** The join *)

(** X13: the access points of a snapshot are the fetched list as it came,
    not normalized, and the snapshot has one client record for each fetched
    client record, under the two keys [aps] and [clients]. *)
Theorem join_lists_shape (aps_data clients_data snapshot : json) :
  join_lists aps_data clients_data = Ret snapshot ->
  exists raw clients,
    snapshot = JObj [("aps", value_of (result_list aps_data)); ("clients", JArr clients)]
    /\ fetched_list clients_data = Ret raw
    /\ List.length clients = List.length raw.
Proof.
  intros Hj.
  destruct (join_lists_inv _ _ _ Hj) as (aps_list & aps & m & raw & clients & -> & _ & _ & Hr & F).
  exists raw, clients. split; [|split; [exact Hr | symmetry; exact (Forall2_length F)]].
  unfold join_lists in Hj.
  destruct (result_list aps_data) as [al|]; [|discriminate]. cbn [rbind] in Hj.
  destruct (py_iter al); [|discriminate]. cbn [rbind] in Hj.
  destruct (build_aps_map _ _); [|discriminate]. cbn [rbind] in Hj.
  destruct (result_list clients_data) as [cl|]; [|discriminate]. cbn [rbind] in Hj.
  destruct (py_iter cl); [|discriminate]. cbn [rbind] in Hj.
  destruct (normalize_clients _ _); [|discriminate]. cbn [rbind] in Hj.
  now injection Hj as <- <-.
Qed.

Lemma join_lists_shape_witness :
  exists raw clients,
    value_of (join_lists lobby_aps lobby_clients)
    = JObj [("aps", value_of (result_list lobby_aps)); ("clients", JArr clients)]
    /\ fetched_list lobby_clients = Ret raw
    /\ List.length clients = List.length raw.
Proof.
  apply (join_lists_shape lobby_aps lobby_clients). vm_compute. reflexivity.
Defined.

(** X14: an envelope without [data], or whose [data] has no [result], counts
    as an empty list: two such envelopes give the snapshot with no access
    point and no client, not an error. *)
Theorem join_lists_missing_result (aps_data clients_data : json) :
  lacks_result aps_data = true -> lacks_result clients_data = true ->
  join_lists aps_data clients_data = Ret (JObj [("aps", JArr []); ("clients", JArr [])]).
Proof.
  assert (forall v, lacks_result v = true -> result_list v = Ret (JArr [])) as L.
  { intros v H. unfold lacks_result in H. destruct v as [| | | | |d]; try discriminate.
    unfold result_list, py_get, get_default. cbn [rbind].
    destruct (dict_get "data" d) as [[| | | | |d']|]; try discriminate; [|reflexivity].
    cbn [rbind]. now destruct (dict_get "result" d'). }
  intros Ha Hc. unfold join_lists. rewrite (L _ Ha), (L _ Hc). reflexivity.
Qed.

Lemma join_lists_missing_result_witness :
  join_lists (JObj [("retCode", JNum 0)]) (JObj [("data", JObj [("total", JNum 0)])])
  = Ret (JObj [("aps", JArr []); ("clients", JArr [])]).
Proof. apply join_lists_missing_result; reflexivity. Defined.

(** X15: an envelope whose [data] is present but [null] is not treated like
    one without [data]: the default of [get] does not apply and the join
    raises [AttributeError]. *)
Theorem join_lists_null_data (d : pydict) (clients_data : json) :
  dict_get "data" d = Some JNull ->
  join_lists (JObj d) clients_data = Raise AttributeError.
Proof.
  intros H. unfold join_lists, result_list, py_get, get_default. now rewrite H.
Qed.

Lemma join_lists_null_data_witness :
  join_lists (JObj [("data", JNull)]) lobby_clients = Raise AttributeError.
Proof. apply join_lists_null_data. reflexivity. Defined.

Lemma Forall2_In_l {A B} (P : A -> B -> Prop) (l : list A) (l' : list B) (x : A) :
  Forall2 P l l' -> In x l -> exists y, In y l' /\ P x y.
Proof.
  induction 1 as [|x0 y0 l l' Hxy _ IH]; intros Hin; [destruct Hin|].
  destruct Hin as [<- | Hin].
  - exists y0. split; [now left | exact Hxy].
  - destruct (IH Hin) as (y & Hy & Hp). exists y. split; [now right | exact Hp].
Qed.

(** X16: one fetched client record that is not a dict, or whose [apId] is a
    list or a dict, aborts the whole join with an untyped exception: no
    snapshot is built from the remaining records. *)
Theorem join_lists_bad_record (aps_data clients_data : json) (raw : list json)
    (client : json) :
  fetched_list clients_data = Ret raw ->
  In client raw ->
  is_dict client = false
  \/ (exists c, client = JObj c
                /\ hashable (get_default c "apId" (JStr EmptyString)) = false) ->
  exists e, join_lists aps_data clients_data = Raise e /\ untyped_crash e = true.
Proof.
  intros Hr Hin Hbad.
  destruct (join_lists_cases aps_data clients_data) as [(a & cl & E) | R]; [exfalso | exact R].
  destruct (join_lists_inv _ _ _ E) as (_ & _ & m & raw' & clients & _ & _ & _ & Hr' & F).
  rewrite Hr in Hr'. injection Hr' as <-.
  destruct (Forall2_In_l _ _ _ _ F Hin) as (rec & _ & Hn).
  destruct (normalize_client_inv m client rec Hn) as (c & _ & -> & Hh & _).
  destruct Hbad as [Hd | (c' & [= <-] & Hh')]; [discriminate|].
  rewrite Hh in Hh'. discriminate.
Qed.

Lemma join_lists_bad_record_witness :
  exists e,
    join_lists lobby_aps
      (JObj [("data", JObj [("result",
         JArr [ JObj [("clientId", JStr "C1")]; JStr "C2" ])])])
    = Raise e
    /\ untyped_crash e = true.
Proof.
  apply (join_lists_bad_record lobby_aps _ [JObj [("clientId", JStr "C1")]; JStr "C2"]
           (JStr "C2")).
  - reflexivity.
  - right. left. reflexivity.
  - left. reflexivity.
Defined.

(** X17: every client record of a snapshot has exactly the thirteen keys
    mac, name, ipv4, ipv6, ap_mac, ap_name, rssi, ssid, online, tx_bytes,
    rx_bytes, tx_rate and rx_rate, in that order, whatever else the vendor
    sent for the client. *)
Theorem snapshot_client_keys (aps_data clients_data snapshot rec : json) :
  join_lists aps_data clients_data = Ret snapshot ->
  In rec (snapshot_clients snapshot) ->
  exists r, rec = JObj r /\ map fst r = normalized_keys.
Proof.
  intros Hj Hin.
  destruct (join_lists_inv _ _ _ Hj) as (aps_list & aps & m & raw & clients & -> & _ & _ & _ & F).
  cbn in Hin.
  assert (exists client, normalize_client m client = Ret rec) as (client & Hn).
  { clear - F Hin. induction F as [|x y l l' Hxy _ IH]; [destruct Hin|].
    destruct Hin as [<- | Hin]; [now exists x | now apply IH]. }
  destruct (normalize_client_inv m client rec Hn) as (c & a & _ & _ & _ & ->).
  now exists (normalized c a).
Qed.

Lemma snapshot_client_keys_witness :
  exists r,
    JObj (normalized [("clientId", JStr "C1"); ("apId", JStr "A1"); ("name", JStr "Phone")]
            [("mac", JStr "A1"); ("name", JStr "Lobby")])
    = JObj r
    /\ map fst r = normalized_keys.
Proof.
  apply (snapshot_client_keys lobby_aps lobby_clients
           (value_of (join_lists lobby_aps lobby_clients))).
  - vm_compute. reflexivity.
  - vm_compute. left. reflexivity.
Defined.

Lemma key_eqb_refl (k : json) : hashable k = true -> key_eqb k k = true.
Proof.
  destruct k as [|b|n|s| |]; cbn; try discriminate; intros _.
  - reflexivity.
  - now destruct b.
  - apply Z.eqb_refl.
  - apply String.eqb_refl.
Qed.

Lemma build_aps_map_hashable (aps : list json) (m0 m : pymap) :
  build_aps_map aps m0 = Ret m -> Forall (fun ap => hashable (mac_of ap) = true) aps.
Proof.
  revert m0. induction aps as [|ap aps IH]; intros m0; cbn [build_aps_map]; [constructor|].
  unfold py_get. destruct ap as [| | | | |a]; try discriminate. cbn [rbind].
  unfold map_set. destruct (hashable _) eqn:Hh; [|discriminate]. cbn [rbind].
  intros Hb. constructor; [exact Hh | exact (IH _ Hb)].
Qed.

(** X18: the map [get_data] builds from the access-point list finds every
    access point of the list back by its mac: looking up the mac of one of
    them yields an access point of the list with an equal mac, which is that
    very access point when no later one shares its mac. *)
Theorem build_aps_map_finds (aps : list json) (m : pymap) (ap : json) :
  build_aps_map aps [] = Ret m ->
  In ap aps ->
  exists found,
    map_lookup (mac_of ap) m = Some found
    /\ In found aps
    /\ key_eqb (mac_of found) (mac_of ap) = true
    /\ (forall before after,
          aps = (before ++ ap :: after)%list ->
          Forall (fun other => key_eqb (mac_of other) (mac_of ap) = false) after ->
          found = ap).
Proof.
  intros Hb Hin. rewrite (build_aps_map_lookup aps [] m _ Hb). unfold ap_with_mac.
  pose proof (build_aps_map_hashable aps [] m Hb) as Fh. rewrite Forall_forall in Fh.
  destruct (find _ (rev aps)) as [found|] eqn:Ef.
  - exists found. split; [reflexivity|].
    destruct (find_some _ _ Ef) as [Hf Hk]. split; [now apply in_rev|]. split; [exact Hk|].
    intros before after -> Fa. rewrite rev_app_distr in Ef. cbn [rev] in Ef.
    rewrite <- app_assoc, find_app in Ef.
    destruct (find _ (rev after)) as [x|] eqn:Ex.
    + exfalso. destruct (find_some _ _ Ex) as [Hx Hkx]. apply in_rev in Hx.
      rewrite Forall_forall in Fa. rewrite (Fa x Hx) in Hkx. discriminate.
    + cbn [app find] in Ef. rewrite (key_eqb_refl _ (Fh ap Hin)) in Ef. now injection Ef.
  - exfalso. pose proof (find_none _ _ Ef ap (proj1 (in_rev aps ap) Hin)) as N.
    cbn in N. rewrite (key_eqb_refl _ (Fh ap Hin)) in N. discriminate.
Qed.

Lemma build_aps_map_finds_witness :
  exists found,
    map_lookup (mac_of (JObj [("mac", JStr "A1"); ("name", JStr "Lobby")]))
      [(JStr "A1", JObj [("mac", JStr "A1"); ("name", JStr "Lobby")])]
    = Some found
    /\ In found [JObj [("mac", JStr "A1"); ("name", JStr "Lobby")]]
    /\ key_eqb (mac_of found) (mac_of (JObj [("mac", JStr "A1"); ("name", JStr "Lobby")]))
       = true
    /\ (forall before after,
          [JObj [("mac", JStr "A1"); ("name", JStr "Lobby")]]
          = (before ++ JObj [("mac", JStr "A1"); ("name", JStr "Lobby")] :: after)%list ->
          Forall (fun other =>
                    key_eqb (mac_of other)
                      (mac_of (JObj [("mac", JStr "A1"); ("name", JStr "Lobby")])) = false)
                 after ->
          found = JObj [("mac", JStr "A1"); ("name", JStr "Lobby")]).
Proof.
  apply (build_aps_map_finds [JObj [("mac", JStr "A1"); ("name", JStr "Lobby")]]).
  - reflexivity.
  - left. reflexivity.
Defined.

(** * Properties of the configuration flow *)

Lemma validate_input_cases (data : user_input) (w : world) :
  let client := init (CONF_APP_ID data) (CONF_APP_SECRET data) (CONF_SERVER_URL data) in
  fst (validate_input data w)
  = match outcome_of (authenticate client w) with
    | Ret true => inl "Grandstream GWN"
    | Ret false => inr InvalidAuth
    | Raise e => inr (Other e)
    end
  /\ snd (validate_input data w) = world_of (authenticate client w).
Proof.
  cbv zeta. unfold validate_input.
  destruct (authenticate _ w) as [[[[|]|e] s] w']; now cbn.
Qed.

(** X19: the user step reports a server that cannot be reached exactly like
    a server that refuses the credentials: on a transport error as on a
    non-2xx response the form comes back with the error [invalid_auth]. *)
Theorem async_step_user_failure (data : user_input) (w : world) :
  http_failure (next_outcome w) = true ->
  fst (async_step_user (Some data) w) = async_show_form "user" [("base", "invalid_auth")].
Proof.
  intros H. unfold async_step_user.
  destruct (validate_input_cases data w) as [E _]. cbv zeta in E.
  rewrite authenticate_unreachable in E by exact H.
  destruct (validate_input data w) as [[t|x] w']; cbn in E; [discriminate|].
  now injection E as ->.
Qed.

Lemma async_step_user_failure_witness :
  fst (async_step_user (Some (UserInput "https://eu.gwn.cloud" "APP" "SECRET"))
         (within_a_minute 1000 [Transport "name resolution failed"]))
  = async_show_form "user" [("base", "invalid_auth")].
Proof. apply async_step_user_failure. reflexivity. Defined.

(** X20: the user step never reports [cannot_connect]: [validate_input] never
    raises [CannotConnect], so the errors of the form are none (no input),
    [invalid_auth] or [unknown]. *)
Theorem async_step_user_errors (input : option user_input) (w : world)
    (step : string) (errors : list (string * string)) :
  fst (async_step_user input w) = async_show_form step errors ->
  step = "user"
  /\ (errors = [] /\ input = None
      \/ errors = [("base", "invalid_auth")]
      \/ errors = [("base", "unknown")]).
Proof.
  unfold async_step_user. destruct input as [data|]; [|cbn; intros [= <- <-]; auto].
  destruct (validate_input_cases data w) as [E _]. cbv zeta in E.
  destruct (validate_input data w) as [[t|x] w']; cbn in E |- *; [discriminate|].
  destruct x as [| |e]; cbn; intros [= <- <-]; auto.
  exfalso. destruct (outcome_of _) as [[|]|]; discriminate.
Qed.

Lemma async_step_user_errors_witness :
  "user" = "user"
  /\ ([("base", "unknown")] = [] /\ Some (UserInput "https://eu.gwn.cloud" "APP" "SECRET") = None
      \/ [("base", "unknown")] = [("base", "invalid_auth")]
      \/ [("base", "unknown")] = [("base", "unknown")]).
Proof.
  apply (async_step_user_errors (Some (UserInput "https://eu.gwn.cloud" "APP" "SECRET"))
           (within_a_minute 1000 [Reply (Response 200 "<html>" None)])).
  reflexivity.
Defined.

(** X21: the user step creates the entry, titled "Grandstream GWN" and
    holding the input as given, exactly when the server answers the credential
    exchange with a 2xx JSON object whose [expires_in] is absent or a number
    that a float can hold; whether that object carries an [access_token] plays
    no part. *)
Theorem async_step_user_creates_entry (data : user_input) (w : world) :
  fst (async_step_user (Some data) w) = async_create_entry "Grandstream GWN" data
  <-> exists r d x,
        next_outcome w = Reply r /\ is_success r = true
        /\ parsed r = Some (JObj d) /\ lifetime d = Some x.
Proof.
  unfold async_step_user.
  destruct (validate_input_cases data w) as [E _]. cbv zeta in E.
  rewrite authenticate_cases in E. cbv zeta in E. unfold add_seconds in E.
  destruct (validate_input data w) as [[t|x] w']; cbn [fst] in E |- *.
  - split.
    + intros _. destruct (next_outcome w) as [msg|r|msg]; [discriminate| |discriminate].
      destruct (is_success r) eqn:Hs; [|discriminate].
      destruct (parsed r) as [[| | | | |d]|] eqn:Hp; try discriminate.
      destruct (seconds (get_default d "expires_in" (JNum 3600))) as [x|] eqn:He;
        [|discriminate].
      exists r, d, x. unfold lifetime. now rewrite He.
    + intros _. destruct (next_outcome w) as [msg|r|msg]; [discriminate| |discriminate].
      destruct (is_success r); [|discriminate].
      destruct (parsed r) as [[| | | | |d]|]; try discriminate.
      destruct (seconds _); cbn [rbind outcome_of fst] in E; [|discriminate].
      now injection E as <-.
  - split; [destruct x; discriminate|].
    intros (r & d & n & Ho & Hs & Hp & Hl). exfalso.
    rewrite Ho, Hs, Hp in E. unfold lifetime in Hl.
    destruct (seconds _); [|discriminate]. cbn [rbind outcome_of fst] in E. discriminate.
Qed.

(** X22: a user step with input issues exactly one request, the credential
    exchange with the server URL, app id and secret of the input; a step
    without input issues none and shows the form without errors. *)
Theorem async_step_user_exchange (input : option user_input) (w : world) :
  match input with
  | Some data =>
      issued w (snd (async_step_user input w))
      = [ AuthPost (CONF_SERVER_URL data ++ "/oauth/token")
            [ ("client_id", JStr (CONF_APP_ID data));
              ("client_secret", JStr (CONF_APP_SECRET data));
              ("grant_type", JStr "client_credentials") ] 10 ]
  | None => async_step_user input w = (async_show_form "user" [], w)
  end.
Proof.
  destruct input as [data|]; [|reflexivity].
  unfold async_step_user.
  destruct (validate_input_cases data w) as [_ E]. cbv zeta in E.
  destruct (authenticate_frame
              (init (CONF_APP_ID data) (CONF_APP_SECRET data) (CONF_SERVER_URL data)) w)
    as [I _]. rewrite <- E in I. apply issued_app in I.
  destruct (validate_input data w) as [[t|[| |e]] w']; exact I.
Qed.

(** * Properties of the sensors *)

(** What the lookup loop returns when it returns: [None] when every item has
    another mac, else an item whose mac is the one looked for. *)
Lemma find_by_mac_ret (mac : json) (items : list json) (v : json) :
  find_by_mac mac items = Ret v ->
  (v = JNull /\ Forall (other_mac mac) items)
  \/ (In v items /\ exists m, py_item v "mac" = Ret m /\ py_eq m mac = true).
Proof.
  induction items as [|item items IH]; cbn [find_by_mac].
  - intros [= <-]. left. split; [reflexivity | constructor].
  - destruct (py_item item "mac") as [m|] eqn:Em; [|discriminate]. cbn [rbind].
    destruct (py_eq m mac) eqn:Eq.
    + intros [= <-]. right. split; [now left | now exists m].
    + intros H. destruct (IH H) as [[-> F] | (Hin & Hm)].
      * left. split; [reflexivity|]. constructor; [now exists m | exact F].
      * right. split; [now right | exact Hm].
Qed.

Lemma find_by_mac_none (mac : json) (items : list json) :
  Forall (other_mac mac) items -> find_by_mac mac items = Ret JNull.
Proof.
  induction 1 as [|item items (m & Em & Eq) _ IH]; cbn [find_by_mac]; [reflexivity|].
  rewrite Em. cbn [rbind]. now rewrite Eq.
Qed.

Lemma find_by_mac_first (mac : json) (before after : list json) (rec m : json) :
  Forall (other_mac mac) before ->
  py_item rec "mac" = Ret m -> py_eq m mac = true ->
  find_by_mac mac (before ++ rec :: after) = Ret rec.
Proof.
  intros F Em Eq.
  induction F as [|item items (m' & Em' & Eq') _ IH]; cbn [find_by_mac app].
  - rewrite Em. cbn [rbind]. now rewrite Eq.
  - rewrite Em'. cbn [rbind]. now rewrite Eq'.
Qed.

(** X23: when the network list of a poll cycle is falsy, the coordinator is
    handed [None] as its data, and then nothing of the sensor platform works
    on it: the setup raises [AttributeError], and so does the value of every
    sensor and its availability as soon as the coordinator itself is
    available. *)
Theorem none_breaks_sensors (self s0 s1 : GWNClient) (w w0 w1 : world) (ok : bool)
    (networks : json) :
  authenticate self w = (Ret ok, s0, w0) ->
  get_networks s0 w0 = (Ret networks, s1, w1) ->
  truthy networks = false ->
  exists data,
    async_update_data self w = (Updated data, s1, w1)
    /\ async_setup_entry data = Raise AttributeError
    /\ (forall kind sensor, ap_native_value kind sensor data = Raise AttributeError)
    /\ (forall elapsed kind sensor,
          client_native_value elapsed kind sensor data = Raise AttributeError)
    /\ (forall sensor,
          ap_available sensor true data = Raise AttributeError
          /\ ap_available sensor false data = Ret false)
    /\ (forall sensor,
          client_available sensor true data = Raise AttributeError
          /\ client_available sensor false data = Ret false).
Proof.
  intros Ha Hn Ht. exists JNull.
  unfold async_update_data. rewrite get_data_cases, Ha, Hn, Ht.
  repeat split.
Qed.

Lemma none_breaks_sensors_witness :
  exists data,
    async_update_data demo networks_refused
    = (Updated data, client_of (get_data demo networks_refused),
       world_of (get_data demo networks_refused))
    /\ async_setup_entry data = Raise AttributeError
    /\ (forall kind sensor, ap_native_value kind sensor data = Raise AttributeError)
    /\ (forall elapsed kind sensor,
          client_native_value elapsed kind sensor data = Raise AttributeError)
    /\ (forall sensor,
          ap_available sensor true data = Raise AttributeError
          /\ ap_available sensor false data = Ret false)
    /\ (forall sensor,
          client_available sensor true data = Raise AttributeError
          /\ client_available sensor false data = Ret false).
Proof.
  apply (none_breaks_sensors demo (client_of (authenticate demo networks_refused)) _
           networks_refused (world_of (authenticate demo networks_refused)) _ true JNull).
  - vm_compute. reflexivity.
  - vm_compute. reflexivity.
  - reflexivity.
Defined.

(** ** The platform setup *)

Lemma collect_length (build : json -> result (list entity)) (n : nat) (items : list json) :
  Forall (fun item => exists es, build item = Ret es /\ List.length es = n) items ->
  exists all, collect build items = Ret all
              /\ List.length all = (n * List.length items)%nat.
Proof.
  induction 1 as [|item items (es & Eb & El) _ (all & Ec & La)]; cbn [collect].
  - exists []. split; [reflexivity | cbn; lia].
  - rewrite Eb. cbn [rbind]. rewrite Ec. cbn [rbind].
    exists (es ++ all)%list. split; [reflexivity|]. rewrite length_app. cbn [List.length]. lia.
Qed.

Lemma ap_entities_ok (ap : json) :
  has_mac_and_name ap = true ->
  exists es, ap_entities ap = Ret es /\ List.length es = 9%nat.
Proof.
  unfold has_mac_and_name, ap_entities, GWNAPBaseSensor_init, py_item.
  destruct ap as [| | | | |d]; try discriminate.
  destruct (dict_get "mac" d); [|discriminate].
  destruct (dict_get "name" d); [|discriminate]. intros _. cbn [rbind].
  eexists. split; reflexivity.
Qed.

Lemma client_entities_ok (c a : pydict) :
  exists es, client_entities (JObj (normalized c a)) = Ret es /\ List.length es = 13%nat.
Proof. eexists. split; reflexivity. Qed.

(** X24: from a snapshot of [get_data] in which every access point has a
    [mac] and a [name], the setup creates nine sensors for each access point
    and thirteen for each client; the client records never stand in its way,
    since normalization gave each of them a [mac] and a [name]. *)
Theorem async_setup_entry_count (aps_data clients_data snapshot : json) :
  join_lists aps_data clients_data = Ret snapshot ->
  Forall (fun ap => has_mac_and_name ap = true) (snapshot_aps snapshot) ->
  exists entities,
    async_setup_entry snapshot = Ret entities
    /\ List.length entities
       = (9 * List.length (snapshot_aps snapshot)
          + 13 * List.length (snapshot_clients snapshot))%nat.
Proof.
  intros Hj Fa.
  destruct (join_lists_inv _ _ _ Hj) as (aps_list & aps & m & raw & clients & -> & Hi & _ & _ & F).
  rewrite (snapshot_aps_eq _ _ _ Hi) in *.
  cbn [snapshot_clients dict_get String.eqb Ascii.eqb Bool.eqb].
  unfold async_setup_entry, py_get, get_default.
  cbn [rbind dict_get String.eqb Ascii.eqb Bool.eqb]. rewrite Hi. cbn [rbind py_iter].
  destruct (collect_length ap_entities 9 aps) as (ap_es & -> & La).
  { refine (Forall_impl _ _ Fa). intros ap. apply ap_entities_ok. }
  cbn [rbind].
  destruct (collect_length client_entities 13 clients) as (cl_es & -> & Lc).
  { clear - F. induction F as [|client rec raw clients Hn _ IH]; constructor; [|exact IH].
    destruct (normalize_client_inv m client rec Hn) as (c & a & _ & _ & _ & ->).
    apply client_entities_ok. }
  cbn [rbind]. eexists. split; [reflexivity|]. rewrite length_app. lia.
Qed.

Lemma async_setup_entry_count_witness :
  exists entities,
    async_setup_entry (value_of (join_lists lobby_aps lobby_clients)) = Ret entities
    /\ List.length entities
       = (9 * List.length (snapshot_aps (value_of (join_lists lobby_aps lobby_clients)))
          + 13 * List.length (snapshot_clients (value_of (join_lists lobby_aps lobby_clients))))%nat.
Proof.
  apply (async_setup_entry_count lobby_aps lobby_clients).
  - vm_compute. reflexivity.
  - vm_compute. repeat constructor.
Defined.

(** X25: the setup is stricter than [get_data] about the access points:
    [get_data] accepts an access point that has no [name] or no [mac], and the
    setup, which reads both with a subscript, fails on the first such access
    point of the snapshot with [KeyError], creating no entity at all. *)
Theorem async_setup_entry_key_error (aps_data clients_data snapshot : json) :
  join_lists aps_data clients_data = Ret snapshot ->
  Exists (fun ap => has_mac_and_name ap = false) (snapshot_aps snapshot) ->
  async_setup_entry snapshot = Raise KeyError.
Proof.
  intros Hj Ex.
  destruct (join_lists_inv _ _ _ Hj) as (aps_list & aps & m & raw & clients & -> & Hi & Hb & _).
  rewrite (snapshot_aps_eq _ _ _ Hi) in *.
  unfold async_setup_entry, py_get, get_default.
  cbn [rbind dict_get String.eqb Ascii.eqb Bool.eqb]. rewrite Hi. cbn [rbind].
  pose proof (build_aps_map_dicts aps [] m Hb) as Fd. clear - Ex Fd.
  assert (collect ap_entities aps = Raise KeyError) as ->; [|reflexivity].
  induction Fd as [|ap aps (a & ->) _ IH]; [inversion Ex|].
  cbn [collect]. unfold ap_entities at 1. unfold GWNAPBaseSensor_init, py_item.
  destruct (dict_get "mac" a) eqn:Em; [|reflexivity]. cbn [rbind].
  destruct (dict_get "name" a) eqn:En; [|reflexivity]. cbn [rbind].
  rewrite IH; [reflexivity|].
  inversion Ex as [x l H|x l H]; subst; [|exact H].
  cbn in H. rewrite Em, En in H. discriminate.
Qed.

Lemma async_setup_entry_key_error_witness :
  async_setup_entry
    (value_of (join_lists
                 (JObj [("data", JObj [("result", JArr [JObj [("mac", JStr "A1")]])])])
                 lobby_clients))
  = Raise KeyError.
Proof.
  apply (async_setup_entry_key_error
           (JObj [("data", JObj [("result", JArr [JObj [("mac", JStr "A1")]])])])
           lobby_clients).
  - vm_compute. reflexivity.
  - vm_compute. left. reflexivity.
Defined.

(** ** Unique ids *)

Lemma append_cancel (p a b : string) : p ++ a = p ++ b -> a = b.
Proof. induction p as [|c p IH]; cbn; [easy|]. intros [= H]. now apply IH. Qed.

(** X26: the nine sensors of an access point have nine different unique
    ids, but among the thirteen sensors of a client the VLAN sensor has the
    unique id (and the name, "Connected AP") of the connected-AP sensor,
    because the body of [GWNClientVlanIdSensor] ends with a second [__init__]
    that sets [<mac>_ap]; no other two sensors of a client share an id. *)
Theorem unique_id_clash (ap : GWNAPBaseSensor) (client : GWNClientBaseSensor) :
  (forall k1 k2, ap_unique_id k1 ap = ap_unique_id k2 ap -> k1 = k2)
  /\ (forall k1 k2,
        client_unique_id k1 client = client_unique_id k2 client
        <-> k1 = k2
            \/ (k1 = GWNClientAPSensor /\ k2 = GWNClientVlanIdSensor)
            \/ (k1 = GWNClientVlanIdSensor /\ k2 = GWNClientAPSensor))
  /\ client_attr_name GWNClientVlanIdSensor = client_attr_name GWNClientAPSensor.
Proof.
  split; [|split; [|reflexivity]].
  - intros k1 k2 H. apply append_cancel in H.
    destruct k1, k2; try reflexivity; discriminate.
  - intros k1 k2. split.
    + intros H. apply append_cancel in H.
      destruct k1, k2; auto; discriminate.
    + intros [-> | [[-> ->] | [-> ->]]]; reflexivity.
Qed.

(** ** The values the sensors read *)

Lemma normalized_find (mac : json) (clients : list json) :
  Forall (fun rec => exists c a, rec = JObj (normalized c a)) clients ->
  find_by_mac mac clients = Ret JNull
  \/ exists c a, find_by_mac mac clients = Ret (JObj (normalized c a)).
Proof.
  induction 1 as [|rec clients (c & a & ->) _ IH]; cbn [find_by_mac]; [now left|].
  cbn [py_item normalized dict_get String.eqb Ascii.eqb Bool.eqb rbind].
  destruct (py_eq _ mac); [right; now exists c, a | exact IH].
Qed.

(** X27: on a snapshot of [get_data] three client sensors never have
    anything to show, because the records are never given the field they
    read: the VLAN sensor (which reads [ap]) and the last-seen sensor (which
    reads [lastactive]) are always [None], and the channel-class sensor (which
    reads [channelClassStr]) is "Unknown" for every client of the snapshot and
    [None] for a client that left it. *)
Theorem snapshot_blind_sensors (aps_data clients_data snapshot : json)
    (elapsed : string -> json) (sensor : GWNClientBaseSensor) :
  join_lists aps_data clients_data = Ret snapshot ->
  client_native_value elapsed GWNClientVlanIdSensor sensor snapshot = Ret JNull
  /\ client_native_value elapsed GWNClientLastSeenSensor sensor snapshot = Ret JNull
  /\ (client_native_value elapsed GWNClientChannelClassSensor sensor snapshot = Ret JNull
      \/ client_native_value elapsed GWNClientChannelClassSensor sensor snapshot
         = Ret (JStr "Unknown")).
Proof.
  intros Hj.
  destruct (join_lists_inv _ _ _ Hj) as (aps_list & aps & m & raw & clients & -> & _ & _ & _ & F).
  assert (Forall (fun rec => exists c a, rec = JObj (normalized c a)) clients) as Fn.
  { clear - F. induction F as [|client rec raw clients Hn _ IH]; constructor; [|exact IH].
    destruct (normalize_client_inv m client rec Hn) as (c & a & _ & _ & _ & ->).
    now exists c, a. }
  unfold client_native_value, _client_data, py_get, get_default.
  cbn [rbind dict_get String.eqb Ascii.eqb Bool.eqb py_iter].
  destruct (normalized_find (_client_mac sensor) clients Fn) as [-> | (c & a & ->)];
    cbn [rbind truthy normalized]; auto.
Qed.

Lemma snapshot_blind_sensors_witness :
  client_native_value (fun _ => JNum 0) GWNClientVlanIdSensor
    (ClientSensor (JStr "C1") (JStr "Phone") (JStr "Lobby") (JStr "A1"))
    (value_of (join_lists lobby_aps lobby_clients))
  = Ret JNull
  /\ client_native_value (fun _ => JNum 0) GWNClientLastSeenSensor
       (ClientSensor (JStr "C1") (JStr "Phone") (JStr "Lobby") (JStr "A1"))
       (value_of (join_lists lobby_aps lobby_clients))
     = Ret JNull
  /\ (client_native_value (fun _ => JNum 0) GWNClientChannelClassSensor
        (ClientSensor (JStr "C1") (JStr "Phone") (JStr "Lobby") (JStr "A1"))
        (value_of (join_lists lobby_aps lobby_clients))
      = Ret JNull
      \/ client_native_value (fun _ => JNum 0) GWNClientChannelClassSensor
           (ClientSensor (JStr "C1") (JStr "Phone") (JStr "Lobby") (JStr "A1"))
           (value_of (join_lists lobby_aps lobby_clients))
         = Ret (JStr "Unknown")).
Proof.
  apply (snapshot_blind_sensors lobby_aps lobby_clients). vm_compute. reflexivity.
Defined.

(** X28: an access point that is no longer in the data of the coordinator
    (every access point there has another mac) shows [None] on all its nine
    sensors and is unavailable, but its [device_info] raises
    [AttributeError], since it reads the model from the [None] that the lookup
    returned. *)
Theorem ap_vanished (sensor : GWNAPBaseSensor) (d : pydict) (aps : list json) :
  dict_get "aps" d = Some (JArr aps) ->
  Forall (other_mac (_ap_mac sensor)) aps ->
  (forall kind, ap_native_value kind sensor (JObj d) = Ret JNull)
  /\ ap_available sensor true (JObj d) = Ret false
  /\ ap_device_model sensor (JObj d) = Raise AttributeError.
Proof.
  intros Hd F.
  assert (_ap_data sensor (JObj d) = Ret JNull) as E.
  { unfold _ap_data, py_get, get_default. rewrite Hd. cbn [rbind py_iter].
    now apply find_by_mac_none. }
  unfold ap_native_value, ap_available, ap_device_model. rewrite E. now repeat split.
Qed.

Lemma ap_vanished_witness :
  (forall kind,
     ap_native_value kind (APSensor (JStr "A9") (JStr "Attic"))
       (JObj [("aps", JArr [JObj [("mac", JStr "A1"); ("name", JStr "Lobby")]]);
              ("clients", JArr [])])
     = Ret JNull)
  /\ ap_available (APSensor (JStr "A9") (JStr "Attic")) true
       (JObj [("aps", JArr [JObj [("mac", JStr "A1"); ("name", JStr "Lobby")]]);
              ("clients", JArr [])])
     = Ret false
  /\ ap_device_model (APSensor (JStr "A9") (JStr "Attic"))
       (JObj [("aps", JArr [JObj [("mac", JStr "A1"); ("name", JStr "Lobby")]]);
              ("clients", JArr [])])
     = Raise AttributeError.
Proof.
  apply (ap_vanished (APSensor (JStr "A9") (JStr "Attic")) _
           [JObj [("mac", JStr "A1"); ("name", JStr "Lobby")]]).
  - reflexivity.
  - constructor; [|constructor]. exists (JStr "A1"). split; reflexivity.
Defined.

(** X29: a client sensor reads the first record of the current data whose
    [mac] equals its own, so that of two records with one mac the second is
    never shown; with such a record the sensor is available, its status reads
    "Online" when [online] is truthy and "Offline" when it is falsy or
    missing, and its connected access point is the [ap_name] of that
    record. *)
Theorem client_sensor_reads_first (elapsed : string -> json) (sensor : GWNClientBaseSensor)
    (d r : pydict) (before after : list json) (m : json) :
  dict_get "clients" d = Some (JArr (before ++ JObj r :: after)) ->
  Forall (other_mac (_client_mac sensor)) before ->
  dict_get "mac" r = Some m -> py_eq m (_client_mac sensor) = true ->
  _client_data sensor (JObj d) = Ret (JObj r)
  /\ client_available sensor true (JObj d) = Ret true
  /\ client_native_value elapsed GWNClientStatusSensor sensor (JObj d)
     = Ret (JStr (if truthy (get_default r "online" (JNum 0)) then "Online" else "Offline"))
  /\ client_native_value elapsed GWNClientAPSensor sensor (JObj d)
     = Ret (get_default r "ap_name" (JStr "Unknown")).
Proof.
  intros Hd F Hm Eq.
  assert (_client_data sensor (JObj d) = Ret (JObj r)) as E.
  { unfold _client_data, py_get, get_default. rewrite Hd. cbn [rbind py_iter].
    apply (find_by_mac_first _ _ _ _ m F); [|exact Eq].
    unfold py_item. now rewrite Hm. }
  assert (truthy (JObj r) = true) as T by (destruct r; [discriminate | reflexivity]).
  unfold client_available, client_native_value. rewrite E. cbn [rbind]. rewrite T.
  now repeat split.
Qed.

Lemma client_sensor_reads_first_witness :
  _client_data (ClientSensor (JStr "C1") (JStr "Phone") (JStr "Lobby") (JStr "A1"))
    (JObj [("clients", JArr ([] ++ JObj [("mac", JStr "C1"); ("online", JNum 1)]
                                :: [JObj [("mac", JStr "C1"); ("online", JNum 0)]]))])
  = Ret (JObj [("mac", JStr "C1"); ("online", JNum 1)])
  /\ client_available (ClientSensor (JStr "C1") (JStr "Phone") (JStr "Lobby") (JStr "A1")) true
       (JObj [("clients", JArr ([] ++ JObj [("mac", JStr "C1"); ("online", JNum 1)]
                                   :: [JObj [("mac", JStr "C1"); ("online", JNum 0)]]))])
     = Ret true
  /\ client_native_value (fun _ => JNull) GWNClientStatusSensor
       (ClientSensor (JStr "C1") (JStr "Phone") (JStr "Lobby") (JStr "A1"))
       (JObj [("clients", JArr ([] ++ JObj [("mac", JStr "C1"); ("online", JNum 1)]
                                   :: [JObj [("mac", JStr "C1"); ("online", JNum 0)]]))])
     = Ret (JStr (if truthy (get_default [("mac", JStr "C1"); ("online", JNum 1)] "online"
                               (JNum 0))
                  then "Online" else "Offline"))
  /\ client_native_value (fun _ => JNull) GWNClientAPSensor
       (ClientSensor (JStr "C1") (JStr "Phone") (JStr "Lobby") (JStr "A1"))
       (JObj [("clients", JArr ([] ++ JObj [("mac", JStr "C1"); ("online", JNum 1)]
                                   :: [JObj [("mac", JStr "C1"); ("online", JNum 0)]]))])
     = Ret (get_default [("mac", JStr "C1"); ("online", JNum 1)] "ap_name" (JStr "Unknown")).
Proof.
  apply (client_sensor_reads_first (fun _ => JNull)
           (ClientSensor (JStr "C1") (JStr "Phone") (JStr "Lobby") (JStr "A1"))
           _ _ [] [JObj [("mac", JStr "C1"); ("online", JNum 0)]] (JStr "C1")).
  - reflexivity.
  - constructor.
  - reflexivity.
  - reflexivity.
Defined.
